(** * Retrieval orchestration layer of the article search guide

    A shallow embedding of the Python backend of
    [guides/semantic_search_over_articles] (indexer_ze.py, utils_ze.py,
    __main__.py) and of the router of the dashboard (streamlit_app_ze.py),
    with the properties its specification states about them.

    Conventions of the embedding:
    - a Python [str] is a [string]; one [ascii] stands for one character.
      Every string operation the code uses (slicing, concatenation,
      comparison with a literal, [strip], [join], [replace]) is taken
      character by character, so nothing depends on the alphabet;
    - a Python [int] is a [Z] (a loop ordinal or a counter a [nat]), a
      Python [float] a binary64 [float];
    - a dictionary with an open set of keys is a [gmap]; the article
      dictionary, whose seven keys the docstrings fix, is a record;
    - a coroutine is a computation in the monad [M] below: it threads the
      state of the outside world, records every call that crosses the
      boundary of the program, and either returns or raises. *)

From Stdlib Require Import ZArith String Ascii Floats Lia.
From stdpp Require Import base gmap strings list pretty.

Set Warnings "-register-all".
Set Default Proof Using "Type".

#[local] Open Scope string_scope.
#[local] Open Scope Z_scope.
#[local] Open Scope list_scope.

(** ** Python values *)

(** The values that travel through result dictionaries. *)
Inductive pyval :=
| VNone
| VBool (b : bool)
| VInt (z : Z)
| VFloat (f : float)
| VStr (s : string)
| VList (l : list pyval)
| VDict (d : gmap string pyval).

Abbreviation dict := (gmap string pyval).

(** The exceptions that the modelled code can meet.  [ConflictError] is the
    SDK's error for HTTP 409; [APIError cls] is any other exception class of
    the SDK (a status error, a connection error, a timeout), by its name. *)
Inductive exn :=
| ConflictError
| APIError (cls : string)
| KeyError (key : string)
| IndexError
| TypeError
| AttributeError
| UnboundLocalError (name : string).

Inductive outcome (A : Type) :=
| Ok (a : A)
| Raise (e : exn).
Arguments Ok {A} a.
Arguments Raise {A} e.

(** Truth value of an object, as [if x:] and [not x] test it. *)
Definition truthy (v : pyval) : bool :=
  match v with
  | VNone => false
  | VBool b => b
  | VInt z => negb (z =? 0)
  | VFloat f => negb (PrimFloat.eqb f 0%float)
  | VStr s => negb (String.eqb s "")
  | VList l => match l with [] => false | _ => true end
  | VDict d => negb (bool_decide (d = ∅))
  end.

(** [if s:] for an argument that is a string or [None]. *)
Definition provided (o : option string) : bool :=
  match o with
  | None => false
  | Some s => negb (String.eqb s "")
  end.

(** [l[i]] for a Python integer [i]: a negative index counts from the end,
    and an index outside [-len, len) raises [IndexError]. *)
Definition py_index {A} (l : list A) (i : Z) : outcome A :=
  let n := Z.of_nat (length l) in
  let j := if i <? 0 then i + n else i in
  if (j <? 0) || (n <=? j) then Raise IndexError
  else match l !! Z.to_nat j with
       | Some a => Ok a
       | None => Raise IndexError
       end.

(** The integer an object denotes when it is used as a list index. *)
Definition as_index (v : pyval) : option Z :=
  match v with
  | VInt z => Some z
  | VBool b => Some (if b then 1 else 0)
  | _ => None
  end.

(** [d[key]] *)
Definition getitem (d : dict) (key : string) : outcome pyval :=
  match d !! key with
  | Some v => Ok v
  | None => Raise (KeyError key)
  end.

(** ** Strings *)

Definition nl : string := String "010"%char "".

(** [s[:n]] *)
Fixpoint slice_to (n : nat) (s : string) : string :=
  match n, s with
  | S n', String c s' => String c (slice_to n' s')
  | _, _ => ""
  end.

(** [sep.join(parts)] *)
Fixpoint join (sep : string) (parts : list string) : string :=
  match parts with
  | [] => ""
  | [p] => p
  | p :: rest => p +:+ sep +:+ join sep rest
  end.

(** [s.replace(a, b)] for one-character [a] and [b]. *)
Fixpoint replace_char (a b : ascii) (s : string) : string :=
  match s with
  | "" => ""
  | String c s' => String (if Ascii.eqb c a then b else c) (replace_char a b s')
  end.

(** [str.isspace] on one character (code points below 256). *)
Definition isspace (c : ascii) : bool :=
  let n := nat_of_ascii c in
  ((9 <=? n) && (n <=? 13) || (28 <=? n) && (n <=? 32) || (n =? 133) || (n =? 160))%nat.

Fixpoint lstrip (s : string) : string :=
  match s with
  | String c s' => if isspace c then lstrip s' else s
  | "" => ""
  end.

(** The string without its trailing white space. *)
Fixpoint rstrip (s : string) : string :=
  match s with
  | "" => ""
  | String c s' =>
      match rstrip s' with
      | "" => if isspace c then "" else String c ""
      | r => String c r
      end
  end.

(** [s.strip()] *)
Definition strip (s : string) : string := rstrip (lstrip s).

(** ** The boundary of the program *)

Inductive level := INFO | WARNING | ERROR.

#[global] Instance level_eq_dec : EqDecision level.
Proof. solve_decision. Defined.

(** A metadata filter: field name to clause, a clause being operator to
    operand, as in [{"creator": {"$eq": "Jane"}}]. *)
Abbreviation filter := (gmap string (gmap string string)).

(** The calls of [ZeroEntropyArticleSearcher] (search_ze.py) and the
    printing helpers, which the routers only dispatch to. *)
Inductive searcher_call :=
| SearchDocuments (query : string) (k : Z) (filter_dict : option filter) (reranker : string)
| SearchSnippets (query : string) (k : Z) (filter_dict : option filter) (reranker : string)
| SearchPages (query : string) (k : Z) (filter_dict : option filter)
| DisplayDocumentResults (results : list dict) (query : string)
| DisplaySnippetResults (results : list dict) (query : string)
| DisplayPageResults (results : list dict) (query : string)
| DisplayAdvancedResults (results : list dict) (query : string)
| GetCollectionStatus.

(** What an observer at the boundary sees, in order: each call of the
    index service's client with its arguments and its outcome, each call of
    the searcher, each line handed to the logger. *)
Inductive event :=
| EvCollectionsAdd (collection_name : string) (r : outcome unit)
| EvCollectionsDelete (collection_name : string) (r : outcome unit)
| EvCollectionsGetList (r : outcome (list string))
| EvDocumentsAdd (collection_name path : string)
    (content metadata : gmap string string) (r : outcome unit)
| EvDocumentsGetInfo (collection_name : string) (path : pyval)
    (include_content : bool) (r : outcome (option dict))
| EvTopDocuments (collection_name query : string) (k : Z)
    (include_metadata : bool) (latency_mode : string) (r : outcome (list dict))
| EvRerank (query : string) (documents : list pyval) (model : string)
    (top_n : Z) (r : outcome (list dict))
| EvSearcher (c : searcher_call)
| EvLog (lvl : level) (msg : string).

(** The client [AsyncZeroEntropy], over a state [W] of the outside world.
    Each method takes the keyword arguments the code passes, in the order
    written there, and returns the attribute of the response the code reads
    ([.results], [.document], [.collection_names]), or raises. *)
Class ZeroEntropy (W : Type) := {
  collections_add : string -> W -> W * outcome unit;
  collections_delete : string -> W -> W * outcome unit;
  collections_get_list : W -> W * outcome (list string);
  documents_add :
    string -> string -> gmap string string -> gmap string string ->
    W -> W * outcome unit;
  documents_get_info : string -> pyval -> bool -> W -> W * outcome (option dict);
  queries_top_documents :
    string -> string -> Z -> bool -> string -> W -> W * outcome (list dict);
  models_rerank : string -> list pyval -> string -> Z -> W -> W * outcome (list dict)
}.

(** The searcher and the printing helpers, as the routers see them. *)
Class Searcher (W : Type) := {
  search_documents : string -> Z -> option filter -> string -> W -> W * outcome (list dict);
  search_snippets : string -> Z -> option filter -> string -> W -> W * outcome (list dict);
  search_pages : string -> Z -> option filter -> W -> W * outcome (list dict);
  display_document_results : list dict -> string -> W -> W * outcome unit;
  display_snippet_results : list dict -> string -> W -> W * outcome unit;
  display_page_results : list dict -> string -> W -> W * outcome unit;
  display_advanced_results : list dict -> string -> W -> W * outcome unit;
  get_collection_status : W -> W * outcome pyval
}.

(** The two builtins of the interpreter that the code formats with, as one
    process has them: [hash] on a string, and [str] on an object. *)
Class Builtins := {
  builtin_hash : string -> Z;
  builtin_str : pyval -> string
}.

(** ** The monad of coroutines *)

Definition M (W A : Type) : Type := W -> W * list event * outcome A.

Definition ret {W A} (a : A) : M W A := fun w => (w, [], Ok a).

Definition raise {W A} (e : exn) : M W A := fun w => (w, [], Raise e).

Definition bind {W A B} (m : M W A) (f : A -> M W B) : M W B :=
  fun w =>
    let '(w1, t1, r) := m w in
    match r with
    | Raise e => (w1, t1, Raise e)
    | Ok a => let '(w2, t2, r2) := f a w1 in (w2, t1 ++ t2, r2)
    end.

Notation "x <- m ;; k" := (bind m (fun x => k))
  (at level 100, m at next level, right associativity).
Notation "m ;;; k" := (bind m (fun _ => k))
  (at level 100, right associativity).

(** [try: m  except ConflictError: h] *)
Definition except_conflict {W A} (m : M W A) (h : M W A) : M W A :=
  fun w =>
    let '(w1, t1, r) := m w in
    match r with
    | Raise ConflictError => let '(w2, t2, r2) := h w1 in (w2, t1 ++ t2, r2)
    | _ => (w1, t1, r)
    end.

(** A call across the boundary: run it, record it with its outcome. *)
Definition call {W A} (op : W -> W * outcome A) (ev : outcome A -> event) : M W A :=
  fun w => let '(w1, r) := op w in (w1, [ev r], r).

(** A call of the searcher, recorded by its arguments. *)
Definition call_searcher {W A} (op : W -> W * outcome A) (c : searcher_call) : M W A :=
  fun w => let '(w1, r) := op w in (w1, [EvSearcher c], r).

(** An already computed outcome as a computation. *)
Definition lift {W A} (r : outcome A) : M W A := fun w => (w, [], r).

(** [logger.info(msg)], [logger.warning(msg)]: the logging module reports a
    failing handler on stderr and does not raise. *)
Definition log {W} (lvl : level) (msg : string) : M W unit :=
  fun w => (w, [EvLog lvl msg], Ok tt).

Definition trace_of {W A} (x : W * list event * outcome A) : list event := x.1.2.
Definition value_of {W A} (x : W * list event * outcome A) : outcome A := x.2.
Definition world_of {W A} (x : W * list event * outcome A) : W := x.1.1.

(** The monad of plain outcomes, for the steps that make no call. *)
Definition rbind {A B} (r : outcome A) (f : A -> outcome B) : outcome B :=
  match r with
  | Ok a => f a
  | Raise e => Raise e
  end.

Notation "x <~ r ;; k" := (rbind r (fun x => k))
  (at level 100, r at next level, right associativity).

(** [d.get(key, dflt)] *)
Definition dict_get {V} (d : gmap string V) (key : string) (dflt : V) : V :=
  default dflt (d !! key).

(** ** indexer_ze.py: the ingestion pipeline *)

(** An article dictionary, with the keys [get_rss_feed_content] gives it
    and [index_articles] reads. *)
Record article := {
  title : string;
  creator : string;
  categories : list string;
  description : string;
  pub_date : string;
  content : string;
  source_url : string
}.

(** The two counters of [index_articles]. *)
Record counters := {
  indexed_count : nat;
  failed_count : nat
}.

Section Indexer.
Context {W : Type} `{!ZeroEntropy W} `{!Builtins}.
(** [self.collection_name] *)
Variable collection_name : string.

Definition initialize_collection : M W unit :=
  except_conflict
    (call (collections_add collection_name) (EvCollectionsAdd collection_name) ;;;
     log INFO ("Created new collection: " +:+ collection_name))
    (log ERROR ("Collection '" +:+ collection_name +:+ "' already exists")).

(** [f"article_{idx}_{hash(article['title'][:50])}"] *)
Definition doc_path (idx : nat) (a : article) : string :=
  "article_" +:+ pretty idx +:+ "_" +:+ pretty (builtin_hash (slice_to 50 (title a))).

Definition full_content (a : article) : string :=
  ("Title: " +:+ title a +:+ nl +:+ nl)
  +:+ ("Description: " +:+ description a +:+ nl +:+ nl)
  +:+ ("Content: " +:+ content a).

Definition metadata_of (a : article) : gmap string string :=
  list_to_map
    [ ("title", slice_to 500 (title a));
      ("creator", slice_to 200 (creator a));
      ("categories", slice_to 300 (join ", " (take 5 (categories a))));
      ("pub_date", slice_to 100 (pub_date a));
      ("source_url", slice_to 300 (source_url a));
      ("type", "rss_article") ].

Definition content_of (a : article) : gmap string string :=
  list_to_map [ ("type", "text"); ("text", full_content a) ].

(** One turn of the loop: the [try] block and its [except ConflictError]. *)
Definition index_one (idx : nat) (a : article) (c : counters) : M W counters :=
  except_conflict
    (call (documents_add collection_name (doc_path idx a) (content_of a) (metadata_of a))
          (EvDocumentsAdd collection_name (doc_path idx a) (content_of a) (metadata_of a)) ;;;
     let c' := {| indexed_count := S (indexed_count c); failed_count := failed_count c |} in
     (if (indexed_count c' mod 10 =? 0)%nat
      then log INFO ("Indexed " +:+ pretty (indexed_count c') +:+ " articles...")
      else ret tt) ;;;
     ret c')
    (log WARNING ("Article " +:+ pretty idx +:+ " already exists, skipping...") ;;;
     ret c).

(** [for idx, article in enumerate(articles)], from ordinal [idx] on. *)
Fixpoint index_loop (idx : nat) (articles : list article) (c : counters) : M W counters :=
  match articles with
  | [] => ret c
  | a :: rest => c' <- index_one idx a c ;; index_loop (S idx) rest c'
  end.

(** The line that reports the two counters. *)
Definition report (c : counters) : string :=
  "Indexing complete. Success: " +:+ pretty (indexed_count c)
  +:+ ", Failed: " +:+ pretty (failed_count c).

Definition index_articles (articles : list article) : M W unit :=
  c <- index_loop 0 articles {| indexed_count := 0; failed_count := 0 |} ;;
  log INFO (report c).
End Indexer.

(** ** utils_ze.py: collection management and retrieve-then-rerank *)

Section Utils.
Context {W : Type} `{!ZeroEntropy W} `{!Builtins}.
(** [self.collection_name] *)
Variable self_collection_name : string.

Definition rerank_documents (query : string) (document_texts : list pyval)
    (model : string) (top_n : Z) : M W (list dict) :=
  call (models_rerank query document_texts model top_n)
       (EvRerank query document_texts model top_n).

Definition list_all_collections : M W (list string) :=
  call collections_get_list EvCollectionsGetList.

Definition delete_collection (collection_name : string) : M W bool :=
  call (collections_delete collection_name) (EvCollectionsDelete collection_name) ;;;
  log INFO ("Successfully deleted collection: " +:+ collection_name) ;;;
  ret true.

Definition get_document_info (path : pyval) (collection_name : option string)
    (include_content : bool) : M W (option dict) :=
  let collection_name := default self_collection_name collection_name in
  call (documents_get_info collection_name path include_content)
       (EvDocumentsGetInfo collection_name path include_content).

(** The text built from the metadata when a document has no content. *)
Definition fallback_text (result : dict) : outcome pyval :=
  match dict_get result "metadata" (VDict ∅) with
  | VDict metadata =>
      Ok (VStr (builtin_str (dict_get metadata "title" (VStr "")) +:+ " "
                +:+ builtin_str (dict_get metadata "description" (VStr ""))))
  | _ => Raise AttributeError
  end.

(** [if doc_info and doc_info.get("content"): ... else: ...] *)
Definition document_text (result : dict) (doc_info : option dict) : outcome pyval :=
  match doc_info with
  | Some d =>
      if truthy (VDict d) && truthy (dict_get d "content" VNone)
      then getitem d "content"
      else fallback_text result
  | None => fallback_text result
  end.

(** The body of the loop that fills [document_texts]. *)
Definition hydrate (collection_name : string) (result : dict) : M W pyval :=
  path <- lift (getitem result "path") ;;
  doc_info <- get_document_info path (Some collection_name) true ;;
  lift (document_text result doc_info).

Fixpoint hydrate_all (collection_name : string) (results : list dict) : M W (list pyval) :=
  match results with
  | [] => ret []
  | result :: rest =>
      text <- hydrate collection_name result ;;
      texts <- hydrate_all collection_name rest ;;
      ret (text :: texts)
  end.

(** The body of the loop that fills [final_results]. *)
Definition merge_one (results : list dict) (rerank_result : dict) : outcome dict :=
  i <~ getitem rerank_result "index" ;;
  original_result <~ match as_index i with
                     | Some z => py_index results z
                     | None => Raise TypeError
                     end ;;
  rerank_score <~ getitem rerank_result "relevance_score" ;;
  score <~ getitem original_result "score" ;;
  Ok (<["original_score" := score]> (<["rerank_score" := rerank_score]> original_result)).

Fixpoint merge_all (results rerank_results : list dict) : outcome (list dict) :=
  match rerank_results with
  | [] => Ok []
  | rerank_result :: rest =>
      item <~ merge_one results rerank_result ;;
      items <~ merge_all results rest ;;
      Ok (item :: items)
  end.

Definition search_and_rerank (query : string) (k rerank_top_n : Z)
    (collection_name : option string) : M W (list dict) :=
  let collection_name := default self_collection_name collection_name in
  results <- call (queries_top_documents collection_name query k true "low")
                  (EvTopDocuments collection_name query k true "low") ;;
  match results with
  | [] => ret []
  | _ =>
      document_texts <- hydrate_all collection_name results ;;
      rerank_results <- rerank_documents query document_texts "zerank-1-small"
                          (Z.min rerank_top_n (Z.of_nat (length document_texts))) ;;
      lift (merge_all results rerank_results)
  end.
End Utils.

(** ** __main__.py: the query router and collection management *)

(** The lines of [search_articles] and of [get_search_results] that prepare
    [filter_dict]: start from [{}], add a clause per argument that is
    true, and turn an empty dictionary into [None]. *)
Definition build_filter (filter_creator filter_category : option string) : option filter :=
  let filter_dict : filter := ∅ in
  let filter_dict :=
    if provided filter_creator
    then <["creator" := {["$eq" := default "" filter_creator]}]> filter_dict
    else filter_dict in
  let filter_dict :=
    if provided filter_category
    then <["categories" := {["$eq" := default "" filter_category]}]> filter_dict
    else filter_dict in
  if bool_decide (filter_dict = ∅) then None else Some filter_dict.

Section Manager.
Context {W : Type} `{!ZeroEntropy W} `{!Searcher W} `{!Builtins}.
(** [self.collection_name], shared by the searcher and the utilities. *)
Variable collection_name : string.

(** The [if]/[elif] chain of [search_articles]: [Some] of what it binds
    [results] to, [None] when no branch binds it. *)
Definition dispatch (query search_type : string) (k : Z)
    (filter_dict : option filter) (reranker : string) : M W (option (list dict)) :=
  if String.eqb search_type "documents" then
    results <- call_searcher (search_documents query k filter_dict reranker)
                 (SearchDocuments query k filter_dict reranker) ;;
    call_searcher (display_document_results results query)
      (DisplayDocumentResults results query) ;;;
    ret (Some results)
  else if String.eqb search_type "snippets" then
    results <- call_searcher (search_snippets query k filter_dict reranker)
                 (SearchSnippets query k filter_dict reranker) ;;
    call_searcher (display_snippet_results results query)
      (DisplaySnippetResults results query) ;;;
    ret (Some results)
  else if String.eqb search_type "pages" then
    results <- call_searcher (search_pages query k filter_dict)
                 (SearchPages query k filter_dict) ;;
    call_searcher (display_page_results results query)
      (DisplayPageResults results query) ;;;
    ret (Some results)
  else if String.eqb search_type "advanced" then
    results <- search_and_rerank collection_name query (k * 2) k None ;;
    call_searcher (display_advanced_results results query)
      (DisplayAdvancedResults results query) ;;;
    ret (Some results)
  else ret None.

Definition search_articles (query search_type : string) (k : Z)
    (filter_creator filter_category : option string) (reranker : string)
    (show_status : bool) : M W (list dict) :=
  (if show_status
   then call_searcher get_collection_status GetCollectionStatus ;;; ret tt
   else ret tt) ;;;
  let filter_dict := build_filter filter_creator filter_category in
  bound <- dispatch query search_type k filter_dict reranker ;;
  (* return results *)
  match bound with
  | Some results => ret results
  | None => raise (UnboundLocalError "results")
  end.

Definition manage_collections (action : string) (name : option string) : M W pyval :=
  if String.eqb action "list" then
    collections <- list_all_collections ;;
    log INFO ("Available collections: " +:+ builtin_str (VList (VStr <$> collections))) ;;;
    ret (VList (VStr <$> collections))
  else if String.eqb action "delete" && provided name then
    success <- delete_collection (default "" name) ;;
    (if success
     then log INFO ("Successfully deleted collection: " +:+ default "" name)
     else log INFO ("Failed to delete collection: " +:+ default "" name)) ;;;
    ret (VBool success)
  else if String.eqb action "status" then
    call_searcher get_collection_status GetCollectionStatus
  else
    log INFO "Invalid action or missing collection name" ;;;
    ret VNone.
End Manager.

(** ** streamlit_app_ze.py: the router of the dashboard *)

Section Frontend.
Context {W : Type} `{!ZeroEntropy W} `{!Searcher W} `{!Builtins}.

Definition get_search_results (query search_type : string) (k : Z)
    (collection_name : string) (filter_creator filter_category : option string)
    (reranker : string) : M W (list dict * string) :=
  let filter_dict := build_filter filter_creator filter_category in
  results <-
    (if String.eqb search_type "documents" then
       call_searcher (search_documents query k filter_dict reranker)
         (SearchDocuments query k filter_dict reranker)
     else if String.eqb search_type "snippets" then
       call_searcher (search_snippets query k filter_dict reranker)
         (SearchSnippets query k filter_dict reranker)
     else if String.eqb search_type "pages" then
       call_searcher (search_pages query k filter_dict)
         (SearchPages query k filter_dict)
     else if String.eqb search_type "advanced" then
       search_and_rerank collection_name query (k * 2) k None
     else ret []) ;;
  ret (results, search_type).
End Frontend.

(** ** indexer_ze.py: the content normalizer *)

(** A parsed document, as BeautifulSoup holds it: text, comments and
    elements.  The document itself is an element named ["[document]"]. *)
Inductive node :=
| Text (s : string)
| Comment (s : string)
| Elem (name : string) (children : list node).

(** [tag.descendants]: everything below the element, in document order. *)
Fixpoint descendants (n : node) : list node :=
  match n with
  | Elem _ children => flat_map (fun c => c :: descendants c) children
  | _ => []
  end.

Definition named (names : list string) (n : node) : bool :=
  match n with
  | Elem name _ => existsb (String.eqb name) names
  | _ => false
  end.

(** [tag.find_all(name)] and [tag.find(name)] *)
Definition find_all (name : string) (n : node) : list node :=
  List.filter (named [name]) (descendants n).

Definition find (name : string) (n : node) : option node :=
  head (find_all name n).

(** The strings [get_text] collects: text nodes in document order,
    comments left out. *)
Fixpoint strings (n : node) : list string :=
  match n with
  | Text s => [s]
  | Comment _ => []
  | Elem _ children => flat_map strings children
  end.

Definition nonempty (s : string) : bool := negb (String.eqb s "").

(** [tag.get_text(separator=sep, strip=True)]: every string is stripped,
    the empty ones are dropped, the rest is joined. *)
Definition get_text (sep : string) (n : node) : string :=
  join sep (List.filter nonempty (strip <$> strings n)).

(** [for t in soup(names): t.decompose()]: every element with one of the
    names leaves the tree, with all that is below it. *)
Fixpoint decompose (names : list string) (n : node) : node :=
  match n with
  | Elem name children =>
      Elem name
        ((fix keep (cs : list node) : list node :=
            match cs with
            | [] => []
            | c :: cs' => if named names c then keep cs' else decompose names c :: keep cs'
            end) children)
  | _ => n
  end.

(** What the normalizer takes from outside: the feed behind a URL, fetched
    and parsed as XML ([requests.get], [raise_for_status],
    [BeautifulSoup(response.content, "xml")]), and the HTML parser
    [BeautifulSoup(text, "html.parser")]. *)
Class Parsers := {
  fetch_feed : string -> outcome node;
  html_parser : string -> node
}.

Section Normalizer.
Context `{!Parsers}.

(** [item.find(name).get_text(strip=True) if item.find(name) else "N/A"];
    a tag is true whatever it holds. *)
Definition text_or_na (item : node) (name : string) : string :=
  match find name item with
  | Some tag => get_text "" tag
  | None => "N/A"
  end.

(** The clean-up of a piece of HTML: parse, drop scripts and styles, take
    the text with single spaces, replace the newlines. *)
Definition clean_html (text : string) : string :=
  replace_char "010" " " (get_text " " (decompose ["script"; "style"] (html_parser text))).

(** The body of the loop over the items of a feed. *)
Definition article_of_item (url : string) (item : node) : article :=
  let title := text_or_na item "title" in
  let creator := text_or_na item "dc:creator" in
  let categories := get_text "" <$> find_all "category" item in
  let description := text_or_na item "description" in
  let publication_date := text_or_na item "pubDate" in
  let content_encoded := text_or_na item "content:encoded" in
  let content_text :=
    if negb (String.eqb content_encoded "N/A")
    then clean_html content_encoded
    else clean_html description in
  {| title := title;
     creator := creator;
     categories := categories;
     description := description;
     pub_date := publication_date;
     content := content_text;
     source_url := url |}.

Definition get_rss_feed_content (url : string) : outcome (list article) :=
  soup <~ fetch_feed url ;;
  Ok (article_of_item url <$> find_all "item" soup).
End Normalizer.

(** ** The interpreter's string hash *)

(** [hash] on a [str] is not part of the repository: [doc_path] above takes
    it from [Builtins].  This is the function CPython 3.11 and later
    compute, SipHash-1-3 over the string's bytes (one byte per character
    for a string with no code point above 255) under the 128-bit secret of
    the process.  The secret is drawn at start-up when [PYTHONHASHSEED] is
    unset, it is all zeros for the seed 0, and it is produced from a seed
    [n > 0] by the generator [lcg_urandom]. *)
Module CPython.
Definition wrap64 (x : Z) : Z := x mod 2 ^ 64.

Definition rotate (x b : Z) : Z :=
  Z.lor (wrap64 (Z.shiftl x b)) (Z.shiftr x (64 - b)).

Definition half_round (a b c d s t : Z) : Z * Z * Z * Z :=
  let a := wrap64 (a + b) in
  let c := wrap64 (c + d) in
  let b := Z.lxor (rotate b s) a in
  let d := Z.lxor (rotate d t) c in
  let a := rotate a 32 in
  (a, b, c, d).

Definition single_round (v : Z * Z * Z * Z) : Z * Z * Z * Z :=
  let '(v0, v1, v2, v3) := v in
  let '(v0, v1, v2, v3) := half_round v0 v1 v2 v3 13 16 in
  let '(v2, v1, v0, v3) := half_round v2 v1 v0 v3 17 21 in
  (v0, v1, v2, v3).

(** A little-endian word. *)
Fixpoint le64 (bytes : list Z) : Z :=
  match bytes with
  | [] => 0
  | b :: rest => b + 256 * le64 rest
  end.

Definition compress (v : Z * Z * Z * Z) (m : Z) : Z * Z * Z * Z :=
  let '(v0, v1, v2, v3) := v in
  let '(v0, v1, v2, v3) := single_round (v0, v1, v2, Z.lxor v3 m) in
  (Z.lxor v0 m, v1, v2, v3).

Definition finish (v : Z * Z * Z * Z) (b : Z) : Z :=
  let '(v0, v1, v2, v3) := compress v b in
  let '(v0, v1, v2, v3) :=
    single_round (single_round (single_round (v0, v1, Z.lxor v2 255, v3))) in
  Z.lxor (Z.lxor v0 v1) (Z.lxor v2 v3).

Fixpoint absorb (v : Z * Z * Z * Z) (len : Z) (bytes : list Z) : Z :=
  match bytes with
  | b0 :: b1 :: b2 :: b3 :: b4 :: b5 :: b6 :: b7 :: rest =>
      absorb (compress v (le64 [b0; b1; b2; b3; b4; b5; b6; b7])) len rest
  | tail => finish v (Z.lor (wrap64 (Z.shiftl len 56)) (le64 tail))
  end.

Definition siphash13 (k0 k1 : Z) (bytes : list Z) : Z :=
  absorb (Z.lxor k0 0x736f6d6570736575, Z.lxor k1 0x646f72616e646f6d,
          Z.lxor k0 0x6c7967656e657261, Z.lxor k1 0x7465646279746573)
         (Z.of_nat (length bytes)) bytes.

Fixpoint lcg_urandom (x : Z) (size : nat) : list Z :=
  match size with
  | O => []
  | S size' =>
      let x := (x * 214013 + 2531011) mod 2 ^ 32 in
      Z.land (Z.shiftr x 16) 255 :: lcg_urandom x size'
  end.

(** The two key words of the process started with [PYTHONHASHSEED=seed]. *)
Definition secret (seed : Z) : Z * Z :=
  if seed =? 0 then (0, 0)
  else let bytes := lcg_urandom seed 16 in
       (le64 (take 8 bytes), le64 (drop 8 bytes)).

Fixpoint bytes_of (s : string) : list Z :=
  match s with
  | "" => []
  | String c s' => Z.of_nat (nat_of_ascii c) :: bytes_of s'
  end.

(** [hash(s)] under the key [(k0, k1)]: the empty string hashes to 0, the
    unsigned result is read as a signed word, and -1 is never returned. *)
Definition keyed_hash (key : Z * Z) (s : string) : Z :=
  match s with
  | "" => 0
  | _ =>
      let u := siphash13 key.1 key.2 (bytes_of s) in
      let x := if u <? 2 ^ 63 then u else u - 2 ^ 64 in
      if x =? -1 then -2 else x
  end.

Definition str_hash (seed : Z) (s : string) : Z := keyed_hash (secret seed) s.

(** [str(x)] for the objects whose text is fixed by their value alone;
    lists, dictionaries and floats print through [repr], which is left
    out: they show as an ellipsis here. *)
Definition str (v : pyval) : string :=
  match v with
  | VNone => "None"
  | VBool b => if b then "True" else "False"
  | VInt z => pretty z
  | VStr s => s
  | _ => "..."
  end.

(** The builtins of a process started with [PYTHONHASHSEED=seed]. *)
Definition process (seed : Z) : Builtins :=
  {| builtin_hash := str_hash seed; builtin_str := str |}.
End CPython.

(** ** A markup reader for the examples *)

(** [BeautifulSoup(text, "html.parser")] on the fragment the examples
    below need: character data, start tags (attributes skipped, names
    lowered, void elements closed at once) and end tags (closing up to the
    nearest open element of that name, ignored when there is none).
    Entities, comments and the raw text of scripts are not interpreted. *)
Module Markup.
Inductive token :=
| Data (s : string)
| StartTag (name : string) (closed : bool)
| EndTag (name : string).

Definition lower (c : ascii) : ascii :=
  let n := nat_of_ascii c in
  if ((65 <=? n) && (n <=? 90))%nat then ascii_of_nat (n + 32) else c.

(** The name at the start of what stands between [<] and [>]. *)
Fixpoint tag_name (s : string) : string :=
  match s with
  | "" => ""
  | String c s' =>
      if isspace c || Ascii.eqb c "/" then "" else String (lower c) (tag_name s')
  end.

Fixpoint ends_with_slash (s : string) : bool :=
  match s with
  | "" => false
  | String c "" => Ascii.eqb c "/"
  | String _ s' => ends_with_slash s'
  end.

Definition tag_token (inside : string) : token :=
  match inside with
  | String "/" rest => EndTag (tag_name rest)
  | _ => StartTag (tag_name inside) (ends_with_slash inside)
  end.

Definition data (buf : string) : list token :=
  if String.eqb buf "" then [] else [Data buf].

(** [in_tag] tells whether a [<] is open; [buf] is what was read since
    the last token. *)
Fixpoint lex (s : string) (in_tag : bool) (buf : string) : list token :=
  match s with
  | "" => if in_tag then [Data (String "<" buf)] else data buf
  | String c s' =>
      if in_tag then
        if Ascii.eqb c ">" then tag_token buf :: lex s' false ""
        else lex s' true (buf +:+ String c "")
      else
        if Ascii.eqb c "<" then data buf ++ lex s' true ""
        else lex s' false (buf +:+ String c "")
  end.

Definition void_elements : list string :=
  ["area"; "base"; "br"; "col"; "embed"; "hr"; "img"; "input"; "link";
   "meta"; "param"; "source"; "track"; "wbr"].

(** The open elements, innermost first, each with the children it has so
    far, last child first.  The outermost is the document. *)
Definition stack := list (string * list node).

Definition add_child (n : node) (st : stack) : stack :=
  match st with
  | (name, kids) :: below => (name, n :: kids) :: below
  | [] => []
  end.

Definition close_top (st : stack) : stack :=
  match st with
  | (name, kids) :: ((_ :: _) as below) => add_child (Elem name (rev kids)) below
  | _ => st
  end.

Fixpoint is_open (name : string) (st : stack) : bool :=
  match st with
  | (n, _) :: ((_ :: _) as below) => String.eqb n name || is_open name below
  | _ => false
  end.

Fixpoint pop_to (fuel : nat) (name : string) (st : stack) : stack :=
  match fuel, st with
  | S fuel', (n, _) :: _ =>
      if String.eqb n name then close_top st else pop_to fuel' name (close_top st)
  | _, _ => st
  end.

Fixpoint close_all (fuel : nat) (st : stack) : node :=
  match fuel, st with
  | _, [(name, kids)] => Elem name (rev kids)
  | S fuel', _ => close_all fuel' (close_top st)
  | O, _ => Elem "[document]" []
  end.

Fixpoint build (ts : list token) (st : stack) : node :=
  match ts with
  | [] => close_all (length st) st
  | Data s :: ts' => build ts' (add_child (Text s) st)
  | StartTag name closed :: ts' =>
      if closed || existsb (String.eqb name) void_elements
      then build ts' (add_child (Elem name []) st)
      else build ts' ((name, []) :: st)
  | EndTag name :: ts' =>
      build ts' (if is_open name st then pop_to (length st) name st else st)
  end.

Definition parse (text : string) : node :=
  build (lex text false "") [("[document]", [])].

(** The parsers of the examples: no feed is fetched. *)
Definition parsers : Parsers :=
  {| fetch_feed := fun _ => Raise (APIError "ConnectionError");
     html_parser := parse |}.
End Markup.

(** ** A scripted index service for the examples *)

(** A test double: the outcomes of the successive writes are read from a
    script (a write past its end succeeds), retrieval and reranking answer
    what the world holds, the reranker cut to the [top_n] it is asked for. *)
Module Stub.
Record world := {
  add_script : list (outcome unit);
  candidates : outcome (list dict);
  document_infos : gmap string dict;
  reranking : outcome (list dict);
  collection_names : list string
}.

Definition next_write (w : world) : world * outcome unit :=
  match add_script w with
  | r :: rest =>
      ({| add_script := rest;
          candidates := candidates w;
          document_infos := document_infos w;
          reranking := reranking w;
          collection_names := collection_names w |}, r)
  | [] => (w, Ok tt)
  end.

Definition drop_collection (name : string) (w : world) : world * outcome unit :=
  if bool_decide (name ∈ collection_names w)
  then ({| add_script := add_script w;
           candidates := candidates w;
           document_infos := document_infos w;
           reranking := reranking w;
           collection_names := List.filter (fun n => negb (String.eqb n name)) (collection_names w) |},
        Ok tt)
  else (w, Raise (APIError "NotFoundError")).

Definition new_collection (name : string) (w : world) : world * outcome unit :=
  if bool_decide (name ∈ collection_names w)
  then (w, Raise ConflictError)
  else ({| add_script := add_script w;
           candidates := candidates w;
           document_infos := document_infos w;
           reranking := reranking w;
           collection_names := collection_names w ++ [name] |},
        Ok tt).

Definition info (w : world) (path : pyval) : option dict :=
  match path with
  | VStr p => document_infos w !! p
  | _ => None
  end.

Definition client : ZeroEntropy world :=
  {| collections_add := new_collection;
     collections_delete := drop_collection;
     collections_get_list := fun w => (w, Ok (collection_names w));
     documents_add := fun _ _ _ _ => next_write;
     documents_get_info := fun _ path _ w => (w, Ok (info w path));
     queries_top_documents := fun _ _ _ _ _ w => (w, candidates w);
     models_rerank := fun _ _ _ top_n w =>
       (w, rs <~ reranking w ;; Ok (take (Z.to_nat top_n) rs)) |}.

(** A searcher that finds nothing and prints nothing. *)
Definition searcher : Searcher world :=
  {| search_documents := fun _ _ _ _ w => (w, Ok []);
     search_snippets := fun _ _ _ _ w => (w, Ok []);
     search_pages := fun _ _ _ w => (w, Ok []);
     display_document_results := fun _ _ w => (w, Ok tt);
     display_snippet_results := fun _ _ w => (w, Ok tt);
     display_page_results := fun _ _ w => (w, Ok tt);
     display_advanced_results := fun _ _ w => (w, Ok tt);
     get_collection_status := fun w => (w, Ok VNone) |}.

Definition empty : world :=
  {| add_script := [];
     candidates := Ok [];
     document_infos := ∅;
     reranking := Ok [];
     collection_names := ["articles"] |}.

Definition with_writes (script : list (outcome unit)) : world :=
  {| add_script := script;
     candidates := Ok [];
     document_infos := ∅;
     reranking := Ok [];
     collection_names := ["articles"] |}.

Definition with_search (found reranked : list dict) : world :=
  {| add_script := [];
     candidates := Ok found;
     document_infos := ∅;
     reranking := Ok reranked;
     collection_names := ["articles"] |}.

Definition story (headline : string) : article :=
  {| title := headline;
     creator := "N/A";
     categories := [];
     description := "N/A";
     pub_date := "N/A";
     content := "N/A";
     source_url := "https://vsd.fr/tele/feed/" |}.
End Stub.

(** ** Observations on a trace *)

(** The outcomes of the writes, in order. *)
Definition write_outcomes (t : list event) : list (outcome unit) :=
  omap (fun e => match e with EvDocumentsAdd _ _ _ _ r => Some r | _ => None end) t.

(** The metadata records handed to the index service, in order. *)
Definition written_metadata (t : list event) : list (gmap string string) :=
  omap (fun e => match e with EvDocumentsAdd _ _ _ md _ => Some md | _ => None end) t.

(** The lines logged at a level, in order. *)
Definition logged (lvl : level) (t : list event) : list string :=
  omap (fun e => match e with
                 | EvLog l msg => if decide (l = lvl) then Some msg else None
                 | _ => None
                 end) t.

(** The outcome of a call that met an existing key; of a call that returned. *)
Definition is_conflict {A} (r : outcome A) : bool :=
  match r with Raise ConflictError => true | _ => false end.

Definition is_ok {A} (r : outcome A) : bool :=
  match r with Ok _ => true | _ => false end.

Definition conflicts (outs : list (outcome unit)) : nat := length (List.filter is_conflict outs).

Definition successes (outs : list (outcome unit)) : nat := length (List.filter is_ok outs).

(** A write that did not fail: it went through or it met an existing key. *)
Definition written_or_skipped (r : outcome unit) : Prop :=
  r = Ok tt \/ r = Raise ConflictError.

(** The field is present in the record and within its cap. *)
Definition capped (md : gmap string string) (field : string) (cap : nat) : Prop :=
  exists v, md !! field = Some v /\ (String.length v <= cap)%nat.

Definition within_caps (md : gmap string string) : Prop :=
  capped md "title" 500 /\ capped md "creator" 200 /\ capped md "categories" 300
  /\ capped md "pub_date" 100 /\ capped md "source_url" 300.

(** The progress line, when the count of indexed articles calls for it. *)
Definition progress_line (n : nat) : list event :=
  if (n mod 10 =? 0)%nat
  then [EvLog INFO ("Indexed " +:+ pretty n +:+ " articles...")]
  else [].

(** Whether a string is made of decimal digits. *)
Definition is_digit (c : ascii) : bool :=
  let n := nat_of_ascii c in ((48 <=? n) && (n <=? 57))%nat.

Fixpoint all_digits (s : string) : bool :=
  match s with
  | "" => true
  | String c s' => is_digit c && all_digits s'
  end.

(** The calls of the reranker in a trace: what was asked, what came back. *)
Definition reranks (t : list event) : list (list pyval * Z * outcome (list dict)) :=
  omap (fun e => match e with
                 | EvRerank _ documents _ top_n r => Some (documents, top_n, r)
                 | _ => None
                 end) t.

(** [item] is the merge of the reranker's answer [rerank_result] with the
    candidate its index names among [found]: both scores sit on the item, and
    every other key is the candidate's. *)
Definition merged (found : list dict) (rerank_result item : dict) : Prop :=
  exists i z original score rerank_score,
    rerank_result !! "index" = Some i
    /\ as_index i = Some z
    /\ py_index found z = Ok original
    /\ original !! "score" = Some score
    /\ rerank_result !! "relevance_score" = Some rerank_score
    /\ item !! "original_score" = Some score
    /\ item !! "rerank_score" = Some rerank_score
    /\ forall key, key <> "original_score" -> key <> "rerank_score" ->
                   item !! key = original !! key.

(** The four modes the routers know. *)
Definition known_mode (search_type : string) : bool :=
  existsb (String.eqb search_type) ["documents"; "snippets"; "pages"; "advanced"].

(** ** Data for the examples *)

(** Three candidates, and a reranker that puts the last one first. *)
Module Example.
Definition found : list dict :=
  [ {["path" := VStr "article_0_1"; "score" := VFloat 0.875]};
    {["path" := VStr "article_1_2"; "score" := VFloat 0.5]};
    {["path" := VStr "article_2_3"; "score" := VFloat 0.125]} ].

Definition reranked : list dict :=
  [ {["index" := VInt 2; "relevance_score" := VFloat 0.75]};
    {["index" := VInt 0; "relevance_score" := VFloat 0.625]};
    {["index" := VInt 1; "relevance_score" := VFloat 0.25]} ].

Definition world : Stub.world := Stub.with_search found reranked.
End Example.

(** A feed item as the XML parser hands it over: a title, a description
    whose text is the given HTML, and no encoded body. *)
Definition item_with_description (html : string) : node :=
  Elem "item"
    [ Elem "title" [Text "Star returns to TV"];
      Elem "link" [Text "https://vsd.fr/tele/star"];
      Elem "description" [Text html] ].

(** ** More of the backend *)

(** A call across the boundary that the trace has no event for: it changes
    the world and leaves no record. *)
Definition effect {W A} (op : W -> W * outcome A) : M W A :=
  fun w => let '(w1, r) := op w in (w1, [], r).

(** [for x in l: ys.append(f(x))] for a step that may raise. *)
Fixpoint for_each {A B} (f : A -> outcome B) (l : list A) : outcome (list B) :=
  match l with
  | [] => Ok []
  | x :: rest =>
      y <~ f x ;;
      ys <~ for_each f rest ;;
      Ok (y :: ys)
  end.

(** [o.name] for an object given by its attributes. *)
Definition getattr (o : dict) (name : string) : outcome pyval :=
  match o !! name with
  | Some v => Ok v
  | None => Raise AttributeError
  end.

(** *** utils_ze.py: the documents of a collection *)

(** The document methods of the client that [ZeroEntropyUtils] calls besides
    [documents.get_info]: [get_info_list] (the [.documents] of its
    response), [update] and [delete]. *)
Class Documents (W : Type) := {
  documents_get_info_list : string -> Z -> W -> W * outcome (list dict);
  documents_update : string -> string -> gmap string string -> W -> W * outcome unit;
  documents_delete : string -> string -> W -> W * outcome unit
}.

Section DocumentUtils.
Context {W : Type} `{!Documents W}.
(** [self.collection_name] *)
Variable self_collection_name : string.

Definition list_documents_in_collection (collection_name : option string) (limit : Z) :
    M W (list dict) :=
  let collection_name := default self_collection_name collection_name in
  effect (documents_get_info_list collection_name limit).

Definition update_document_metadata (path : string) (metadata : gmap string string)
    (collection_name : option string) : M W bool :=
  let collection_name := default self_collection_name collection_name in
  effect (documents_update collection_name path metadata) ;;;
  log INFO ("Successfully updated metadata for document: " +:+ path) ;;;
  ret true.

Definition delete_document (path : string) (collection_name : option string) : M W bool :=
  let collection_name := default self_collection_name collection_name in
  effect (documents_delete collection_name path) ;;;
  log INFO ("Successfully deleted document: " +:+ path) ;;;
  ret true.

(** The loop of [batch_delete_documents], from the dictionary [results]. *)
Fixpoint delete_each (collection_name : string) (paths : list string)
    (results : gmap string bool) : M W (gmap string bool) :=
  match paths with
  | [] => ret results
  | path :: rest =>
      success <- delete_document path (Some collection_name) ;;
      delete_each collection_name rest (<[path := success]> results)
  end.

Definition batch_delete_documents (paths : list string) (collection_name : option string) :
    M W (gmap string bool) :=
  let collection_name := default self_collection_name collection_name in
  delete_each collection_name paths ∅.
End DocumentUtils.

(** The world after the deletions of [paths], one after the other, when each
    of them goes through; [None] when one of them fails. *)
Fixpoint after_deletions {W : Type} `{!Documents W} (collection_name : string)
    (paths : list string) (w : W) : option W :=
  match paths with
  | [] => Some w
  | path :: rest =>
      match documents_delete collection_name path w with
      | (w1, Ok _) => after_deletions collection_name rest w1
      | (_, Raise _) => None
      end
  end.

(** *** search_ze.py: the three retrievals *)

(** The query methods of the client as [ZeroEntropyArticleSearcher] calls
    them, each returning the [.results] of its response: a list of objects.
    Arguments in the order of the calls: collection, query, [k], filter,
    then [include_metadata], [reranker], [latency_mode] for documents;
    [precise_responses], [include_document_metadata], [reranker] for
    snippets; [include_content], [latency_mode] for pages. *)
Class Queries (W : Type) := {
  top_documents :
    string -> string -> Z -> option filter -> bool -> string -> string ->
    W -> W * outcome (list dict);
  top_snippets :
    string -> string -> Z -> option filter -> bool -> bool -> string ->
    W -> W * outcome (list dict);
  top_pages :
    string -> string -> Z -> option filter -> bool -> string ->
    W -> W * outcome (list dict)
}.

Module ArticleSearcher.
Section Methods.
Context {W : Type} `{!Queries W}.
(** [self.collection_name] *)
Variable collection_name : string.

(** The dictionary built from one result of [top_documents]. *)
Definition document_dict (result : dict) : outcome dict :=
  path <~ getattr result "path" ;;
  score <~ getattr result "score" ;;
  Ok (list_to_map
        [ ("path", path);
          ("score", score);
          ("file_url", dict_get result "file_url" VNone);
          ("metadata", dict_get result "metadata" (VDict ∅)) ]).

Definition search_documents (query : string) (k : Z) (filter_dict : option filter)
    (include_metadata : bool) (reranker : string) : M W (list dict) :=
  results <- effect (top_documents collection_name query k filter_dict
                       include_metadata reranker "low") ;;
  lift (for_each document_dict results).

(** The dictionary built from one result of [top_snippets]. *)
Definition snippet_dict (result : dict) : outcome dict :=
  path <~ getattr result "path" ;;
  score <~ getattr result "score" ;;
  Ok (list_to_map
        [ ("path", path);
          ("score", score);
          ("start_index", dict_get result "start_index" (VInt 0));
          ("end_index", dict_get result "end_index" (VInt 0));
          ("page_span", dict_get result "page_span" (VList []));
          ("content", dict_get result "content" (VStr ""));
          ("metadata", dict_get result "metadata" (VDict ∅)) ]).

Definition search_snippets (query : string) (k : Z) (filter_dict : option filter)
    (precise_responses : bool) (reranker : string) : M W (list dict) :=
  results <- effect (top_snippets collection_name query k filter_dict
                       precise_responses true reranker) ;;
  lift (for_each snippet_dict results).

(** The dictionary built from one result of [top_pages]. *)
Definition page_dict (result : dict) : outcome dict :=
  path <~ getattr result "path" ;;
  score <~ getattr result "score" ;;
  Ok (list_to_map
        [ ("path", path);
          ("score", score);
          ("page_index", dict_get result "page_index" (VInt 0));
          ("content", dict_get result "content" (VStr ""));
          ("metadata", dict_get result "metadata" (VDict ∅)) ]).

Definition search_pages (query : string) (k : Z) (filter_dict : option filter)
    (include_content : bool) : M W (list dict) :=
  results <- effect (top_pages collection_name query k filter_dict include_content "low") ;;
  lift (for_each page_dict results).
End Methods.
End ArticleSearcher.

(** *** __main__.py: scraping *)

(** [json.dump(articles, f)] into the file of the given name. *)
Class Files (W : Type) := {
  dump_json : string -> list article -> W -> W * outcome unit
}.

Definition rss_public_urls : list string :=
  [ "https://www.public.fr/feed";
    "https://www.public.fr/people/feed";
    "https://www.public.fr/tele/feed";
    "https://www.public.fr/mode/feed";
    "https://www.public.fr/people/familles-royales/feed" ].

Definition rss_vsd_urls : list string :=
  [ "https://vsd.fr/actu-people/feed/";
    "https://vsd.fr/tele/feed/";
    "https://vsd.fr/societe/feed/";
    "https://vsd.fr/culture/feed/";
    "https://vsd.fr/loisirs/feed/" ].

Section Scraping.
Context {W : Type} `{!ZeroEntropy W} `{!Builtins} `{!Parsers} `{!Files W}.
(** [self.collection_name] *)
Variable collection_name : string.

(** The loop over the feeds, from the list [articles] gathered so far. *)
Fixpoint extract_feeds (urls : list string) (articles : list article) : M W (list article) :=
  match urls with
  | [] => ret articles
  | url :: rest =>
      content <- lift (get_rss_feed_content url) ;;
      match content with
      | [] =>
          log WARNING ("Failed to extract content from " +:+ url) ;;;
          extract_feeds rest articles
      | _ =>
          log INFO ("Successfully extracted content from " +:+ url) ;;;
          extract_feeds rest (articles ++ content)
      end
  end.

Definition scrape_and_index : M W unit :=
  initialize_collection collection_name ;;;
  articles <- extract_feeds (rss_public_urls ++ rss_vsd_urls) [] ;;
  effect (dump_json "articles.json" articles) ;;;
  log INFO ("Extracted " +:+ pretty (length articles) +:+ " articles total") ;;;
  match articles with
  | [] => log WARNING "No articles to index."
  | _ =>
      index_articles collection_name articles ;;;
      log INFO "Successfully scraped and indexed articles in ZeroEntropy."
  end.
End Scraping.

(** *** More observations *)

(** The hydration requests in a trace, each with its answer. *)
Definition info_requests (t : list event) :
    list (string * pyval * bool * outcome (option dict)) :=
  omap (fun e => match e with
                 | EvDocumentsGetInfo c path include_content r =>
                     Some (c, path, include_content, r)
                 | _ => None
                 end) t.

(** The keys of the writes in a trace, in order. *)
Definition written_paths (t : list event) : list string :=
  omap (fun e => match e with EvDocumentsAdd _ path _ _ _ => Some path | _ => None end) t.

(** The text of the progress line for a count of indexed articles. *)
Definition progress_message (n : nat) : string :=
  "Indexed " +:+ pretty n +:+ " articles...".

Definition head_char (s : string) : option ascii :=
  match s with
  | String c _ => Some c
  | "" => None
  end.

Fixpoint last_char (s : string) : option ascii :=
  match s with
  | "" => None
  | String c "" => Some c
  | String _ s' => last_char s'
  end.

Fixpoint has_char (a : ascii) (s : string) : bool :=
  match s with
  | "" => false
  | String c s' => Ascii.eqb c a || has_char a s'
  end.

(** One hydration: the candidate's path was asked for in the collection,
    with content, the service returned [info], and [text] is what the
    program made of the two. *)
Definition hydrated `{!Builtins} (collection_name : string) (candidate : dict)
    (request : string * pyval * bool * outcome (option dict)) (text : pyval) : Prop :=
  exists path info,
    candidate !! "path" = Some path
    /\ request = (collection_name, path, true, Ok info)
    /\ document_text candidate info = Ok text.

(** *** More data for the examples *)

Module Sample.
(** A document store that knows the paths it holds: deleting or updating a
    path it does not hold is an error of the service. *)
Definition shelf := list string.

Definition remove_path (path : string) (w : shelf) : shelf * outcome unit :=
  if bool_decide (path ∈ w)
  then (List.filter (fun p => negb (String.eqb p path)) w, Ok tt)
  else (w, Raise (APIError "NotFoundError")).

Definition documents : Documents shelf :=
  {| documents_get_info_list := fun _ limit w =>
       (w, Ok ((fun p => {["path" := VStr p]}) <$> take (Z.to_nat limit) w));
     documents_update := fun _ path _ w =>
       (w, if bool_decide (path ∈ w) then Ok tt else Raise (APIError "NotFoundError"));
     documents_delete := fun _ => remove_path |}.

(** A feed with two items, served under one of the ten addresses; the
    other nine feeds are empty. *)
Definition feed : node :=
  Elem "[document]"
    [ Elem "rss"
        [ Elem "channel"
            [ Elem "title" [Text "VSD"];
              Elem "item"
                [ Elem "title" [Text "Star returns to TV"];
                  Elem "dc:creator" [Text "Jane Doe"];
                  Elem "category" [Text "tele"];
                  Elem "category" [Text "people"];
                  Elem "description" [Text "<p>The star is back.</p>"];
                  Elem "content:encoded"
                    [Text "<p>After ten years, the star is <b>back</b>.</p><script>track()</script>"] ];
              Elem "item"
                [ Elem "title" [Text "Royal family"];
                  Elem "description" [Text "A visit"] ] ] ] ].

Definition parsers_with_feed : Parsers :=
  {| fetch_feed := fun url =>
       if String.eqb url "https://vsd.fr/tele/feed/" then Ok feed
       else Ok (Elem "[document]" []);
     html_parser := Markup.parse |}.

(** One of the ten addresses answers with an HTTP error. *)
Definition parsers_with_error : Parsers :=
  {| fetch_feed := fun url =>
       if String.eqb url "https://www.public.fr/mode/feed"
       then Raise (APIError "HTTPError") else Ok feed;
     html_parser := Markup.parse |}.

(** Every address serves a feed without items. *)
Definition parsers_without_items : Parsers :=
  {| fetch_feed := fun _ => Ok (Elem "[document]" [Elem "rss" [Elem "channel" []]]);
     html_parser := Markup.parse |}.

Definition files : Files Stub.world :=
  {| dump_json := fun _ _ w => (w, Ok tt) |}.
End Sample.

(** *** The dictionaries of the three retrievals *)

(** The object has the two attributes every dictionary needs. *)
Definition scored (result : dict) : Prop :=
  is_Some (result !! "path") /\ is_Some (result !! "score").

(** [d] has the keys of [defaults] besides [path] and [score]; the two are
    the object's, and each other key holds the object's attribute of that
    name, or the default when the object has none. *)
Definition converted (defaults : list (string * pyval)) (result d : dict) : Prop :=
  dom d = list_to_set ("path" :: "score" :: defaults.*1)
  /\ d !! "path" = result !! "path"
  /\ d !! "score" = result !! "score"
  /\ Forall (fun '(key, dflt) => d !! key = Some (dict_get result key dflt)) defaults.

(** *** The feeds of a scrape *)

Section Feeds.
Context `{!Parsers}.

(** The articles of a feed, none when the feed cannot be fetched. *)
Definition feed_articles (url : string) : list article :=
  match get_rss_feed_content url with
  | Ok content => content
  | Raise _ => []
  end.

(** The line logged for a feed that was fetched. *)
Definition feed_line (url : string) (content : list article) : event :=
  match content with
  | [] => EvLog WARNING ("Failed to extract content from " +:+ url)
  | _ => EvLog INFO ("Successfully extracted content from " +:+ url)
  end.

(** The lines logged for the feeds, up to the first that cannot be fetched. *)
Fixpoint feed_lines (urls : list string) : list event :=
  match urls with
  | [] => []
  | url :: rest =>
      match get_rss_feed_content url with
      | Ok content => feed_line url content :: feed_lines rest
      | Raise _ => []
      end
  end.
End Feeds.

(** *** Shapes of text *)

(** Neither the first nor the last character is white space. *)
Definition trimmed (s : string) : Prop :=
  (forall c, head_char s = Some c -> isspace c = false)
  /\ (forall c, last_char s = Some c -> isspace c = false).

(** The collection and the content of the writes in a trace, in order. *)
Definition written_contents (t : list event) : list (string * gmap string string) :=
  omap (fun e => match e with
                 | EvDocumentsAdd c _ content _ _ => Some (c, content)
                 | _ => None
                 end) t.

(** Whether a count of indexed articles gets a progress line. *)
Definition reported (n : nat) : bool := (n mod 10 =? 0)%nat.

(** * Properties *)

(** ** The embedding against the interpreter *)

(** Values the Python interpreter gives for the same expressions. *)
Example py_index_from_the_end : py_index ["a"; "b"; "c"] (-1) = Ok "c".
Proof. reflexivity. Qed.

Example py_index_out_of_range :
  py_index ["a"; "b"; "c"] 3 = Raise IndexError /\ py_index ["a"; "b"; "c"] (-4) = Raise IndexError.
Proof. split; reflexivity. Qed.

(** What [l[i]] reads: position [i] from the start, or [len(l) + i] for a
    negative [i]. *)
Lemma py_index_spec {A} (l : list A) (i : Z) (a : A) :
  py_index l i = Ok a <->
  (0 <= i < Z.of_nat (length l) /\ l !! Z.to_nat i = Some a)
  \/ (- Z.of_nat (length l) <= i < 0 /\ l !! Z.to_nat (i + Z.of_nat (length l)) = Some a).
Proof.
  unfold py_index. cbn zeta.
  destruct (Z.ltb_spec i 0) as [Hneg|Hpos].
  - destruct (Z.ltb_spec (i + Z.of_nat (length l)) 0) as [Hlow|Hlow]; cbn [orb].
    + split; [discriminate | intros [[? _]|[? _]]; lia].
    + destruct (Z.leb_spec (Z.of_nat (length l)) (i + Z.of_nat (length l))); [lia|].
      destruct (l !! Z.to_nat (i + Z.of_nat (length l))) as [b|] eqn:Hb.
      * split; [intros [= <-]; right; split; [lia | reflexivity]|].
        intros [[? _]|[_ [= <-]]]; [lia | reflexivity].
      * split; [discriminate | intros [[? _]|[_ ?]]; [lia | discriminate]].
  - destruct (Z.ltb_spec i 0); [lia|]. cbn [orb].
    destruct (Z.leb_spec (Z.of_nat (length l)) i) as [Hhigh|Hhigh].
    + split; [discriminate | intros [[? _]|[? _]]; lia].
    + destruct (l !! Z.to_nat i) as [b|] eqn:Hb.
      * split; [intros [= <-]; left; split; [lia | reflexivity]|].
        intros [[_ [= <-]]|[? _]]; [reflexivity | lia].
      * split; [discriminate | intros [[_ ?]|[? _]]; [discriminate | lia]].
Qed.

Example slice_to_examples : slice_to 3 "abcdef" = "abc" /\ slice_to 3 "ab" = "ab".
Proof. split; reflexivity. Qed.

Example join_examples : join ", " ["tele"; "people"] = "tele, people" /\ join ", " [] = "".
Proof. split; reflexivity. Qed.

Example strip_example : strip (String " " (String " " ("a b " +:+ String "009" nl))) = "a b".
Proof. reflexivity. Qed.

Example truthy_examples :
  truthy (VFloat nan) = true /\ truthy (VFloat (-0)%float) = false
  /\ truthy (VStr "") = false /\ truthy (VDict ∅) = false /\ truthy (VList []) = false.
Proof. repeat split; reflexivity. Qed.

(** [PYTHONHASHSEED=0], [=1] and [=2], CPython 3.11:
    [hash('Star returns to TV')]. *)
Example str_hash_examples :
  CPython.str_hash 0 "Star returns to TV" = -2562864932995172312
  /\ CPython.str_hash 1 "Star returns to TV" = -1388380785421680710
  /\ CPython.str_hash 2 "Star returns to TV" = 1526627212586026885
  /\ CPython.str_hash 0 "a" = 4644417185603328019
  /\ CPython.str_hash 1 "" = 0.
Proof. repeat split; vm_compute; reflexivity. Qed.

Example parse_example :
  Markup.parse "<p>Hello <b>world</b></p><img src='a.png'> tail"
  = Elem "[document]"
      [ Elem "p" [Text "Hello "; Elem "b" [Text "world"]]; Elem "img" []; Text " tail" ].
Proof. reflexivity. Qed.

(** ** Strings *)

Lemma length_slice_to (n : nat) (s : string) :
  (String.length (slice_to n s) <= n)%nat.
Proof.
  revert s; induction n as [|n IH]; intros [|c s]; simpl; try lia.
  specialize (IH s); lia.
Qed.

Lemma slice_to_short (n : nat) (s : string) :
  (String.length s <= n)%nat -> slice_to n s = s.
Proof.
  revert s; induction n as [|n IH]; intros [|c s]; simpl; intros Hl; try lia; try reflexivity.
  f_equal; apply IH; lia.
Qed.

(** ** The monad *)

Lemma bind_run {W A B} (m : M W A) (f : A -> M W B) (w : W) :
  bind m f w =
  match value_of (m w) with
  | Ok a =>
      (world_of (f a (world_of (m w))),
       trace_of (m w) ++ trace_of (f a (world_of (m w))),
       value_of (f a (world_of (m w))))
  | Raise e => (world_of (m w), trace_of (m w), Raise e)
  end.
Proof.
  unfold bind, value_of, world_of, trace_of.
  destruct (m w) as [[w1 t1] [a|e]]; simpl; [|reflexivity].
  destruct (f a w1) as [[w2 t2] r2]; reflexivity.
Qed.

Lemma write_outcomes_app (t1 t2 : list event) :
  write_outcomes (t1 ++ t2) = write_outcomes t1 ++ write_outcomes t2.
Proof. apply omap_app. Qed.

Lemma written_metadata_app (t1 t2 : list event) :
  written_metadata (t1 ++ t2) = written_metadata t1 ++ written_metadata t2.
Proof. apply omap_app. Qed.

Lemma logged_app (lvl : level) (t1 t2 : list event) :
  logged lvl (t1 ++ t2) = logged lvl t1 ++ logged lvl t2.
Proof. apply omap_app. Qed.

(** ** The ingestion pipeline *)

Section IndexerFacts.
Context {W : Type} `{!ZeroEntropy W} `{!Builtins}.
Variable collection_name : string.

(** One turn of the loop, by the outcome of its write. *)
Lemma index_one_run (idx : nat) (a : article) (c : counters) (w : W) :
  index_one collection_name idx a c w =
  let '(w1, r) :=
    documents_add collection_name (doc_path idx a) (content_of a) (metadata_of a) w in
  let ev := EvDocumentsAdd collection_name (doc_path idx a) (content_of a) (metadata_of a) r in
  match r with
  | Ok _ =>
      (w1, ev :: progress_line (S (indexed_count c)),
       Ok {| indexed_count := S (indexed_count c); failed_count := failed_count c |})
  | Raise ConflictError =>
      (w1, [ev; EvLog WARNING ("Article " +:+ pretty idx +:+ " already exists, skipping...")],
       Ok c)
  | Raise e => (w1, [ev], Raise e)
  end.
Proof.
  unfold index_one, except_conflict, bind, call, log, ret, progress_line.
  destruct (documents_add _ _ _ _ w) as [w1 [[]|e]]; simpl.
  - destruct (_ =? _)%nat; reflexivity.
  - destruct e; reflexivity.
Qed.

Lemma metadata_within_caps (a : article) : within_caps (metadata_of a).
Proof.
  unfold within_caps, capped, metadata_of.
  repeat split; eexists; (split; [reflexivity | apply length_slice_to]).
Qed.
End IndexerFacts.

Lemma write_outcomes_cons (e : event) (t : list event) :
  write_outcomes (e :: t) =
  match e with
  | EvDocumentsAdd _ _ _ _ r => r :: write_outcomes t
  | _ => write_outcomes t
  end.
Proof. destruct e; reflexivity. Qed.

Lemma logged_cons (lvl : level) (e : event) (t : list event) :
  logged lvl (e :: t) =
  match e with
  | EvLog l msg => if decide (l = lvl) then msg :: logged lvl t else logged lvl t
  | _ => logged lvl t
  end.
Proof. destruct e; try reflexivity. unfold logged; simpl. destruct (decide _); reflexivity. Qed.

Lemma write_outcomes_progress_line (n : nat) : write_outcomes (progress_line n) = [].
Proof. unfold progress_line; destruct (_ =? _)%nat; reflexivity. Qed.

Lemma logged_warning_progress_line (n : nat) : logged WARNING (progress_line n) = [].
Proof. unfold progress_line; destruct (_ =? _)%nat; reflexivity. Qed.

Lemma last_cons_app {A} (x : A) (l t : list A) (y : A) :
  last t = Some y -> last (x :: l ++ t) = Some y.
Proof.
  intros Hy. change (x :: l ++ t) with ((x :: l) ++ t).
  rewrite last_app, Hy. reflexivity.
Qed.

Section IndexLoopFacts.
Context {W : Type} `{!ZeroEntropy W} `{!Builtins}.
Variable collection_name : string.

(** What a run of the loop looks like from outside, whether it ends or
    raises: every write before the last went through or was skipped, the
    counter of indexed articles moved by the number of writes that went
    through, the other counter did not move; and a run that raises stops at
    the write that failed, with the error of that write. *)
Lemma index_loop_run (articles : list article) (idx : nat) (c : counters) (w : W) :
  let run := index_loop collection_name idx articles c w in
  let outs := write_outcomes (trace_of run) in
  match value_of run with
  | Ok c' =>
      Forall written_or_skipped outs
      /\ length outs = length articles
      /\ indexed_count c' = (indexed_count c + successes outs)%nat
      /\ failed_count c' = failed_count c
      /\ length (logged WARNING (trace_of run)) = conflicts outs
  | Raise e =>
      e <> ConflictError
      /\ (exists before,
            outs = before ++ [Raise e]
            /\ Forall written_or_skipped before
            /\ (length before < length articles)%nat)
      /\ (exists path content md,
            last (trace_of run) = Some (EvDocumentsAdd collection_name path content md (Raise e)))
  end.
Proof.
  revert idx c w; induction articles as [|a rest IH]; intros idx c w.
  - simpl. unfold successes, conflicts. simpl.
    repeat split; first [constructor | lia].
  - cbn zeta. simpl index_loop. rewrite bind_run, index_one_run.
    destruct (documents_add _ _ _ _ w) as [w1 [[]|e]].
    + (* the write went through *)
      cbn [value_of world_of trace_of fst snd].
      set (c1 := {| indexed_count := S (indexed_count c); failed_count := failed_count c |}).
      specialize (IH (S idx) c1 w1). cbn zeta in IH.
      destruct (value_of (index_loop collection_name (S idx) rest c1 w1)) as [c'|e] eqn:Hv;
        cbn [value_of world_of trace_of fst snd];
        rewrite <- app_comm_cons, write_outcomes_cons, write_outcomes_app,
          write_outcomes_progress_line; cbn [app].
      * destruct IH as (Hall & Hlen & Hidx & Hfail & Hwarn).
        rewrite logged_cons, logged_app, logged_warning_progress_line. cbn [app].
        repeat split.
        -- constructor; [left; reflexivity | exact Hall].
        -- simpl. f_equal. exact Hlen.
        -- rewrite Hidx. unfold successes. simpl. lia.
        -- exact Hfail.
        -- unfold conflicts. simpl. exact Hwarn.
      * destruct IH as (Hne & (before & Hb & Hall & Hlt) & (p & ct & md & Hlast)).
        split; [exact Hne|]. split.
        -- exists (Ok tt :: before). rewrite Hb.
           repeat split; [constructor; [left; reflexivity | exact Hall] | simpl; lia].
        -- exists p, ct, md. apply last_cons_app. exact Hlast.
    + destruct e; cbn [value_of world_of trace_of fst snd];
        try (split; [discriminate|]; split;
             [exists []; repeat split; [constructor | simpl; lia]
             | eexists _, _, _; reflexivity]).
      (* the key exists already *)
      specialize (IH (S idx) c w1). cbn zeta in IH.
      destruct (value_of (index_loop collection_name (S idx) rest c w1)) as [c'|e] eqn:Hv;
        cbn [value_of world_of trace_of fst snd];
        rewrite <- app_comm_cons, write_outcomes_cons, <- app_comm_cons, write_outcomes_cons;
        cbn [app].
      * destruct IH as (Hall & Hlen & Hidx & Hfail & Hwarn).
        rewrite !logged_cons. cbn [app]. 
        repeat split.
        -- constructor; [right; reflexivity | exact Hall].
        -- simpl. f_equal. exact Hlen.
        -- rewrite Hidx. unfold successes. simpl. lia.
        -- exact Hfail.
        -- unfold conflicts. simpl. f_equal. exact Hwarn.
      * destruct IH as (Hne & (before & Hb & Hall & Hlt) & (p & ct & md & Hlast)).
        split; [exact Hne|]. split.
        -- exists (Raise ConflictError :: before). rewrite Hb.
           repeat split; [constructor; [right; reflexivity | exact Hall] | simpl; lia].
        -- exists p, ct, md.
           apply (last_cons_app _ [_]). exact Hlast.
Qed.
End IndexLoopFacts.

Lemma written_metadata_cons (e : event) (t : list event) :
  written_metadata (e :: t) =
  match e with
  | EvDocumentsAdd _ _ _ md _ => md :: written_metadata t
  | _ => written_metadata t
  end.
Proof. destruct e; reflexivity. Qed.

Lemma written_metadata_progress_line (n : nat) : written_metadata (progress_line n) = [].
Proof. unfold progress_line; destruct (_ =? _)%nat; reflexivity. Qed.

Section WrittenRecords.
Context {W : Type} `{!ZeroEntropy W} `{!Builtins}.
Variable collection_name : string.

(** The records written by a run of the loop are those of the articles it
    reached, in order. *)
Lemma index_loop_written (articles : list article) (idx : nat) (c : counters) (w : W) :
  let run := index_loop collection_name idx articles c w in
  written_metadata (trace_of run)
  = metadata_of <$> take (length (write_outcomes (trace_of run))) articles.
Proof.
  revert idx c w; induction articles as [|a rest IH]; intros idx c w.
  - reflexivity.
  - cbn zeta. simpl index_loop. rewrite bind_run, index_one_run.
    destruct (documents_add _ _ _ _ w) as [w1 [[]|e]].
    + cbn [value_of world_of trace_of fst snd].
      set (c1 := {| indexed_count := S (indexed_count c); failed_count := failed_count c |}).
      specialize (IH (S idx) c1 w1). cbn zeta in IH.
      destruct (value_of (index_loop collection_name (S idx) rest c1 w1)) as [c'|e];
        cbn [value_of world_of trace_of fst snd];
        rewrite <- app_comm_cons, write_outcomes_cons, written_metadata_cons,
          write_outcomes_app, written_metadata_app,
          write_outcomes_progress_line, written_metadata_progress_line;
        cbn [app length take fmap list_fmap]; rewrite IH; reflexivity.
    + destruct e; cbn [value_of world_of trace_of fst snd]; try reflexivity.
      specialize (IH (S idx) c w1). cbn zeta in IH.
      destruct (value_of (index_loop collection_name (S idx) rest c w1)) as [c'|e];
        cbn [value_of world_of trace_of fst snd];
        rewrite <- app_comm_cons, write_outcomes_cons, written_metadata_cons,
          <- app_comm_cons, write_outcomes_cons, written_metadata_cons;
        cbn [app length take fmap list_fmap]; rewrite IH; reflexivity.
Qed.

Lemma index_articles_trace (articles : list article) (w : W) :
  let loop := index_loop collection_name 0 articles
                {| indexed_count := 0; failed_count := 0 |} w in
  index_articles collection_name articles w =
  match value_of loop with
  | Ok c => (world_of loop, trace_of loop ++ [EvLog INFO (report c)], Ok tt)
  | Raise e => (world_of loop, trace_of loop, Raise e)
  end.
Proof.
  cbn zeta. unfold index_articles. rewrite bind_run.
  destruct (value_of _); reflexivity.
Qed.
End WrittenRecords.

(** C9: whatever the articles and whatever the index service answers, every
    metadata record that [index_articles] hands to the service has its five
    capped fields, each within its cap: title 500, creator 200, the joined
    categories 300, publication date 100, source URL 300 characters.  The
    records are those of the articles the run reached, in order. *)
Theorem written_metadata_within_caps {W : Type} `{!ZeroEntropy W} `{!Builtins}
    (collection_name : string) (articles : list article) (w : W) :
  let t := trace_of (index_articles collection_name articles w) in
  Forall within_caps (written_metadata t)
  /\ written_metadata t = metadata_of <$> take (length (write_outcomes t)) articles.
Proof.
  cbn zeta.
  assert (Hsame :
    written_metadata (trace_of (index_articles collection_name articles w))
    = written_metadata (trace_of (index_loop collection_name 0 articles
                                    {| indexed_count := 0; failed_count := 0 |} w))
    /\ write_outcomes (trace_of (index_articles collection_name articles w))
       = write_outcomes (trace_of (index_loop collection_name 0 articles
                                     {| indexed_count := 0; failed_count := 0 |} w))).
  { rewrite index_articles_trace. cbn zeta.
    destruct (value_of _); cbn [trace_of fst snd]; [|split; reflexivity].
    rewrite written_metadata_app, write_outcomes_app. simpl.
    rewrite !app_nil_r. split; reflexivity. }
  destruct Hsame as [Hmd Hout]. rewrite Hmd, Hout.
  pose proof (index_loop_written collection_name articles 0
                {| indexed_count := 0; failed_count := 0 |} w) as Hw.
  cbn zeta in Hw. split; [|exact Hw].
  rewrite Hw. apply Forall_fmap, Forall_forall. intros a _.
  apply metadata_within_caps.
Qed.

Lemma successes_conflicts (outs : list (outcome unit)) :
  Forall written_or_skipped outs ->
  (successes outs + conflicts outs = length outs)%nat.
Proof.
  unfold successes, conflicts.
  induction 1 as [|r outs [-> | ->] _ IH]; simpl; lia.
Qed.

(** C3: a write that signals that the key exists ends its turn of the loop
    without an exception, with one warning in the log and with both counters
    as they were.  And in a run of [index_articles] where every write either
    goes through or signals that the key exists, no exception reaches the
    caller, every article gets its write (the loop goes on after a
    conflict), each conflict leaves one warning in the log, the counter of
    indexed articles ends at the number of articles less the conflicts, the
    counter of failures stays at zero, and the last line logged reports the
    two.  With three articles and exactly one conflict, the counter of
    indexed articles ends at 2. *)
Theorem conflict_is_skipped {W : Type} `{!ZeroEntropy W} `{!Builtins}
    (collection_name : string) (articles : list article) (w : W) :
  let run := index_articles collection_name articles w in
  let outs := write_outcomes (trace_of run) in
  (forall idx a c v v1,
     documents_add collection_name (doc_path idx a) (content_of a) (metadata_of a) v
     = (v1, Raise ConflictError) ->
     index_one collection_name idx a c v
     = (v1,
        [ EvDocumentsAdd collection_name (doc_path idx a) (content_of a) (metadata_of a)
            (Raise ConflictError);
          EvLog WARNING ("Article " +:+ pretty idx +:+ " already exists, skipping...") ],
        Ok c))
  /\ (Forall written_or_skipped outs ->
      value_of run = Ok tt
      /\ length outs = length articles
      /\ length (logged WARNING (trace_of run)) = conflicts outs
      /\ exists c,
           value_of (index_loop collection_name 0 articles
                       {| indexed_count := 0; failed_count := 0 |} w) = Ok c
           /\ indexed_count c = (length articles - conflicts outs)%nat
           /\ failed_count c = 0%nat
           /\ last (trace_of run) = Some (EvLog INFO (report c))
           /\ (length articles = 3%nat -> conflicts outs = 1%nat ->
               indexed_count c = 2%nat)).
Proof.
  cbn zeta. split.
  { intros idx a c v v1 Hadd. rewrite index_one_run, Hadd. reflexivity. }
  rewrite index_articles_trace. cbn zeta.
  pose proof (index_loop_run collection_name articles 0
                {| indexed_count := 0; failed_count := 0 |} w) as Hrun.
  cbn zeta in Hrun.
  destruct (value_of (index_loop collection_name 0 articles _ w)) as [c|e];
    cbn [trace_of value_of fst snd].
  - rewrite write_outcomes_app, logged_app. simpl. rewrite !app_nil_r.
    intros Hall. destruct Hrun as (_ & Hlen & Hidx & Hfail & Hwarn).
    pose proof (successes_conflicts _ Hall) as Hsum.
    simpl in Hidx, Hfail.
    repeat split; try assumption.
    exists c. repeat split; try lia.
    rewrite last_app. reflexivity.
  - intros Hall. destruct Hrun as (Hne & (before & Hb & _ & _) & _).
    rewrite Hb in Hall. apply Forall_app in Hall as [_ Hlast].
    inversion Hlast as [|? ? [Hbad | Hbad] _]; subst; [discriminate | congruence].
Qed.

(** Three articles, the second of which meets an existing key: the run
    fulfils the premise of [conflict_is_skipped]. *)
Lemma conflict_is_skipped_witness :
  let w := Stub.with_writes [Ok tt; Raise ConflictError; Ok tt] in
  let articles := [Stub.story "Star returns to TV"; Stub.story "Star returns to TV";
                   Stub.story "Royal family"] in
  let run := @index_articles _ Stub.client (CPython.process 0) "articles" articles w in
  write_outcomes (trace_of run) = [Ok tt; Raise ConflictError; Ok tt]
  /\ value_of run = Ok tt
  /\ last (trace_of run) = Some (EvLog INFO "Indexing complete. Success: 2, Failed: 0").
Proof.
  cbn zeta.
  assert (Hout : write_outcomes (trace_of
            (@index_articles _ Stub.client (CPython.process 0) "articles"
               [Stub.story "Star returns to TV"; Stub.story "Star returns to TV";
                Stub.story "Royal family"]
               (Stub.with_writes [Ok tt; Raise ConflictError; Ok tt])))
          = [Ok tt; Raise ConflictError; Ok tt]) by (vm_compute; reflexivity).
  split; [exact Hout|].
  destruct (@conflict_is_skipped _ Stub.client (CPython.process 0) "articles"
              [Stub.story "Star returns to TV"; Stub.story "Star returns to TV";
               Stub.story "Royal family"]
              (Stub.with_writes [Ok tt; Raise ConflictError; Ok tt]))
    as (_ & Hrun).
  destruct Hrun as (Hv & _ & _ & c & Hc & _ & _ & Hlast & _).
  - rewrite Hout.
    repeat (constructor; [first [left; reflexivity | right; reflexivity]|]).
    constructor.
  - split; [exact Hv|]. rewrite Hlast. vm_compute in Hc.
    injection Hc as <-. reflexivity.
Defined.

(** C2, on the code: two articles, and an index service whose first write
    fails with a server error while the second would go through.  The error
    leaves [index_articles] as an exception: the second article is never
    written (its scripted outcome is still unread), nothing is counted as
    failed, and no report is logged. *)
Theorem write_failure_aborts_batch :
  let w := Stub.with_writes [Raise (APIError "InternalServerError"); Ok tt] in
  let articles := [Stub.story "Star returns to TV"; Stub.story "Royal family"] in
  let run := @index_articles _ Stub.client (CPython.process 0) "articles" articles w in
  value_of run = Raise (APIError "InternalServerError")
  /\ write_outcomes (trace_of run) = [Raise (APIError "InternalServerError")]
  /\ logged INFO (trace_of run) = []
  /\ Stub.add_script (world_of run) = [Ok tt].
Proof. vm_compute. repeat split; reflexivity. Qed.

(** The same for every batch and every service: a run of [index_articles]
    either returns, and then every write went through or was skipped and the
    report says [Failed: 0]; or it raises the error of a write other than a
    conflict, and then that write is the last thing it did. *)
Theorem failures_are_raised_not_counted {W : Type} `{!ZeroEntropy W} `{!Builtins}
    (collection_name : string) (articles : list article) (w : W) :
  let run := index_articles collection_name articles w in
  match value_of run with
  | Ok _ =>
      Forall written_or_skipped (write_outcomes (trace_of run))
      /\ exists c, failed_count c = 0%nat
                   /\ last (trace_of run) = Some (EvLog INFO (report c))
  | Raise e =>
      e <> ConflictError
      /\ exists path content md,
           last (trace_of run)
           = Some (EvDocumentsAdd collection_name path content md (Raise e))
  end.
Proof.
  cbn zeta. rewrite index_articles_trace. cbn zeta.
  pose proof (index_loop_run collection_name articles 0
                {| indexed_count := 0; failed_count := 0 |} w) as Hrun.
  cbn zeta in Hrun.
  destruct (value_of (index_loop collection_name 0 articles _ w)) as [c|e];
    cbn [trace_of value_of fst snd].
  - destruct Hrun as (Hall & _ & _ & Hfail & _).
    rewrite write_outcomes_app. simpl. rewrite app_nil_r.
    split; [exact Hall|]. exists c. split; [exact Hfail|].
    rewrite last_app. reflexivity.
  - destruct Hrun as (Hne & _ & Hlast). split; assumption.
Qed.

(** The collection is set up fail-soft: when the index service says that
    the collection exists, [initialize_collection] logs it and returns; it
    logs the creation when the service created it; any other error of the
    service is raised. *)
Theorem initialize_collection_is_fail_soft {W : Type} `{!ZeroEntropy W}
    (collection_name : string) (w : W) :
  initialize_collection collection_name w =
  let '(w1, r) := collections_add collection_name w in
  match r with
  | Ok _ =>
      (w1, [EvCollectionsAdd collection_name r;
            EvLog INFO ("Created new collection: " +:+ collection_name)], Ok tt)
  | Raise ConflictError =>
      (w1, [EvCollectionsAdd collection_name r;
            EvLog ERROR ("Collection '" +:+ collection_name +:+ "' already exists")], Ok tt)
  | Raise e => (w1, [EvCollectionsAdd collection_name r], Raise e)
  end.
Proof.
  unfold initialize_collection, except_conflict, bind, call, log.
  destruct (collections_add collection_name w) as [w1 [[]|e]]; [reflexivity|].
  destruct e; reflexivity.
Qed.

(** ** Document keys *)

Lemma pretty_N_go_digits (x : N) (s : string) :
  all_digits s = true -> all_digits (pretty_N_go x s) = true.
Proof.
  revert s. induction (N.lt_wf_0 x) as [x _ IH]; intros s Hs.
  destruct (decide (x = 0)%N) as [->|Hx].
  - rewrite pretty_N_go_0. exact Hs.
  - rewrite pretty_N_go_step by lia. apply IH.
    + apply N.div_lt; lia.
    + simpl. rewrite Hs, andb_true_r.
      unfold pretty_N_char. repeat case_match; reflexivity.
Qed.

Lemma pretty_nat_digits (n : nat) : all_digits (pretty n) = true.
Proof.
  unfold pretty, pretty_nat, pretty, pretty_N.
  case_decide; [reflexivity|]. apply pretty_N_go_digits. reflexivity.
Qed.

(** A run of digits followed by an underscore is read back in one way. *)
Lemma digits_then_underscore (s1 s2 t1 t2 : string) :
  all_digits s1 = true -> all_digits s2 = true ->
  s1 +:+ String "_" t1 = s2 +:+ String "_" t2 -> s1 = s2 /\ t1 = t2.
Proof.
  revert s2; induction s1 as [|c s1 IH]; intros [|d s2] H1 H2 Heq; simpl in *.
  - injection Heq as ->. split; reflexivity.
  - injection Heq as <- _. discriminate.
  - injection Heq as -> _. discriminate.
  - injection Heq as -> Heq.
    apply andb_true_iff in H1 as [_ H1]. apply andb_true_iff in H2 as [_ H2].
    destruct (IH s2 H1 H2 Heq) as [-> ->]. split; reflexivity.
Qed.

(** Within one process the key is read back in one way: two keys are equal
    only at the same ordinal and the same hash of the title's first fifty
    characters.  So two articles at different ordinals never share a key,
    whatever their titles. *)
Theorem doc_path_inj `{!Builtins} (i j : nat) (a b : article) :
  doc_path i a = doc_path j b ->
  i = j /\ builtin_hash (slice_to 50 (title a)) = builtin_hash (slice_to 50 (title b)).
Proof.
  unfold doc_path. intros Heq. simpl in Heq.
  injection Heq as Heq.
  apply digits_then_underscore in Heq as [Hi Hh]; try apply pretty_nat_digits.
  split; [exact (pretty_nat_inj _ _ Hi) | exact (pretty_Z_inj _ _ Hh)].
Qed.

Lemma doc_path_inj_witness :
  0%nat = 0%nat
  /\ CPython.str_hash 0 (slice_to 50 "Star returns to TV")
     = CPython.str_hash 0 (slice_to 50 "Star returns to TV").
Proof.
  apply (@doc_path_inj (CPython.process 0) 0 0
           (Stub.story "Star returns to TV") (Stub.story "Star returns to TV")).
  reflexivity.
Defined.

(** Within one process the key depends on the article through the first
    fifty characters of its title only. *)
Theorem doc_path_reads_title_prefix `{!Builtins} (i : nat) (a b : article) :
  slice_to 50 (title a) = slice_to 50 (title b) -> doc_path i a = doc_path i b.
Proof. unfold doc_path. intros ->. reflexivity. Qed.

Lemma doc_path_reads_title_prefix_witness :
  @doc_path (CPython.process 0) 3
    (Stub.story "Star returns to TV after a long break of ten years abroad")
  = @doc_path (CPython.process 0) 3
      {| title := "Star returns to TV after a long break of ten years in the theatre";
         creator := "Jane";
         categories := ["tele"];
         description := "";
         pub_date := "";
         content := "";
         source_url := "" |}.
Proof. apply doc_path_reads_title_prefix. reflexivity. Defined.

(** C6, on the code: the key of one and the same article at one and the
    same ordinal, computed by two interpreter processes.  The processes
    differ in nothing but the secret of their string hash (here the ones of
    [PYTHONHASHSEED=1] and [PYTHONHASHSEED=2]; an unset seed draws a fresh
    secret at every start), and the keys differ. *)
Theorem doc_path_differs_between_processes :
  let a := Stub.story "Star returns to TV" in
  @doc_path (CPython.process 1) 0 a = "article_0_-1388380785421680710"
  /\ @doc_path (CPython.process 2) 0 a = "article_0_1526627212586026885"
  /\ @doc_path (CPython.process 1) 0 a <> @doc_path (CPython.process 2) 0 a.
Proof.
  cbn zeta. split; [vm_compute; reflexivity|]. split; [vm_compute; reflexivity|].
  vm_compute. discriminate.
Qed.

(** Whatever the two processes: where their hashes of the title's prefix
    differ, so do the keys they give to the article. *)
Theorem doc_path_follows_the_hash (p q : Builtins) (i : nat) (a : article) :
  @builtin_hash p (slice_to 50 (title a)) <> @builtin_hash q (slice_to 50 (title a)) ->
  @doc_path p i a <> @doc_path q i a.
Proof.
  unfold doc_path. intros Hne Heq. simpl in Heq. injection Heq as Heq.
  apply digits_then_underscore in Heq as [_ Hh]; try apply pretty_nat_digits.
  apply Hne. exact (pretty_Z_inj _ _ Hh).
Qed.

Lemma doc_path_follows_the_hash_witness :
  @doc_path (CPython.process 1) 0 (Stub.story "a")
  <> @doc_path (CPython.process 2) 0 (Stub.story "a").
Proof.
  apply doc_path_follows_the_hash. vm_compute. discriminate.
Defined.

(** ** Retrieve, then rerank *)

Lemma reranks_app (t1 t2 : list event) : reranks (t1 ++ t2) = reranks t1 ++ reranks t2.
Proof. apply omap_app. Qed.

Lemma merge_one_merged (found : list dict) (rerank_result item : dict) :
  merge_one found rerank_result = Ok item -> merged found rerank_result item.
Proof.
  unfold merge_one, rbind, getitem.
  destruct (rerank_result !! "index") as [i|] eqn:Hi; [|discriminate].
  destruct (as_index i) as [z|] eqn:Hz; [|discriminate].
  destruct (py_index found z) as [original|] eqn:Ho; [|discriminate].
  destruct (rerank_result !! "relevance_score") as [rs|] eqn:Hrs; [|discriminate].
  destruct (original !! "score") as [score|] eqn:Hs; [|discriminate].
  intros [= <-]. exists i, z, original, score, rs.
  repeat split; try assumption.
  - apply lookup_insert_eq.
  - rewrite lookup_insert_ne by discriminate. apply lookup_insert_eq.
  - intros key H1 H2. rewrite !lookup_insert_ne by congruence. reflexivity.
Qed.

Lemma merge_all_merged (found rerank_results items : list dict) :
  merge_all found rerank_results = Ok items ->
  Forall2 (merged found) rerank_results items.
Proof.
  revert items; induction rerank_results as [|rr rest IH]; intros items; simpl.
  - intros [= <-]. constructor.
  - unfold rbind at 1.
    destruct (merge_one found rr) as [item|] eqn:Hone; [|discriminate].
    unfold rbind at 1.
    destruct (merge_all found rest) as [items'|]; [|discriminate].
    intros [= <-]. constructor; [apply merge_one_merged; exact Hone | apply IH; reflexivity].
Qed.

Lemma bind_call_run {W A B} (op : W -> W * outcome A) (ev : outcome A -> event)
    (f : A -> M W B) (w : W) :
  bind (call op ev) f w =
  match (op w).2 with
  | Ok a =>
      (world_of (f a (op w).1), ev (Ok a) :: trace_of (f a (op w).1),
       value_of (f a (op w).1))
  | Raise e => ((op w).1, [ev (Raise e)], Raise e)
  end.
Proof.
  unfold bind, call, world_of, trace_of, value_of.
  destruct (op w) as [w1 [a|e]]; simpl; [|reflexivity].
  destruct (f a w1) as [[w2 t2] r2]; reflexivity.
Qed.

Section RerankFacts.
Context {W : Type} `{!ZeroEntropy W} `{!Builtins}.
Variable self_collection_name : string.

(** Hydration calls [documents.get_info] only, once per candidate, and
    gives one text per candidate. *)
Lemma hydrate_all_run (collection_name : string) (results : list dict) (w : W) :
  let run := hydrate_all self_collection_name collection_name results w in
  reranks (trace_of run) = []
  /\ forall texts, value_of run = Ok texts -> length texts = length results.
Proof.
  revert w; induction results as [|result rest IH]; intros w; cbn zeta.
  - split; [reflexivity|]. intros texts [= <-]. reflexivity.
  - simpl hydrate_all. rewrite bind_run.
    assert (Hh : reranks (trace_of (hydrate self_collection_name collection_name result w)) = []).
    { unfold hydrate, get_document_info, lift, call. rewrite bind_run.
      destruct (getitem result "path") as [path|]; cbn [value_of world_of trace_of fst snd];
        [|reflexivity].
      rewrite bind_run.
      destruct (documents_get_info _ _ _ _) as [w1 [info|]];
        cbn [value_of world_of trace_of fst snd default]; [|reflexivity].
      reflexivity. }
    destruct (value_of (hydrate _ _ result w)) as [text|];
      cbn [value_of world_of trace_of fst snd].
    2:{ split; [exact Hh | discriminate]. }
    rewrite bind_run.
    destruct (IH (world_of (hydrate self_collection_name collection_name result w)))
      as [Hr Hlen].
    destruct (value_of (hydrate_all _ _ rest _)) as [texts|];
      cbn [value_of world_of trace_of fst snd]; rewrite reranks_app, Hh, ?reranks_app, Hr.
    + split; [reflexivity|]. intros ? [= <-]. simpl. f_equal. apply Hlen. reflexivity.
    + split; [reflexivity | discriminate].
Qed.

(** The whole of [search_and_rerank], by what the index service answers. *)
Lemma search_and_rerank_run (query : string) (k rerank_top_n : Z)
    (collection_name : option string) (w : W) :
  let c := default self_collection_name collection_name in
  let first := EvTopDocuments c query k true "low" in
  search_and_rerank self_collection_name query k rerank_top_n collection_name w =
  let '(w1, r) := queries_top_documents c query k true "low" w in
  match r with
  | Raise e => (w1, [first r], Raise e)
  | Ok [] => (w1, [first r], Ok [])
  | Ok found =>
      let h := hydrate_all self_collection_name c found w1 in
      match value_of h with
      | Raise e => (world_of h, first r :: trace_of h, Raise e)
      | Ok texts =>
          let top_n := Z.min rerank_top_n (Z.of_nat (length texts)) in
          let '(w3, rr) := models_rerank query texts "zerank-1-small" top_n (world_of h) in
          (w3,
           first r :: trace_of h ++ [EvRerank query texts "zerank-1-small" top_n rr],
           match rr with
           | Ok rerank_results => merge_all found rerank_results
           | Raise e => Raise e
           end)
      end
  end.
Proof.
  cbn zeta. unfold search_and_rerank. rewrite bind_call_run.
  destruct (queries_top_documents _ _ _ _ _ w) as [w1 [found|e]];
    cbn [fst snd]; [|reflexivity].
  destruct found as [|cand found']; [reflexivity|].
  rewrite bind_run.
  destruct (value_of (hydrate_all _ _ _ w1)) as [texts|e];
    cbn [value_of world_of trace_of fst snd]; [|reflexivity].
  rewrite bind_run. unfold rerank_documents, call, lift.
  destruct (models_rerank _ _ _ _ _) as [w3 [rr|e]];
    cbn [value_of world_of trace_of fst snd]; [|reflexivity].
  rewrite app_nil_r. reflexivity.
Qed.
End RerankFacts.

Lemma reranks_cons (e : event) (t : list event) :
  reranks (e :: t) =
  match e with
  | EvRerank _ documents _ top_n r => (documents, top_n, r) :: reranks t
  | _ => reranks t
  end.
Proof. destruct e; reflexivity. Qed.

Lemma last_cons_snoc {A} (x : A) (l : list A) (y : A) : last (x :: l ++ [y]) = Some y.
Proof. apply last_cons_app. reflexivity. Qed.

(** C1: whenever [search_and_rerank] returns a list, the list matches the
    reranker's answer item by item, in the reranker's order, whatever that
    order is: the item is the candidate that the answer's index names in the
    list the broad retrieval returned (a Python index: a negative one counts
    from the end), with [original_score] set to that candidate's [score] and
    [rerank_score] set to the answer's [relevance_score], both as they came,
    and every other key as the candidate has it. *)
Theorem merge_preserves_scores {W : Type} `{!ZeroEntropy W} `{!Builtins}
    (self_collection_name query : string) (k rerank_top_n : Z)
    (collection_name : option string) (w : W) (out : list dict) :
  let run := search_and_rerank self_collection_name query k rerank_top_n collection_name w in
  value_of run = Ok out ->
  exists found rerank_results,
    head (trace_of run)
    = Some (EvTopDocuments (default self_collection_name collection_name)
              query k true "low" (Ok found))
    /\ (found <> [] ->
        exists documents top_n,
          last (trace_of run)
          = Some (EvRerank query documents "zerank-1-small" top_n (Ok rerank_results)))
    /\ Forall2 (merged found) rerank_results out.
Proof.
  cbn zeta. rewrite search_and_rerank_run. cbn zeta.
  destruct (queries_top_documents _ _ _ _ _ w) as [w1 [found|e]]; [|discriminate].
  destruct found as [|cand found'].
  - intros [= <-]. exists [], []. repeat split; [congruence | constructor].
  - destruct (value_of (hydrate_all _ _ _ w1)) as [texts|e]; [|discriminate].
    destruct (models_rerank _ _ _ _ _) as [w3 [rr|e]]; [|discriminate].
    cbn [value_of trace_of fst snd]. intros Hmerge.
    exists (cand :: found'), rr. split; [reflexivity|]. split.
    + intros _. eexists _, _. apply last_cons_snoc.
    + apply merge_all_merged. exact Hmerge.
Qed.

Lemma merge_preserves_scores_witness :
  let run := @search_and_rerank _ Stub.client (CPython.process 0)
               "articles" "royal family" 6 2 None Example.world in
  value_of run
  = Ok [ {["path" := VStr "article_2_3"; "score" := VFloat 0.125;
           "rerank_score" := VFloat 0.75; "original_score" := VFloat 0.125]};
         {["path" := VStr "article_0_1"; "score" := VFloat 0.875;
           "rerank_score" := VFloat 0.625; "original_score" := VFloat 0.875]} ]
  /\ exists rerank_results, Forall2 (merged Example.found) rerank_results
       [ {["path" := VStr "article_2_3"; "score" := VFloat 0.125;
           "rerank_score" := VFloat 0.75; "original_score" := VFloat 0.125]};
         {["path" := VStr "article_0_1"; "score" := VFloat 0.875;
           "rerank_score" := VFloat 0.625; "original_score" := VFloat 0.875]} ].
Proof.
  cbn zeta.
  assert (Hrun : value_of (@search_and_rerank _ Stub.client (CPython.process 0)
               "articles" "royal family" 6 2 None Example.world)
    = Ok [ {["path" := VStr "article_2_3"; "score" := VFloat 0.125;
           "rerank_score" := VFloat 0.75; "original_score" := VFloat 0.125]};
         {["path" := VStr "article_0_1"; "score" := VFloat 0.875;
           "rerank_score" := VFloat 0.625; "original_score" := VFloat 0.875]} ])
    by (vm_compute; reflexivity).
  split; [exact Hrun|].
  destruct (merge_preserves_scores _ _ _ _ _ _ _ Hrun) as (found & rr & Hhead & _ & Hall).
  vm_compute in Hhead. injection Hhead as <-.
  exists rr. exact Hall.
Defined.

(** C5: let the broad retrieval of a call of [search_and_rerank] return the
    list [found].  If [found] is empty, the call returns the empty list and
    the retrieval is the only call it makes: the reranker is not invoked.
    Otherwise every request the call makes to the reranker carries one text
    per candidate and asks for [min(rerank_top_n, len(found))] results; the
    call makes that request, once, as soon as the hydration of the
    candidates returns; and if the call returns a list, the list is as long
    as the reranker's answer, so at most [min(rerank_top_n, len(found))]
    items long when the reranker returns no more than it was asked for. *)
Theorem rerank_request_is_bounded {W : Type} `{!ZeroEntropy W} `{!Builtins}
    (self_collection_name query : string) (k rerank_top_n : Z)
    (collection_name : option string) (w w1 : W) (found : list dict) :
  let c := default self_collection_name collection_name in
  let run := search_and_rerank self_collection_name query k rerank_top_n collection_name w in
  let asked := Z.min rerank_top_n (Z.of_nat (length found)) in
  queries_top_documents c query k true "low" w = (w1, Ok found) ->
  (found = [] ->
   run = (w1, [EvTopDocuments c query k true "low" (Ok [])], Ok []))
  /\ (found <> [] ->
      (forall documents top_n r,
         In (documents, top_n, r) (reranks (trace_of run)) ->
         top_n = asked /\ length documents = length found)
      /\ (forall texts,
            value_of (hydrate_all self_collection_name c found w1) = Ok texts ->
            exists r, reranks (trace_of run) = [(texts, asked, r)])
      /\ (forall out,
            value_of run = Ok out ->
            exists documents rerank_results,
              reranks (trace_of run) = [(documents, asked, Ok rerank_results)]
              /\ length out = length rerank_results
              /\ (Z.of_nat (length rerank_results) <= asked ->
                  Z.of_nat (length out) <= asked))).
Proof.
  cbn zeta. intros Htop. rewrite search_and_rerank_run. cbn zeta. rewrite Htop.
  split; [intros ->; reflexivity|]. intros Hne.
  destruct found as [|cand found']; [congruence|].
  pose proof (hydrate_all_run self_collection_name
                (default self_collection_name collection_name) (cand :: found') w1) as [Hnone Hlen].
  destruct (value_of (hydrate_all _ _ _ w1)) as [texts|e].
  - specialize (Hlen texts eq_refl).
    destruct (models_rerank _ _ _ _ _) as [w3 rr].
    cbn [value_of trace_of fst snd].
    rewrite reranks_cons, reranks_app, Hnone, Hlen. cbn [reranks omap app].
    split; [|split].
    + intros documents top_n r [[= <- <- <-]|[]]. split; [reflexivity | exact Hlen].
    + intros ? [= <-]. exists rr. reflexivity.
    + intros out Hout. destruct rr as [rr|e]; [|discriminate].
      exists texts, rr. split; [reflexivity|].
      apply merge_all_merged, Forall2_length in Hout.
      split; [symmetry; exact Hout | rewrite Hout; trivial].
  - cbn [value_of trace_of fst snd]. rewrite reranks_cons, Hnone.
    split; [intros ? ? ? [] | split; discriminate].
Qed.

(** Three candidates and a request for the two best: the reranker is asked
    for two, and two items come out. *)
Lemma rerank_request_is_bounded_witness :
  let run := @search_and_rerank _ Stub.client (CPython.process 0)
               "articles" "royal family" 6 2 None Example.world in
  exists documents rerank_results out,
    reranks (trace_of run) = [(documents, 2, Ok rerank_results)]
    /\ value_of run = Ok out
    /\ length out = 2%nat.
Proof.
  cbn zeta.
  destruct (@rerank_request_is_bounded _ Stub.client (CPython.process 0)
              "articles" "royal family" 6 2 None Example.world Example.world
              Example.found eq_refl) as [_ Hsome].
  destruct Hsome as (_ & _ & Hout); [discriminate|].
  destruct (value_of (@search_and_rerank _ Stub.client (CPython.process 0)
               "articles" "royal family" 6 2 None Example.world)) as [out|e] eqn:Hv;
    [|vm_compute in Hv; discriminate].
  destruct (Hout out eq_refl) as (documents & rr & Hr & Hlen & _).
  exists documents, rr, out. split; [exact Hr|]. split; [reflexivity|].
  vm_compute in Hv. injection Hv as <-. reflexivity.
Defined.

(** ** The filter builder *)

Lemma provided_true (o : option string) :
  provided o = true <-> exists s, o = Some s /\ s <> "".
Proof.
  destruct o as [s|]; simpl.
  - rewrite negb_true_iff, String.eqb_neq. split; [eauto | intros (? & [= <-] & ?); done].
  - split; [discriminate | intros (? & ? & _); discriminate].
Qed.

Lemma build_filter_cases (filter_creator filter_category : option string) :
  build_filter filter_creator filter_category =
  match provided filter_creator, provided filter_category with
  | false, false => None
  | true, false => Some {["creator" := {["$eq" := default "" filter_creator]}]}
  | false, true => Some {["categories" := {["$eq" := default "" filter_category]}]}
  | true, true =>
      Some (<["categories" := {["$eq" := default "" filter_category]}]>
              {["creator" := {["$eq" := default "" filter_creator]}]})
  end.
Proof.
  unfold build_filter.
  destruct (provided filter_creator), (provided filter_category);
    rewrite ?insert_empty;
    first [ rewrite bool_decide_eq_true_2 by reflexivity; reflexivity
          | rewrite bool_decide_eq_false_2; [reflexivity|] ].
  - apply insert_non_empty.
  - apply map_non_empty_singleton.
  - apply map_non_empty_singleton.
Qed.

(** C8: the filter that [search_articles] prepares.  An argument counts as
    provided when it is true for Python, a string that is not empty.  With
    neither argument provided the filter is [None]; it is never a dictionary
    that is present and empty; each provided argument gives the clause
    [{"$eq": value}] under its field, [creator] or [categories], both in the
    one dictionary when both are provided; and the dictionary has no other
    entry. *)
Theorem build_filter_spec (filter_creator filter_category : option string) :
  (provided filter_creator = false -> provided filter_category = false ->
   build_filter filter_creator filter_category = None)
  /\ build_filter filter_creator filter_category <> Some ∅
  /\ (forall value, filter_creator = Some value -> value <> "" ->
      exists filter_dict,
        build_filter filter_creator filter_category = Some filter_dict
        /\ filter_dict !! "creator" = Some {["$eq" := value]})
  /\ (forall value, filter_category = Some value -> value <> "" ->
      exists filter_dict,
        build_filter filter_creator filter_category = Some filter_dict
        /\ filter_dict !! "categories" = Some {["$eq" := value]})
  /\ (forall filter_dict field clause,
        build_filter filter_creator filter_category = Some filter_dict ->
        filter_dict !! field = Some clause ->
        (field = "creator" /\ provided filter_creator = true
         /\ clause = {["$eq" := default "" filter_creator]})
        \/ (field = "categories" /\ provided filter_category = true
            /\ clause = {["$eq" := default "" filter_category]})).
Proof.
  rewrite build_filter_cases.
  split; [intros -> ->; reflexivity|].
  split.
  { destruct (provided filter_creator), (provided filter_category); try discriminate;
      intros [= Hempty]; revert Hempty;
      first [apply insert_non_empty | apply map_non_empty_singleton]. }
  split.
  { intros value -> Hne.
    assert (Hp : provided (Some value) = true) by (apply provided_true; eauto).
    rewrite Hp. destruct (provided filter_category); eexists; (split; [reflexivity|]).
    - rewrite lookup_insert_ne by discriminate. apply lookup_singleton_eq.
    - apply lookup_singleton_eq. }
  split.
  { intros value -> Hne.
    assert (Hp : provided (Some value) = true) by (apply provided_true; eauto).
    rewrite Hp. destruct (provided filter_creator); eexists; (split; [reflexivity|]).
    - apply lookup_insert_eq.
    - apply lookup_singleton_eq. }
  intros filter_dict field clause.
  destruct (provided filter_creator), (provided filter_category);
    intros [= <-] Hfield; try discriminate.
  - destruct (decide (field = "categories")) as [->|Hf].
    + rewrite lookup_insert_eq in Hfield. injection Hfield as <-. right. auto.
    + rewrite lookup_insert_ne in Hfield by congruence.
      apply lookup_singleton_Some in Hfield as [<- <-]. left. auto.
  - apply lookup_singleton_Some in Hfield as [<- <-]. left. auto.
  - apply lookup_singleton_Some in Hfield as [<- <-]. right. auto.
Qed.

(** Both arguments given, one given as the empty string, none given. *)
Lemma build_filter_spec_witness :
  build_filter (Some "Jane Doe") (Some "tele")
  = Some {["creator" := {["$eq" := "Jane Doe"]}; "categories" := {["$eq" := "tele"]}]}
  /\ build_filter (Some "") (Some "tele") = Some {["categories" := {["$eq" := "tele"]}]}
  /\ build_filter None None = None
  /\ exists filter_dict,
       build_filter (Some "Jane Doe") None = Some filter_dict
       /\ filter_dict !! "creator" = Some {["$eq" := "Jane Doe"]}.
Proof.
  split; [vm_compute; reflexivity|]. split; [vm_compute; reflexivity|].
  split; [vm_compute; reflexivity|].
  destruct (build_filter_spec (Some "Jane Doe") None) as (_ & _ & Hc & _).
  apply (Hc "Jane Doe"); [reflexivity | discriminate].
Defined.

(** ** The routers *)

Lemma unknown_mode_eqb (search_type : string) :
  known_mode search_type = false ->
  String.eqb search_type "documents" = false
  /\ String.eqb search_type "snippets" = false
  /\ String.eqb search_type "pages" = false
  /\ String.eqb search_type "advanced" = false.
Proof.
  unfold known_mode. simpl. rewrite !orb_false_iff. tauto.
Qed.

(** C4, as the code has it: for a mode that is none of the four, neither
    router reaches the index service.  [search_articles] makes no retrieval,
    no reranking and no display: the status call, when asked for, is the
    only call it makes, and the world is as that call left it; the router of
    the dashboard, [get_search_results], makes no call at all and returns
    the empty list with the mode, without a word. *)
Theorem unknown_mode_is_not_routed {W : Type} `{!ZeroEntropy W} `{!Searcher W} `{!Builtins}
    (collection_name query search_type : string) (k : Z)
    (filter_creator filter_category : option string) (reranker : string)
    (show_status : bool) (w : W) :
  known_mode search_type = false ->
  let run := search_articles collection_name query search_type k
               filter_creator filter_category reranker show_status w in
  trace_of run = (if show_status then [EvSearcher GetCollectionStatus] else [])
  /\ world_of run = (if show_status then (get_collection_status w).1 else w)
  /\ get_search_results query search_type k collection_name
       filter_creator filter_category reranker w
     = (w, [], Ok ([], search_type)).
Proof.
  intros Hmode. apply unknown_mode_eqb in Hmode as (H1 & H2 & H3 & H4). cbn zeta.
  assert (Hd : forall f v, dispatch collection_name query search_type k f reranker v
                           = (v, [], Ok None)).
  { intros f v. unfold dispatch. rewrite H1, H2, H3, H4. reflexivity. }
  split; [|split].
  - unfold search_articles. rewrite bind_run. destruct show_status.
    + rewrite bind_run. unfold call_searcher.
      destruct (get_collection_status w) as [w1 [st|e]];
        cbn [value_of world_of trace_of fst snd]; [|reflexivity].
      rewrite bind_run, Hd. reflexivity.
    + cbn [ret value_of world_of trace_of fst snd]. rewrite bind_run, Hd. reflexivity.
  - unfold search_articles. rewrite bind_run. destruct show_status.
    + rewrite bind_run. unfold call_searcher.
      destruct (get_collection_status w) as [w1 [st|e]];
        cbn [value_of world_of trace_of fst snd]; [|reflexivity].
      rewrite bind_run, Hd. reflexivity.
    + cbn [ret value_of world_of trace_of fst snd]. rewrite bind_run, Hd. reflexivity.
  - unfold get_search_results. rewrite H1, H2, H3, H4. reflexivity.
Qed.

Lemma unknown_mode_is_not_routed_witness :
  trace_of (@search_articles _ Stub.client Stub.searcher (CPython.process 0)
              "articles" "royal family" "semantic" 5 None None "zerank-1-small"
              true Stub.empty)
  = [EvSearcher GetCollectionStatus]
  /\ @get_search_results _ Stub.client Stub.searcher (CPython.process 0)
       "royal family" "semantic" 5 "articles" None None "zerank-1-small" Stub.empty
     = (Stub.empty, [], Ok ([], "semantic")).
Proof.
  destruct (@unknown_mode_is_not_routed _ Stub.client Stub.searcher (CPython.process 0)
              "articles" "royal family" "semantic" 5 None None "zerank-1-small"
              true Stub.empty eq_refl) as (Ht & _ & Hr).
  split; [exact Ht | exact Hr].
Defined.

(** C4, against the specification: the mode [semantic] is none of the four.
    [search_articles] ends in [UnboundLocalError], the error of reading a
    local name that was never bound, and the router of the dashboard returns
    an empty list of results without a word. *)
Lemma unknown_mode_counterexample :
  value_of (@search_articles _ Stub.client Stub.searcher (CPython.process 0)
              "articles" "royal family" "semantic" 5 None None "zerank-1-small"
              false Stub.empty)
  = Raise (UnboundLocalError "results")
  /\ @get_search_results _ Stub.client Stub.searcher (CPython.process 0)
       "royal family" "semantic" 5 "articles" None None "zerank-1-small" Stub.empty
     = (Stub.empty, [], Ok ([], "semantic")).
Proof. split; vm_compute; reflexivity. Qed.

(** The mode [advanced] is [search_and_rerank] with a pool of [k * 2] and
    [rerank_top_n = k].  The run starts by retrieving [k * 2] candidates from
    the collection of the manager; every request it sends to the reranker
    asks for the best [min(k, number of texts)]; its trace is the trace of
    [search_and_rerank query (k * 2) k], followed by the display of the
    results when that call returns, and what it returns is what that call
    returned; and it reads neither the two filter arguments nor the reranker
    argument. *)
Theorem advanced_route_doubles_the_pool {W : Type} `{!ZeroEntropy W} `{!Searcher W}
    `{!Builtins} (collection_name query : string) (k : Z)
    (filter_creator filter_category : option string) (reranker : string) (w : W) :
  let run := search_articles collection_name query "advanced" k
               filter_creator filter_category reranker false w in
  let pool := search_and_rerank collection_name query (k * 2) k None w in
  head (trace_of run)
  = Some (EvTopDocuments collection_name query (k * 2) true "low"
            (queries_top_documents collection_name query (k * 2) true "low" w).2)
  /\ (forall documents top_n r,
        In (documents, top_n, r) (reranks (trace_of run)) ->
        top_n = Z.min k (Z.of_nat (length documents)))
  /\ trace_of run
     = trace_of pool
       ++ match value_of pool with
          | Ok results => [EvSearcher (DisplayAdvancedResults results query)]
          | Raise _ => []
          end
  /\ (forall results, value_of run = Ok results -> value_of pool = Ok results)
  /\ run = search_articles collection_name query "advanced" k None None "zerank-1-small" false w.
Proof.
  cbn zeta.
  assert (Hrun :
    search_articles collection_name query "advanced" k
      filter_creator filter_category reranker false w
    = let pool := search_and_rerank collection_name query (k * 2) k None w in
      match value_of pool with
      | Ok results =>
          let shown := display_advanced_results results query (world_of pool) in
          (shown.1,
           trace_of pool ++ [EvSearcher (DisplayAdvancedResults results query)],
           match shown.2 with Ok _ => Ok results | Raise e => Raise e end)
      | Raise e => (world_of pool, trace_of pool, Raise e)
      end).
  { cbn zeta. unfold search_articles. rewrite bind_run.
    cbn [ret value_of world_of trace_of fst snd app].
    rewrite bind_run. unfold dispatch. cbn [String.eqb Ascii.eqb Bool.eqb].
    rewrite bind_run.
    destruct (value_of (search_and_rerank collection_name query (k * 2) k None w))
      as [results|e]; cbn [value_of world_of trace_of fst snd]; [|reflexivity].
    rewrite bind_run. unfold call_searcher.
    destruct (display_advanced_results results query _) as [w2 [[]|e]];
      cbn [value_of world_of trace_of fst snd ret]; rewrite ?app_nil_r; reflexivity. }
  assert (Htrace :
    trace_of (search_articles collection_name query "advanced" k
                filter_creator filter_category reranker false w)
    = trace_of (search_and_rerank collection_name query (k * 2) k None w)
      ++ match value_of (search_and_rerank collection_name query (k * 2) k None w) with
         | Ok results => [EvSearcher (DisplayAdvancedResults results query)]
         | Raise _ => []
         end).
  { rewrite Hrun. cbn zeta. destruct (value_of _); cbn [trace_of fst snd];
      rewrite ?app_nil_r; reflexivity. }
  assert (Hpool :
    head (trace_of (search_and_rerank collection_name query (k * 2) k None w))
    = Some (EvTopDocuments collection_name query (k * 2) true "low"
              (queries_top_documents collection_name query (k * 2) true "low" w).2)
    /\ forall documents top_n r,
         In (documents, top_n, r)
            (reranks (trace_of (search_and_rerank collection_name query (k * 2) k None w))) ->
         top_n = Z.min k (Z.of_nat (length documents))).
  { rewrite search_and_rerank_run. cbn zeta. cbn [default].
    destruct (queries_top_documents _ _ _ _ _ w) as [w1 [found|e]];
      [|split; [reflexivity | intros ? ? ? []]].
    destruct found as [|cand found']; [split; [reflexivity | intros ? ? ? []]|].
    pose proof (hydrate_all_run collection_name collection_name (cand :: found') w1)
      as [Hnone _].
    destruct (value_of (hydrate_all _ _ _ w1)) as [texts|e].
    2:{ cbn [trace_of fst snd]. split; [reflexivity|].
        rewrite reranks_cons, Hnone. intros ? ? ? []. }
    destruct (models_rerank _ _ _ _ _) as [w3 rr]. cbn [trace_of fst snd].
    split; [reflexivity|].
    rewrite reranks_cons, reranks_app, Hnone. cbn [reranks omap app].
    intros documents top_n r [[= <- <- <-]|[]]. reflexivity. }
  destruct Hpool as [Hfirst Htop].
  split.
  { rewrite Htrace.
    destruct (trace_of (search_and_rerank collection_name query (k * 2) k None w));
      [discriminate Hfirst | exact Hfirst]. }
  split.
  { intros documents top_n r. rewrite Htrace, reranks_app.
    replace (reranks match value_of (search_and_rerank collection_name query (k * 2) k None w)
                     with
                     | Ok results => [EvSearcher (DisplayAdvancedResults results query)]
                     | Raise _ => []
                     end) with (@nil (list pyval * Z * outcome (list dict)))
      by (destruct (value_of _); reflexivity).
    rewrite app_nil_r. apply Htop. }
  split; [exact Htrace|].
  split; [|reflexivity].
  intros results. rewrite Hrun. cbn zeta.
  destruct (value_of (search_and_rerank collection_name query (k * 2) k None w))
    as [results'|e]; cbn [value_of fst snd]; [|discriminate].
  destruct (display_advanced_results results' query _).2; [|discriminate].
  intros [= <-]. reflexivity.
Qed.

(** ** Collection management *)

Lemma delete_collection_run {W : Type} `{!ZeroEntropy W} (name : string) (w : W) :
  delete_collection name w =
  let '(w1, r) := collections_delete name w in
  match r with
  | Ok _ =>
      (w1, [EvCollectionsDelete name r;
            EvLog INFO ("Successfully deleted collection: " +:+ name)], Ok true)
  | Raise e => (w1, [EvCollectionsDelete name r], Raise e)
  end.
Proof.
  unfold delete_collection, bind, call, log, ret.
  destruct (collections_delete name w) as [w1 [[]|e]]; reflexivity.
Qed.

(** C10: [delete_collection] returns [True] whenever it returns, a failure
    of the index service leaving it as the exception the client raised; so
    [manage_collections], whatever the action and the name, never logs a
    line that starts with [Failed to delete collection], and on the action
    [delete] with a name it either returns [True] after the two lines of
    success or raises what the client raised. *)
Theorem delete_never_reports_failure {W : Type} `{!ZeroEntropy W} `{!Searcher W} `{!Builtins}
    (action : string) (name : option string) (w : W) :
  (forall collection b, value_of (delete_collection collection w) = Ok b -> b = true)
  /\ (forall collection e,
        value_of (delete_collection collection w) = Raise e ->
        (collections_delete collection w).2 = Raise e)
  /\ (forall lvl msg,
        In (EvLog lvl msg) (trace_of (manage_collections action name w)) ->
        String.prefix "Failed to delete collection" msg = false)
  /\ (String.eqb action "delete" && provided name = true ->
      let collection := default "" name in
      match (collections_delete collection w).2 with
      | Ok _ =>
          value_of (manage_collections action name w) = Ok (VBool true)
          /\ logged INFO (trace_of (manage_collections action name w))
             = [ "Successfully deleted collection: " +:+ collection;
                 "Successfully deleted collection: " +:+ collection ]
      | Raise e => value_of (manage_collections action name w) = Raise e
      end).
Proof.
  split; [|split; [|split]].
  - intros collection b. rewrite delete_collection_run.
    destruct (collections_delete collection w) as [w1 [[]|e]]; cbn [value_of snd].
    + intros [= <-]. reflexivity.
    + discriminate.
  - intros collection e. rewrite delete_collection_run.
    destruct (collections_delete collection w) as [w1 [[]|e']]; cbn [value_of snd].
    + discriminate.
    + intros [= <-]. reflexivity.
  - intros lvl msg. unfold manage_collections.
    destruct (String.eqb action "list").
    { unfold list_all_collections. rewrite bind_call_run.
      destruct (collections_get_list w) as [w1 [names|e]]; cbn [fst snd trace_of].
      - intros [Hin | [Hin | []]]; [discriminate|]. injection Hin as _ <-. reflexivity.
      - intros [Hin | []]. discriminate. }
    destruct (String.eqb action "delete" && provided name).
    { rewrite bind_run, delete_collection_run.
      destruct (collections_delete (default "" name) w) as [w1 [[]|e]];
        cbn [value_of world_of trace_of fst snd].
      - intros [Hin | [Hin | [Hin | []]]]; try discriminate;
          injection Hin as _ <-; reflexivity.
      - intros [Hin | []]. discriminate. }
    destruct (String.eqb action "status").
    { unfold call_searcher. destruct (get_collection_status w) as [w1 r].
      cbn [trace_of fst snd]. intros [Hin | []]. discriminate. }
    cbn. intros [Hin | []]. injection Hin as _ <-. reflexivity.
  - intros Hdelete. cbn zeta. unfold manage_collections.
    apply andb_true_iff in Hdelete as [Ha Hp].
    assert (Hl : String.eqb action "list" = false).
    { apply String.eqb_eq in Ha. subst action. reflexivity. }
    rewrite Hl, Ha, Hp. cbn [andb].
    rewrite bind_run, delete_collection_run.
    destruct (collections_delete (default "" name) w) as [w1 [[]|e]];
      cbn [value_of world_of trace_of fst snd]; [|reflexivity].
    split; reflexivity.
Qed.

Lemma delete_never_reports_failure_witness :
  let run := @manage_collections _ Stub.client Stub.searcher (CPython.process 0)
               "delete" (Some "articles") Stub.empty in
  value_of run = Ok (VBool true)
  /\ logged INFO (trace_of run)
     = [ "Successfully deleted collection: articles";
         "Successfully deleted collection: articles" ].
Proof.
  cbn zeta.
  destruct (@delete_never_reports_failure _ Stub.client Stub.searcher (CPython.process 0)
              "delete" (Some "articles") Stub.empty) as (_ & _ & _ & Hdelete).
  apply (Hdelete eq_refl).
Defined.

(** ** The content normalizer *)

Lemma replace_char_empty (a b : ascii) (s : string) :
  replace_char a b s = "" <-> s = "".
Proof. destruct s; simpl; split; intros; try reflexivity; discriminate. Qed.

Lemma app_empty (s t : string) : s +:+ t = "" -> s = "".
Proof. destruct s; [reflexivity | discriminate]. Qed.

Lemma join_nonempty_parts (sep : string) (parts : list string) :
  Forall (fun p => p <> "") parts -> join sep parts = "" -> parts = [].
Proof.
  intros Hall. destruct Hall as [|p rest Hp Hrest]; [reflexivity|].
  simpl. destruct rest as [|q rest].
  - intros ->. contradiction.
  - intros Hj. apply app_empty in Hj. contradiction.
Qed.

Lemma filter_nonempty_nil (l : list string) :
  List.filter nonempty l = [] <-> Forall (fun s => s = "") l.
Proof.
  induction l as [|s l IH]; simpl.
  - split; [constructor | reflexivity].
  - unfold nonempty at 1. destruct (String.eqb_spec s "") as [->|Hne]; simpl.
    + rewrite IH. split; [intros; constructor; auto | inversion 1; auto].
    + split; [discriminate | inversion 1; contradiction].
Qed.

Lemma get_text_empty (sep : string) (n : node) :
  get_text sep n = "" <-> Forall (fun s => strip s = "") (strings n).
Proof.
  unfold get_text.
  assert (Hf : Forall (fun s => strip s = "") (strings n)
               <-> Forall (fun s => s = "") (strip <$> strings n)).
  { rewrite Forall_fmap. reflexivity. }
  rewrite Hf, <- filter_nonempty_nil. split.
  - apply join_nonempty_parts. apply Forall_forall. intros s Hin.
    apply list_elem_of_In, filter_In in Hin as [_ Hs]. unfold nonempty in Hs.
    apply negb_true_iff, String.eqb_neq in Hs. exact Hs.
  - intros ->. reflexivity.
Qed.

(** C7, as the code has it: for a feed item with no encoded body and with a
    description, the content is computed from the text of the description
    and from nothing else.  That text is read as HTML, its scripts and
    styles are dropped, each of its strings is stripped, the ones that are
    not empty are joined with single spaces, and newlines become spaces.  The
    content is the empty string exactly when, scripts and styles apart, the
    description has no string with a character that is not white space. *)
Theorem content_falls_back_to_description `{!Parsers}
    (url : string) (item tag : node) :
  find "content:encoded" item = None ->
  find "description" item = Some tag ->
  let a := article_of_item url item in
  let soup := decompose ["script"; "style"] (html_parser (get_text "" tag)) in
  description a = get_text "" tag
  /\ content a = replace_char "010" " " (get_text " " soup)
  /\ (content a = "" <-> Forall (fun s => strip s = "") (strings soup)).
Proof.
  intros Henc Hdesc. cbn zeta.
  unfold article_of_item, text_or_na. rewrite Henc, Hdesc. cbn [description content].
  change (negb ("N/A" =? "N/A")%string) with false. cbn iota. unfold clean_html.
  split; [reflexivity|]. split; [reflexivity|].
  rewrite replace_char_empty. apply get_text_empty.
Qed.

Lemma content_falls_back_to_description_witness :
  content (@article_of_item Markup.parsers "https://vsd.fr/tele/feed/"
             (item_with_description "<p>The star is <b>back</b>.</p><script>track()</script>"))
  = "The star is back .".
Proof.
  destruct (@content_falls_back_to_description Markup.parsers "https://vsd.fr/tele/feed/"
              (item_with_description "<p>The star is <b>back</b>.</p><script>track()</script>")
              (Elem "description" [Text "<p>The star is <b>back</b>.</p><script>track()</script>"])
              eq_refl eq_refl) as (_ & Hc & _).
  rewrite Hc. vm_compute. reflexivity.
Defined.

(** C7, against the specification: three feed items with no encoded body and a
    description that is present and not empty.  A description that holds
    nothing but a script, or nothing but a picture, gives the empty string
    as content; a description that reads [N/A] gives the content [N/A]. *)
Lemma content_fallback_counterexample :
  let url := "https://vsd.fr/tele/feed/" in
  let article_of html := @article_of_item Markup.parsers url (item_with_description html) in
  (find "content:encoded" (item_with_description "<script>track()</script>") = None
   /\ description (article_of "<script>track()</script>") = "<script>track()</script>"
   /\ content (article_of "<script>track()</script>") = "")
  /\ (description (article_of "<p><img src='star.jpg'/></p>") = "<p><img src='star.jpg'/></p>"
      /\ content (article_of "<p><img src='star.jpg'/></p>") = "")
  /\ (description (article_of "N/A") = "N/A" /\ content (article_of "N/A") = "N/A").
Proof. vm_compute. repeat split; reflexivity. Qed.

(** * More properties *)

(** ** Deleting documents *)

Lemma effect_bind_run {W A B} (op : W -> W * outcome A) (f : A -> M W B) (w : W) :
  bind (effect op) f w =
  match (op w).2 with
  | Ok a => f a (op w).1
  | Raise e => ((op w).1, [], Raise e)
  end.
Proof.
  unfold bind, effect.
  destruct (op w) as [w1 [a|e]]; simpl; [|reflexivity].
  destruct (f a w1) as [[w2 t2] r2]; reflexivity.
Qed.

Lemma delete_document_run {W : Type} `{!Documents W} (self_collection_name path : string)
    (collection_name : option string) (w : W) :
  delete_document self_collection_name path collection_name w =
  let c := default self_collection_name collection_name in
  match (documents_delete c path w).2 with
  | Ok _ =>
      ((documents_delete c path w).1,
       [EvLog INFO ("Successfully deleted document: " +:+ path)], Ok true)
  | Raise e => ((documents_delete c path w).1, [], Raise e)
  end.
Proof.
  unfold delete_document. rewrite effect_bind_run. cbn zeta.
  destruct (documents_delete _ path w) as [w1 [[]|e]]; reflexivity.
Qed.

Section BatchDelete.
Context {W : Type} `{!Documents W}.
Variable self_collection_name : string.

Lemma delete_each_run (c : string) (paths : list string) (results : gmap string bool) (w : W) :
  let run := delete_each self_collection_name c paths results w in
  let line p := EvLog INFO ("Successfully deleted document: " +:+ p) in
  match value_of run with
  | Ok results' =>
      after_deletions c paths w = Some (world_of run)
      /\ trace_of run = line <$> paths
      /\ forall p, results' !! p = if bool_decide (p ∈ paths) then Some true else results !! p
  | Raise e =>
      exists n p w',
        paths !! n = Some p
        /\ after_deletions c (take n paths) w = Some w'
        /\ documents_delete c p w' = (world_of run, Raise e)
        /\ trace_of run = line <$> take n paths
  end.
Proof.
  revert results w; induction paths as [|path rest IH]; intros results w; cbn zeta.
  - cbn [delete_each ret value_of world_of trace_of fst snd fmap list_fmap after_deletions].
    split; [reflexivity|]. split; [reflexivity|].
    intros p. rewrite bool_decide_eq_false_2; [reflexivity|].
    apply not_elem_of_nil.
  - simpl delete_each. rewrite bind_run, delete_document_run. cbn zeta. simpl default.
    cbn [after_deletions].
    destruct (documents_delete c path w) as [w1 [[]|e]] eqn:Hdel;
      cbn [value_of world_of trace_of fst snd].
    + specialize (IH (<[path := true]> results) w1). cbn zeta in IH.
      destruct (value_of (delete_each self_collection_name c rest _ w1)) as [results'|e];
        cbn [value_of world_of trace_of fst snd app].
      * destruct IH as (Hw & Ht & Hr). split; [exact Hw|].
        split; [rewrite Ht; reflexivity|].
        intros p. rewrite Hr.
        destruct (decide (p = path)) as [->|Hne].
        -- rewrite (bool_decide_eq_true_2 (path ∈ path :: rest)) by apply list_elem_of_here.
           rewrite lookup_insert_eq. destruct (bool_decide _); reflexivity.
        -- rewrite lookup_insert_ne by congruence.
           destruct (bool_decide (p ∈ rest)) eqn:Hin.
           ++ apply bool_decide_eq_true_1 in Hin.
              rewrite bool_decide_eq_true_2; [reflexivity|].
              apply list_elem_of_further. exact Hin.
           ++ apply bool_decide_eq_false_1 in Hin.
              rewrite bool_decide_eq_false_2; [reflexivity|].
              intros Hp. apply elem_of_cons in Hp as [?|?]; contradiction.
      * destruct IH as (n & p & w' & Hn & Hw & He & Ht).
        exists (S n), p, w'. split; [exact Hn|].
        split; [cbn [take after_deletions]; rewrite Hdel; exact Hw|].
        split; [exact He | rewrite Ht; reflexivity].
    + exists 0%nat, path, w. split; [reflexivity|]. split; [reflexivity|].
      split; [exact Hdel | reflexivity].
Qed.
End BatchDelete.

(** A batch deletion is all or nothing for its caller.  When
    [batch_delete_documents] returns, the service was asked to delete every
    path of the batch, one after the other in the order of the list, each in
    the world the deletion before it left, and the world of the caller is
    the one the last deletion left; every path of the batch maps to [True]
    in the dictionary, no other key is there, and the log holds one line of
    success per path, in order (a path listed twice is deleted twice).  When
    a deletion fails, the batch raises the error of that deletion: the paths
    before it were deleted in turn and logged, the failing deletion was
    asked in the world they left, the world of the caller is the one the
    failing deletion left, so that no path after it is tried, and no
    dictionary is returned; [False] is never an entry. *)
Theorem batch_delete_is_all_or_nothing {W : Type} `{!Documents W}
    (self_collection_name : string) (paths : list string)
    (collection_name : option string) (w : W) :
  let c := default self_collection_name collection_name in
  let run := batch_delete_documents self_collection_name paths collection_name w in
  let line p := EvLog INFO ("Successfully deleted document: " +:+ p) in
  match value_of run with
  | Ok results =>
      after_deletions c paths w = Some (world_of run)
      /\ trace_of run = line <$> paths
      /\ forall p, results !! p = if bool_decide (p ∈ paths) then Some true else None
  | Raise e =>
      exists n p w',
        paths !! n = Some p
        /\ after_deletions c (take n paths) w = Some w'
        /\ documents_delete c p w' = (world_of run, Raise e)
        /\ trace_of run = line <$> take n paths
  end.
Proof.
  cbn zeta. unfold batch_delete_documents.
  pose proof (delete_each_run self_collection_name
                (default self_collection_name collection_name) paths ∅ w) as Hrun.
  cbn zeta in Hrun.
  destruct (value_of _) as [results|e]; [|exact Hrun].
  destruct Hrun as (Hw & Ht & Hr). split; [exact Hw|]. split; [exact Ht|].
  intros p. rewrite Hr, lookup_empty. reflexivity.
Qed.

(** ** Hydration *)

Lemma info_requests_app (t1 t2 : list event) :
  info_requests (t1 ++ t2) = info_requests t1 ++ info_requests t2.
Proof. apply omap_app. Qed.

Lemma info_requests_cons (e : event) (t : list event) :
  info_requests (e :: t) =
  match e with
  | EvDocumentsGetInfo c path include_content r =>
      (c, path, include_content, r) :: info_requests t
  | _ => info_requests t
  end.
Proof. destruct e; reflexivity. Qed.

Section Hydration.
Context {W : Type} `{!ZeroEntropy W} `{!Builtins}.
Variable self_collection_name : string.

Lemma hydrate_run (c : string) (candidate : dict) (w : W) :
  hydrate self_collection_name c candidate w =
  match candidate !! "path" with
  | None => (w, [], Raise (KeyError "path"))
  | Some path =>
      let '(w1, r) := documents_get_info c path true w in
      (w1, [EvDocumentsGetInfo c path true r],
       match r with
       | Ok info => document_text candidate info
       | Raise e => Raise e
       end)
  end.
Proof.
  unfold hydrate, get_document_info, getitem, lift, call, bind.
  destruct (candidate !! "path") as [path|]; [|reflexivity]. simpl default.
  destruct (documents_get_info c path true w) as [w1 [info|e]]; reflexivity.
Qed.

(** The requests of a hydration follow the candidates one by one; the texts
    it returns come from the answers; and an answer that is an error ends
    it, with that error. *)
Lemma hydrate_all_requests (c : string) (found : list dict) (w : W) :
  let run := hydrate_all self_collection_name c found w in
  let requests := info_requests (trace_of run) in
  reranks (trace_of run) = []
  /\ (length requests <= length found)%nat
  /\ Forall2 (fun candidate request =>
                exists path, candidate !! "path" = Some path
                             /\ request.1 = (c, path, true))
       (take (length requests) found) requests
  /\ (forall request e, In request requests -> request.2 = Raise e ->
      value_of run = Raise e)
  /\ (forall texts, value_of run = Ok texts ->
      Forall3 (hydrated c) found requests texts).
Proof.
  revert w; induction found as [|candidate rest IH]; intros w; cbn zeta.
  - cbn. split; [reflexivity|]. split; [lia|]. split; [constructor|].
    split; [intros ? ? []|]. intros texts [= <-]. constructor.
  - simpl hydrate_all. rewrite bind_run, hydrate_run.
    destruct (candidate !! "path") as [path|] eqn:Hpath.
    2:{ cbn. split; [reflexivity|]. split; [lia|]. split; [constructor|].
        split; [intros ? ? []|]. discriminate. }
    destruct (documents_get_info c path true w) as [w1 [info|e]].
    2:{ cbn. split; [reflexivity|]. split; [lia|].
        split; [constructor; [eauto | constructor]|].
        split; [|discriminate].
        intros request e' [<-|[]]. cbn. intros [= <-]. reflexivity. }
    destruct (document_text candidate info) as [text|e] eqn:Htext.
    2:{ cbn. split; [reflexivity|]. split; [lia|].
        split; [constructor; [eauto | constructor]|].
        split; [|discriminate].
        intros request e' [<-|[]]. cbn. discriminate. }
    cbn [value_of world_of trace_of fst snd]. rewrite bind_run.
    destruct (IH w1) as (Hr & Hlen & Hreq & Hfatal & Htexts).
    assert (Hone : forall t, info_requests ([EvDocumentsGetInfo c path true (Ok info)] ++ t)
                             = (c, path, true, Ok info) :: info_requests t)
      by reflexivity.
    assert (Hnone : forall t, reranks ([EvDocumentsGetInfo c path true (Ok info)] ++ t)
                              = reranks t) by reflexivity.
    destruct (value_of (hydrate_all self_collection_name c rest w1)) as [texts|e];
      cbn [value_of world_of trace_of fst snd]; rewrite ?app_nil_r, Hone, Hnone.
    + split; [exact Hr|]. split; [simpl; lia|].
      split; [simpl; constructor; [eauto | exact Hreq]|].
      split.
      * intros request e' [<-|Hin]; [discriminate|]. intros He.
        specialize (Hfatal request e' Hin He). discriminate.
      * intros ? [= <-]. constructor; [|apply Htexts; reflexivity].
        exists path, info. auto.
    + split; [exact Hr|]. split; [simpl; lia|].
      split; [simpl; constructor; [eauto | exact Hreq]|].
      split; [|discriminate].
      intros request e' [<-|Hin]; [discriminate|]. apply Hfatal. exact Hin.
Qed.
End Hydration.

(** Hydration is per candidate and fatal on failure.  In a call of
    [search_and_rerank] whose retrieval returned [found]: the requests for
    document information follow the candidates in order, each for the
    candidate's [path], in the collection of the call, with the content
    asked for; a request that the service answers with an error makes the
    whole call raise that error without the reranker being invoked; and when
    the reranker is invoked, every candidate was asked about and the texts
    submitted are, candidate by candidate, what [document_text] makes of the
    service's answer: no candidate is dropped. *)
Theorem hydration_is_per_candidate_and_fatal {W : Type} `{!ZeroEntropy W} `{!Builtins}
    (self_collection_name query : string) (k rerank_top_n : Z)
    (collection_name : option string) (w w1 : W) (found : list dict) :
  let c := default self_collection_name collection_name in
  let run := search_and_rerank self_collection_name query k rerank_top_n collection_name w in
  let requests := info_requests (trace_of run) in
  queries_top_documents c query k true "low" w = (w1, Ok found) ->
  (length requests <= length found)%nat
  /\ Forall2 (fun candidate request =>
                exists path, candidate !! "path" = Some path
                             /\ request.1 = (c, path, true))
       (take (length requests) found) requests
  /\ (forall request e, In request requests -> request.2 = Raise e ->
      value_of run = Raise e /\ reranks (trace_of run) = [])
  /\ (forall documents top_n r,
        In (documents, top_n, r) (reranks (trace_of run)) ->
        Forall3 (hydrated c) found requests documents).
Proof.
  cbn zeta. intros Htop. rewrite search_and_rerank_run. cbn zeta. rewrite Htop.
  destruct found as [|candidate rest].
  { cbn. split; [lia|]. split; [constructor|]. split; [intros ? ? []|]. intros ? ? ? []. }
  pose proof (hydrate_all_requests self_collection_name
                (default self_collection_name collection_name) (candidate :: rest) w1)
    as (Hr & Hlen & Hreq & Hfatal & Htexts).
  destruct (value_of (hydrate_all _ _ _ w1)) as [texts|e].
  - destruct (models_rerank _ _ _ _ _) as [w3 rr].
    cbn [value_of trace_of fst snd].
    rewrite info_requests_cons, info_requests_app, reranks_cons, reranks_app, Hr.
    cbn [info_requests reranks omap app]. rewrite app_nil_r.
    split; [exact Hlen|]. split; [exact Hreq|]. split.
    + intros request e Hin He. specialize (Hfatal request e Hin He). discriminate.
    + intros documents top_n r [[= <- <- <-]|[]]. apply Htexts. reflexivity.
  - cbn [value_of trace_of fst snd].
    rewrite info_requests_cons, reranks_cons, Hr.
    split; [exact Hlen|]. split; [exact Hreq|]. split.
    + intros request e' Hin He. split; [|reflexivity].
      specialize (Hfatal request e' Hin He). injection Hfatal as ->. reflexivity.
    + intros ? ? ? [].
Qed.

Lemma hydration_is_per_candidate_and_fatal_witness :
  let run := @search_and_rerank _ Stub.client (CPython.process 0)
               "articles" "royal family" 6 2 None Example.world in
  (length (info_requests (trace_of run)) <= 3)%nat
  /\ info_requests (trace_of run)
     = [ ("articles", VStr "article_0_1", true, Ok None);
         ("articles", VStr "article_1_2", true, Ok None);
         ("articles", VStr "article_2_3", true, Ok None) ].
Proof.
  cbn zeta.
  destruct (@hydration_is_per_candidate_and_fatal _ Stub.client (CPython.process 0)
              "articles" "royal family" 6 2 None Example.world Example.world
              Example.found eq_refl) as (Hlen & _).
  split; [exact Hlen|]. vm_compute. reflexivity.
Defined.

(** ** Indices out of range *)

(** The reranker's indices are checked by the list itself.  If the answer of
    the reranker holds an index outside [-len(found), len(found)), the call
    of [search_and_rerank] returns no list at all, not even the items before
    the bad one: it raises. *)
Theorem index_out_of_range_fails_the_call {W : Type} `{!ZeroEntropy W} `{!Builtins}
    (self_collection_name query : string) (k rerank_top_n : Z)
    (collection_name : option string) (w w1 : W) (found : list dict)
    (documents : list pyval) (top_n : Z) (rerank_results : list dict)
    (rerank_result : dict) (z : Z) :
  let c := default self_collection_name collection_name in
  let run := search_and_rerank self_collection_name query k rerank_top_n collection_name w in
  queries_top_documents c query k true "low" w = (w1, Ok found) ->
  In (documents, top_n, Ok rerank_results) (reranks (trace_of run)) ->
  In rerank_result rerank_results ->
  rerank_result !! "index" = Some (VInt z) ->
  z < - Z.of_nat (length found) \/ Z.of_nat (length found) <= z ->
  exists e, value_of run = Raise e.
Proof.
  cbn zeta. intros Htop. rewrite search_and_rerank_run. cbn zeta. rewrite Htop.
  destruct found as [|candidate rest]; [intros []|].
  pose proof (hydrate_all_run self_collection_name
                (default self_collection_name collection_name) (candidate :: rest) w1)
    as [Hnone _].
  destruct (value_of (hydrate_all _ _ _ w1)) as [texts|e].
  2:{ cbn [value_of trace_of fst snd]. rewrite reranks_cons, Hnone. intros []. }
  destruct (models_rerank _ _ _ _ _) as [w3 rr].
  cbn [value_of trace_of fst snd].
  rewrite reranks_cons, reranks_app, Hnone. cbn [reranks omap app].
  intros [[= _ _ ->]|[]] Hin Hindex Hrange.
  destruct (merge_all (candidate :: rest) rerank_results) as [out|e] eqn:Hmerge; [|eauto].
  exfalso. apply merge_all_merged in Hmerge.
  apply list_elem_of_In, list_elem_of_lookup in Hin as [n Hn].
  destruct (Forall2_lookup_l _ _ _ _ _ Hmerge Hn)
    as (item & _ & i & z' & original & ? & ? & Hi & Hz & Horig & _).
  rewrite Hindex in Hi. injection Hi as <-. injection Hz as <-.
  apply py_index_spec in Horig. lia.
Qed.

(** Three candidates, and a reranker that answers with the index 3. *)
Lemma index_out_of_range_fails_the_call_witness :
  value_of (@search_and_rerank _ Stub.client (CPython.process 0)
              "articles" "royal family" 6 2 None
              (Stub.with_search Example.found
                 [ {["index" := VInt 3; "relevance_score" := VFloat 0.5]} ]))
  = Raise IndexError.
Proof.
  destruct (@index_out_of_range_fails_the_call _ Stub.client (CPython.process 0)
              "articles" "royal family" 6 2 None
              (Stub.with_search Example.found
                 [ {["index" := VInt 3; "relevance_score" := VFloat 0.5]} ])
              (Stub.with_search Example.found
                 [ {["index" := VInt 3; "relevance_score" := VFloat 0.5]} ])
              Example.found
              [VStr " "; VStr " "; VStr " "] 2
              [ {["index" := VInt 3; "relevance_score" := VFloat 0.5]} ]
              {["index" := VInt 3; "relevance_score" := VFloat 0.5]} 3
              eq_refl) as [e He].
  - vm_compute. left. reflexivity.
  - left. reflexivity.
  - vm_compute. reflexivity.
  - right. vm_compute. discriminate.
  - rewrite He. vm_compute in He. symmetry. exact He.
Defined.

(** ** The two routers, and invalid actions *)

(** The command line and the dashboard route alike.  Whatever
    [search_articles] returns for a request, without the status shown,
    [get_search_results] returns for the same request in the same world,
    paired with the mode: the two differ by the printing only. *)
Theorem routers_agree {W : Type} `{!ZeroEntropy W} `{!Searcher W} `{!Builtins}
    (collection_name query search_type : string) (k : Z)
    (filter_creator filter_category : option string) (reranker : string)
    (w : W) (results : list dict) :
  value_of (search_articles collection_name query search_type k
              filter_creator filter_category reranker false w) = Ok results ->
  value_of (get_search_results query search_type k collection_name
              filter_creator filter_category reranker w) = Ok (results, search_type).
Proof.
  unfold search_articles, get_search_results, dispatch.
  destruct (String.eqb search_type "documents").
  { unfold bind, call_searcher, ret, value_of.
    destruct (search_documents _ _ _ _ w) as [w1 [rs|e]]; simpl; [|discriminate].
    destruct (display_document_results rs query w1) as [w2 [[]|e]]; simpl; [|discriminate].
    intros [= <-]. reflexivity. }
  destruct (String.eqb search_type "snippets").
  { unfold bind, call_searcher, ret, value_of.
    destruct (search_snippets _ _ _ _ w) as [w1 [rs|e]]; simpl; [|discriminate].
    destruct (display_snippet_results rs query w1) as [w2 [[]|e]]; simpl; [|discriminate].
    intros [= <-]. reflexivity. }
  destruct (String.eqb search_type "pages").
  { unfold bind, call_searcher, ret, value_of.
    destruct (search_pages _ _ _ w) as [w1 [rs|e]]; simpl; [|discriminate].
    destruct (display_page_results rs query w1) as [w2 [[]|e]]; simpl; [|discriminate].
    intros [= <-]. reflexivity. }
  destruct (String.eqb search_type "advanced").
  { unfold bind, call_searcher, ret, value_of.
    destruct (search_and_rerank collection_name query (k * 2) k None w) as [[w1 t1] [rs|e]];
      simpl; [|discriminate].
    destruct (display_advanced_results rs query w1) as [w2 [[]|e]]; simpl; [|discriminate].
    intros [= <-]. reflexivity. }
  unfold bind, ret, raise, value_of. simpl. discriminate.
Qed.

Lemma routers_agree_witness :
  value_of (@get_search_results _ Stub.client Stub.searcher (CPython.process 0)
              "royal family" "advanced" 1 "articles" None None "zerank-1-small"
              Example.world)
  = Ok ([ {["path" := VStr "article_2_3"; "score" := VFloat 0.125;
            "rerank_score" := VFloat 0.75; "original_score" := VFloat 0.125]} ],
        "advanced").
Proof.
  apply (@routers_agree _ Stub.client Stub.searcher (CPython.process 0)).
  vm_compute. reflexivity.
Defined.

(** An action that [manage_collections] cannot carry out is answered in
    the log only.  For an action that is neither [list] nor [status], and
    that is not [delete] with a collection name that is a non-empty string,
    the call touches nothing: it makes no call, logs one line at level INFO
    and returns [None].  A [delete] without a name is such an action. *)
Theorem invalid_action_is_logged_only {W : Type} `{!ZeroEntropy W} `{!Searcher W}
    `{!Builtins} (action : string) (name : option string) (w : W) :
  action <> "list" ->
  action <> "status" ->
  action <> "delete" \/ provided name = false ->
  manage_collections action name w
  = (w, [EvLog INFO "Invalid action or missing collection name"], Ok VNone).
Proof.
  intros Hlist Hstatus Hdelete. unfold manage_collections.
  apply String.eqb_neq in Hlist, Hstatus. rewrite Hlist, Hstatus.
  assert (Hd : String.eqb action "delete" && provided name = false).
  { destruct Hdelete as [Hd | ->]; [|apply andb_false_r].
    apply String.eqb_neq in Hd. rewrite Hd. reflexivity. }
  rewrite Hd. reflexivity.
Qed.

Lemma invalid_action_is_logged_only_witness :
  @manage_collections _ Stub.client Stub.searcher (CPython.process 0)
    "delete" None Stub.empty
  = (Stub.empty, [EvLog INFO "Invalid action or missing collection name"], Ok VNone)
  /\ @manage_collections _ Stub.client Stub.searcher (CPython.process 0)
       "delete" (Some "") Stub.empty
     = (Stub.empty, [EvLog INFO "Invalid action or missing collection name"], Ok VNone).
Proof.
  split; apply invalid_action_is_logged_only;
    first [discriminate | right; reflexivity].
Defined.

(** ** The three retrievals *)

Lemma for_each_ok {A B} (f : A -> outcome B) (l : list A) (ys : list B) :
  for_each f l = Ok ys <-> Forall2 (fun x y => f x = Ok y) l ys.
Proof.
  revert ys; induction l as [|x rest IH]; intros ys; simpl.
  - split; [intros [= <-]; constructor | inversion 1; reflexivity].
  - unfold rbind at 1. destruct (f x) as [y|e] eqn:Hx.
    + unfold rbind at 1. destruct (for_each f rest) as [ys'|e] eqn:Hrest.
      * split.
        -- intros [= <-]. constructor; [exact Hx | apply IH; reflexivity].
        -- inversion 1 as [|? y' ? ys'' Hy Hall]; subst.
           rewrite Hx in Hy. injection Hy as <-.
           apply IH in Hall. injection Hall as <-. reflexivity.
      * split; [discriminate|].
        inversion 1 as [|? y' ? ys'' Hy Hall]; subst. apply IH in Hall. discriminate.
    + split; [discriminate|]. inversion 1 as [|? y' ? ys'' Hy Hall]; subst.
      rewrite Hx in Hy. discriminate.
Qed.

Lemma for_each_raise {A B} (f : A -> outcome B) (l : list A) (e : exn) :
  for_each f l = Raise e -> exists x, In x l /\ f x = Raise e.
Proof.
  induction l as [|x rest IH]; simpl; [discriminate|].
  unfold rbind at 1. destruct (f x) as [y|e'] eqn:Hx.
  - unfold rbind at 1. destruct (for_each f rest) as [ys'|e'']; [discriminate|].
    intros [= <-]. destruct (IH eq_refl) as (x' & Hin & Hx'). eauto.
  - intros [= <-]. eauto.
Qed.

Lemma document_dict_converted (result : dict) :
  match ArticleSearcher.document_dict result with
  | Ok d => scored result
            /\ converted [("file_url", VNone); ("metadata", VDict ∅)] result d
  | Raise e => e = AttributeError /\ ~ scored result
  end.
Proof.
  unfold ArticleSearcher.document_dict, getattr, rbind, scored, converted.
  destruct (result !! "path") as [path|] eqn:Hp.
  2:{ split; [reflexivity|]. intros [[? [=]] _]. }
  destruct (result !! "score") as [score|] eqn:Hs.
  2:{ split; [reflexivity|]. intros [_ [? [=]]]. }
  split; [split; eauto|].
  split; [rewrite dom_list_to_map_L; reflexivity|].
  repeat split; repeat constructor.
Qed.

Lemma snippet_dict_converted (result : dict) :
  match ArticleSearcher.snippet_dict result with
  | Ok d => scored result
            /\ converted [("start_index", VInt 0); ("end_index", VInt 0);
                          ("page_span", VList []); ("content", VStr "");
                          ("metadata", VDict ∅)] result d
  | Raise e => e = AttributeError /\ ~ scored result
  end.
Proof.
  unfold ArticleSearcher.snippet_dict, getattr, rbind, scored, converted.
  destruct (result !! "path") as [path|] eqn:Hp.
  2:{ split; [reflexivity|]. intros [[? [=]] _]. }
  destruct (result !! "score") as [score|] eqn:Hs.
  2:{ split; [reflexivity|]. intros [_ [? [=]]]. }
  split; [split; eauto|].
  split; [rewrite dom_list_to_map_L; reflexivity|].
  repeat split; repeat constructor.
Qed.

Lemma page_dict_converted (result : dict) :
  match ArticleSearcher.page_dict result with
  | Ok d => scored result
            /\ converted [("page_index", VInt 0); ("content", VStr "");
                          ("metadata", VDict ∅)] result d
  | Raise e => e = AttributeError /\ ~ scored result
  end.
Proof.
  unfold ArticleSearcher.page_dict, getattr, rbind, scored, converted.
  destruct (result !! "path") as [path|] eqn:Hp.
  2:{ split; [reflexivity|]. intros [[? [=]] _]. }
  destruct (result !! "score") as [score|] eqn:Hs.
  2:{ split; [reflexivity|]. intros [_ [? [=]]]. }
  split; [split; eauto|].
  split; [rewrite dom_list_to_map_L; reflexivity|].
  repeat split; repeat constructor.
Qed.

(** What a conversion gives, from what it does to one object. *)
Lemma for_each_converted (defaults : list (string * pyval))
    (f : dict -> outcome dict) (response : list dict) :
  (forall result,
     match f result with
     | Ok d => scored result /\ converted defaults result d
     | Raise e => e = AttributeError /\ ~ scored result
     end) ->
  match for_each f response with
  | Ok results => Forall scored response /\ Forall2 (converted defaults) response results
  | Raise e => e = AttributeError /\ ~ Forall scored response
  end.
Proof.
  intros Hf. destruct (for_each f response) as [results|e] eqn:Hall.
  - apply for_each_ok in Hall. split.
    + induction Hall as [|x y l k Hxy _ IH]; constructor; [|exact IH].
      specialize (Hf x). rewrite Hxy in Hf. apply Hf.
    + induction Hall as [|x y l k Hxy _ IH]; constructor; [|exact IH].
      specialize (Hf x). rewrite Hxy in Hf. apply Hf.
  - apply for_each_raise in Hall as (x & Hin & Hx).
    specialize (Hf x). rewrite Hx in Hf. destruct Hf as [-> Hno].
    split; [reflexivity|]. intros Hs. apply Hno.
    rewrite List.Forall_forall in Hs. apply Hs. exact Hin.
Qed.

(** A retrieval followed by a conversion: the world is the service's, and
    the result is the conversion of the service's answer. *)
Lemma retrieve_then_convert {W : Type} (op : W -> W * outcome (list dict))
    (f : dict -> outcome dict) (w : W) :
  bind (effect op) (fun results => lift (for_each f results)) w =
  ((op w).1, [],
   match (op w).2 with
   | Ok response => for_each f response
   | Raise e => Raise e
   end).
Proof.
  rewrite effect_bind_run. destruct (op w) as [w1 [response|e]]; reflexivity.
Qed.

(** [search_documents] asks the service once, in latency mode "low",
    and leaves no log line. An error of the service is the call's error.
    Otherwise the call returns one dictionary per result, in the service's
    order, each with exactly the keys path, score, file_url and metadata:
    path and score are the result's, file_url is None and metadata the empty
    dictionary when the result has none. A result without a path or a score
    makes the whole call raise AttributeError, and these are the only
    results that do. *)
Theorem search_documents_converts_each_result {W : Type} `{!Queries W}
    (collection_name query : string) (k : Z)
    (filter_dict : option filter) (include_metadata : bool) (reranker : string) (w : W) :
  let asked := top_documents collection_name query k filter_dict include_metadata
                 reranker "low" w in
  let run := ArticleSearcher.search_documents collection_name query k filter_dict
               include_metadata reranker w in
  world_of run = asked.1
  /\ trace_of run = []
  /\ match asked.2 with
     | Raise e => value_of run = Raise e
     | Ok response =>
         match value_of run with
         | Ok results =>
             Forall scored response
             /\ Forall2 (converted [("file_url", VNone); ("metadata", VDict ∅)])
                  response results
         | Raise e => e = AttributeError /\ ~ Forall scored response
         end
     end.
Proof.
  cbn zeta. unfold ArticleSearcher.search_documents. rewrite retrieve_then_convert.
  cbn [world_of trace_of value_of fst snd].
  split; [reflexivity|]. split; [reflexivity|].
  destruct (top_documents _ _ _ _ _ _ _ w).2 as [response|e]; [|reflexivity].
  apply for_each_converted, document_dict_converted.
Qed.

(** [search_snippets] asks the service once, always with
    include_document_metadata = True, and leaves no log line. An error of
    the service is the call's error. Otherwise the call returns one
    dictionary per result, in the service's order, each with exactly the
    keys path, score, start_index, end_index, page_span, content and
    metadata, the defaults being 0, 0, the empty list, the empty string and
    the empty dictionary. A result without a path or a score makes the whole
    call raise AttributeError, and these are the only results that do. *)
Theorem search_snippets_converts_each_result {W : Type} `{!Queries W}
    (collection_name query : string) (k : Z)
    (filter_dict : option filter) (precise_responses : bool) (reranker : string) (w : W) :
  let asked := top_snippets collection_name query k filter_dict precise_responses
                 true reranker w in
  let run := ArticleSearcher.search_snippets collection_name query k filter_dict
               precise_responses reranker w in
  world_of run = asked.1
  /\ trace_of run = []
  /\ match asked.2 with
     | Raise e => value_of run = Raise e
     | Ok response =>
         match value_of run with
         | Ok results =>
             Forall scored response
             /\ Forall2 (converted [("start_index", VInt 0); ("end_index", VInt 0);
                                    ("page_span", VList []); ("content", VStr "");
                                    ("metadata", VDict ∅)])
                  response results
         | Raise e => e = AttributeError /\ ~ Forall scored response
         end
     end.
Proof.
  cbn zeta. unfold ArticleSearcher.search_snippets. rewrite retrieve_then_convert.
  cbn [world_of trace_of value_of fst snd].
  split; [reflexivity|]. split; [reflexivity|].
  destruct (top_snippets _ _ _ _ _ _ _ w).2 as [response|e]; [|reflexivity].
  apply for_each_converted, snippet_dict_converted.
Qed.

(** [search_pages] asks the service once, in latency mode "low", and
    leaves no log line. An error of the service is the call's error.
    Otherwise the call returns one dictionary per result, in the service's
    order, each with exactly the keys path, score, page_index, content and
    metadata, the defaults being 0, the empty string and the empty
    dictionary. A result without a path or a score makes the whole call
    raise AttributeError, and these are the only results that do. *)
Theorem search_pages_converts_each_result {W : Type} `{!Queries W}
    (collection_name query : string) (k : Z)
    (filter_dict : option filter) (include_content : bool) (w : W) :
  let asked := top_pages collection_name query k filter_dict include_content "low" w in
  let run := ArticleSearcher.search_pages collection_name query k filter_dict
               include_content w in
  world_of run = asked.1
  /\ trace_of run = []
  /\ match asked.2 with
     | Raise e => value_of run = Raise e
     | Ok response =>
         match value_of run with
         | Ok results =>
             Forall scored response
             /\ Forall2 (converted [("page_index", VInt 0); ("content", VStr "");
                                    ("metadata", VDict ∅)])
                  response results
         | Raise e => e = AttributeError /\ ~ Forall scored response
         end
     end.
Proof.
  cbn zeta. unfold ArticleSearcher.search_pages. rewrite retrieve_then_convert.
  cbn [world_of trace_of value_of fst snd].
  split; [reflexivity|]. split; [reflexivity|].
  destruct (top_pages _ _ _ _ _ _ w).2 as [response|e]; [|reflexivity].
  apply for_each_converted, page_dict_converted.
Qed.

(** ** Scraping *)

Lemma lift_bind_run {W A B} (r : outcome A) (f : A -> M W B) (w : W) :
  bind (lift r) f w =
  match r with
  | Ok a => f a w
  | Raise e => (w, [], Raise e)
  end.
Proof.
  unfold bind, lift. destruct r as [a|e]; [|reflexivity].
  destruct (f a w) as [[w2 t2] r2]; reflexivity.
Qed.

Lemma log_bind_run {W B} (lvl : level) (msg : string) (m : M W B) (w : W) :
  bind (log lvl msg) (fun _ => m) w =
  (world_of (m w), EvLog lvl msg :: trace_of (m w), value_of (m w)).
Proof.
  unfold bind, log. destruct (m w) as [[w2 t2] r2]; reflexivity.
Qed.

Lemma initialize_collection_run {W : Type} `{!ZeroEntropy W}
    (collection_name : string) (w : W) :
  let run := initialize_collection collection_name w in
  world_of run = (collections_add collection_name w).1
  /\ write_outcomes (trace_of run) = []
  /\ written_metadata (trace_of run) = []
  /\ match value_of run with
     | Ok _ => True
     | Raise e => (collections_add collection_name w).2 = Raise e
     end.
Proof.
  cbn zeta. unfold initialize_collection, except_conflict, bind, call, log.
  destruct (collections_add collection_name w) as [w1 [[]|e]]; simpl.
  - repeat split.
  - destruct e; repeat split.
Qed.

Section ScrapingFacts.
Context {W : Type} `{!ZeroEntropy W} `{!Builtins} `{!Parsers} `{!Files W}.
Variable collection_name : string.

(** The loop over the feeds makes no call: it leaves the world as it is,
    logs one line per feed fetched, and stops at the first feed that cannot
    be fetched, with the error of that feed. *)
Lemma extract_feeds_run (urls : list string) (articles : list article) (w : W) :
  extract_feeds urls articles w =
  (w, feed_lines urls,
   contents <~ for_each get_rss_feed_content urls ;; Ok (articles ++ concat contents)).
Proof.
  revert articles; induction urls as [|url rest IH]; intros articles.
  - simpl. rewrite app_nil_r. reflexivity.
  - simpl extract_feeds. rewrite lift_bind_run. simpl feed_lines. simpl for_each.
    destruct (get_rss_feed_content url) as [content|e]; [|reflexivity].
    destruct content as [|a content].
    + rewrite log_bind_run, IH. cbn [world_of trace_of value_of fst snd feed_line rbind].
      destruct (for_each get_rss_feed_content rest); reflexivity.
    + rewrite log_bind_run, IH. cbn [world_of trace_of value_of fst snd feed_line rbind].
      destruct (for_each get_rss_feed_content rest) as [contents|e]; [|reflexivity].
      cbn [rbind concat]. rewrite <- app_assoc. reflexivity.
Qed.

Lemma write_outcomes_feed_lines (urls : list string) :
  write_outcomes (feed_lines urls) = [] /\ written_metadata (feed_lines urls) = [].
Proof.
  induction urls as [|url rest [IH1 IH2]]; [split; reflexivity|].
  simpl. destruct (get_rss_feed_content url) as [[|a content]|e];
    [| |split; reflexivity];
    rewrite write_outcomes_cons, written_metadata_cons; split; assumption.
Qed.

Lemma get_rss_feed_content_fetch (url : string) :
  match get_rss_feed_content url with
  | Ok content =>
      exists soup, fetch_feed url = Ok soup
                   /\ content = article_of_item url <$> find_all "item" soup
  | Raise e => fetch_feed url = Raise e
  end.
Proof.
  unfold get_rss_feed_content. destruct (fetch_feed url) as [soup|e]; simpl; eauto.
Qed.

Lemma for_each_feeds (urls : list string) :
  match for_each get_rss_feed_content urls with
  | Ok contents =>
      concat contents = flat_map feed_articles urls
      /\ feed_lines urls = (fun url => feed_line url (feed_articles url)) <$> urls
      /\ Forall (fun url => exists soup, fetch_feed url = Ok soup) urls
  | Raise e => exists url, url ∈ urls /\ fetch_feed url = Raise e
  end.
Proof.
  induction urls as [|url rest IH]; simpl.
  - repeat split. constructor.
  - pose proof (get_rss_feed_content_fetch url) as Hfetch.
    assert (Hfa : feed_articles url
                  = match get_rss_feed_content url with Ok c => c | Raise _ => [] end)
      by reflexivity.
    destruct (get_rss_feed_content url) as [content|e]; cbn [rbind].
    + destruct Hfetch as (soup & Hfetch & _).
      destruct (for_each get_rss_feed_content rest) as [contents|e]; cbn [rbind].
      * destruct IH as (Hc & Hl & Hall). cbn [concat]. rewrite Hc, Hl, Hfa.
        repeat split. constructor; eauto.
      * destruct IH as (url' & Hin & Hu). exists url'. split; [|exact Hu].
        apply list_elem_of_further, Hin.
    + exists url. split; [apply list_elem_of_here | exact Hfetch].
Qed.

(** A scrape, step by step. *)
Lemma scrape_and_index_run (w : W) :
  let init := initialize_collection collection_name w in
  let urls := rss_public_urls ++ rss_vsd_urls in
  scrape_and_index collection_name w =
  match value_of init with
  | Raise e => (world_of init, trace_of init, Raise e)
  | Ok _ =>
      match for_each get_rss_feed_content urls with
      | Raise e => (world_of init, trace_of init ++ feed_lines urls, Raise e)
      | Ok contents =>
          let articles := concat contents in
          let saved := dump_json "articles.json" articles (world_of init) in
          let total :=
            EvLog INFO ("Extracted " +:+ pretty (length articles) +:+ " articles total") in
          match saved.2 with
          | Raise e => (saved.1, trace_of init ++ feed_lines urls, Raise e)
          | Ok _ =>
              match articles with
              | [] =>
                  (saved.1,
                   trace_of init ++ feed_lines urls
                     ++ [total; EvLog WARNING "No articles to index."],
                   Ok tt)
              | _ =>
                  let indexing := index_articles collection_name articles saved.1 in
                  (world_of indexing,
                   trace_of init ++ feed_lines urls ++ total :: trace_of indexing
                     ++ match value_of indexing with
                        | Ok _ =>
                            [EvLog INFO
                               "Successfully scraped and indexed articles in ZeroEntropy."]
                        | Raise _ => []
                        end,
                   value_of indexing)
              end
          end
      end
  end.
Proof.
  cbn zeta. unfold scrape_and_index. rewrite bind_run.
  destruct (value_of (initialize_collection collection_name w)) as [[]|e]; [|reflexivity].
  rewrite bind_run, extract_feeds_run. cbn [value_of world_of trace_of fst snd].
  destruct (for_each get_rss_feed_content _) as [contents|e]; cbn [rbind]; [|reflexivity].
  cbn [app]. rewrite effect_bind_run.
  destruct (dump_json "articles.json" (concat contents) _) as [w2 [[]|e]];
    cbn [fst snd world_of trace_of value_of]; [|rewrite app_nil_r; reflexivity].
  rewrite log_bind_run. cbn [fst snd world_of trace_of value_of app].
  destruct (concat contents) as [|a articles].
  - reflexivity.
  - rewrite bind_run.
    destruct (value_of (index_articles collection_name (a :: articles) w2)) as [[]|e];
      cbn [fst snd world_of trace_of value_of log]; rewrite ?app_nil_r; reflexivity.
Qed.
End ScrapingFacts.

(** A scrape stops at a feed that cannot be fetched.  When one of the ten
    feeds answers with an error (a failed request, an HTTP error status),
    [scrape_and_index] raises and no document is written, whatever the other
    feeds hold; and when the collection was set up without an error, the
    error raised is the one of a feed, and the world is as setting up the
    collection left it.  The warning [Failed to extract content from ...] is
    not what such a feed gets: it is what a feed without items gets. *)
Theorem fetch_error_aborts_the_scrape {W : Type} `{!ZeroEntropy W} `{!Builtins}
    `{!Parsers} `{!Files W} (collection_name url : string) (e : exn) (w : W) :
  url ∈ rss_public_urls ++ rss_vsd_urls ->
  fetch_feed url = Raise e ->
  let init := initialize_collection collection_name w in
  let run := scrape_and_index collection_name w in
  (exists e', value_of run = Raise e')
  /\ write_outcomes (trace_of run) = []
  /\ (forall unit_, value_of init = Ok unit_ ->
      world_of run = world_of init
      /\ exists url' e',
           url' ∈ rss_public_urls ++ rss_vsd_urls
           /\ fetch_feed url' = Raise e'
           /\ value_of run = Raise e').
Proof.
  intros Hin Hfail. cbn zeta. rewrite scrape_and_index_run. cbn zeta.
  pose proof (initialize_collection_run collection_name w) as (_ & Hinit & _).
  cbn zeta in Hinit.
  destruct (value_of (initialize_collection collection_name w)) as [[]|e0];
    cbn [value_of world_of trace_of fst snd].
  2:{ split; [eauto|]. split; [exact Hinit|]. discriminate. }
  pose proof (for_each_feeds (rss_public_urls ++ rss_vsd_urls)) as Hfeeds.
  destruct (for_each get_rss_feed_content _) as [contents|e1];
    cbn [value_of world_of trace_of fst snd].
  - exfalso. destruct Hfeeds as (_ & _ & Hall).
    rewrite Forall_forall in Hall. destruct (Hall url Hin) as [soup Hsoup].
    rewrite Hfail in Hsoup. discriminate.
  - split; [eauto|]. split.
    + rewrite write_outcomes_app, Hinit.
      apply (write_outcomes_feed_lines (rss_public_urls ++ rss_vsd_urls)).
    + intros _ _. split; [reflexivity|].
      destruct Hfeeds as (url' & Hin' & Hfail'). eauto.
Qed.

Lemma fetch_error_aborts_the_scrape_witness :
  let run := @scrape_and_index Stub.world Stub.client (CPython.process 0)
               Sample.parsers_with_error Sample.files "my_articles" Stub.empty in
  (exists e', value_of run = Raise e') /\ write_outcomes (trace_of run) = [].
Proof.
  cbn zeta.
  destruct (@fetch_error_aborts_the_scrape Stub.world Stub.client (CPython.process 0)
              Sample.parsers_with_error Sample.files "my_articles"
              "https://www.public.fr/mode/feed" (APIError "HTTPError")
              Stub.empty) as (Hraise & Hnone & _).
  - vm_compute. repeat first [apply list_elem_of_here | apply list_elem_of_further].
  - reflexivity.
  - split; [exact Hraise | exact Hnone].
Defined.

Lemma source_url_of_feed_articles `{!Parsers} (urls : list string) :
  Forall (fun a => source_url a ∈ urls) (flat_map feed_articles urls).
Proof.
  apply List.Forall_forall. intros a Hin.
  apply in_flat_map in Hin as (url & Hurl & Ha).
  unfold feed_articles in Ha. pose proof (get_rss_feed_content_fetch url) as Hfetch.
  destruct (get_rss_feed_content url) as [content|e]; [|destruct Ha].
  destruct Hfetch as (soup & _ & ->).
  apply list_elem_of_In, list_elem_of_fmap in Ha as (item & -> & _).
  apply list_elem_of_In. exact Hurl.
Qed.

Lemma Forall_take {A} (P : A -> Prop) (n : nat) (l : list A) :
  Forall P l -> Forall P (take n l).
Proof.
  intros Hall. revert n. induction Hall as [|x l Hx _ IH]; intros [|n]; simpl;
    constructor; auto.
Qed.

(** What a scrape writes.  The records written by [scrape_and_index] are
    those of the articles of the ten feeds, taken feed by feed in the order
    of the two lists (the five of Public, then the five of VSD) and item by
    item inside a feed, up to the write the run reached; each record carries
    as [source_url] the address of the feed its article came from, one of the
    ten; and a scrape that returns fetched every feed and wrote once per
    article. *)
Theorem scrape_writes_the_feeds_in_order {W : Type} `{!ZeroEntropy W} `{!Builtins}
    `{!Parsers} `{!Files W} (collection_name : string) (w : W) :
  let urls := rss_public_urls ++ rss_vsd_urls in
  let run := scrape_and_index collection_name w in
  let articles := flat_map feed_articles urls in
  let written := written_metadata (trace_of run) in
  written = metadata_of <$> take (length (write_outcomes (trace_of run))) articles
  /\ Forall (fun md => exists url, url ∈ urls /\ md !! "source_url" = Some url) written
  /\ (value_of run = Ok tt ->
      Forall (fun url => exists soup, fetch_feed url = Ok soup) urls
      /\ length (write_outcomes (trace_of run)) = length articles).
Proof.
  cbn zeta.
  assert (Hwritten :
    written_metadata (trace_of (scrape_and_index collection_name w))
    = metadata_of <$> take (length (write_outcomes
                                      (trace_of (scrape_and_index collection_name w))))
                        (flat_map feed_articles (rss_public_urls ++ rss_vsd_urls))
    /\ (value_of (scrape_and_index collection_name w) = Ok tt ->
        Forall (fun url => exists soup, fetch_feed url = Ok soup)
          (rss_public_urls ++ rss_vsd_urls)
        /\ length (write_outcomes (trace_of (scrape_and_index collection_name w)))
           = length (flat_map feed_articles (rss_public_urls ++ rss_vsd_urls)))).
  { rewrite scrape_and_index_run. cbn zeta.
    pose proof (initialize_collection_run collection_name w) as (_ & Hi1 & Hi2 & _).
    cbn zeta in Hi1, Hi2.
    pose proof (write_outcomes_feed_lines (rss_public_urls ++ rss_vsd_urls)) as [Hf1 Hf2].
    destruct (value_of (initialize_collection collection_name w)) as [[]|e0];
      cbn [value_of world_of trace_of fst snd].
    2:{ rewrite Hi1, Hi2. split; [reflexivity | discriminate]. }
    pose proof (for_each_feeds (rss_public_urls ++ rss_vsd_urls)) as Hfeeds.
    destruct (for_each get_rss_feed_content _) as [contents|e1];
      cbn [value_of world_of trace_of fst snd].
    2:{ rewrite write_outcomes_app, written_metadata_app, Hi1, Hi2, Hf1, Hf2.
        split; [reflexivity | discriminate]. }
    destruct Hfeeds as (Hc & _ & Hall). rewrite Hc.
    remember (flat_map feed_articles (rss_public_urls ++ rss_vsd_urls)) as every eqn:Hevery.
    destruct (dump_json "articles.json" every _) as [w2 [[]|e2]];
      cbn [value_of world_of trace_of fst snd].
    2:{ rewrite write_outcomes_app, written_metadata_app, Hi1, Hi2, Hf1, Hf2.
        split; [reflexivity | discriminate]. }
    clear Hevery Hc. destruct every as [|a articles].
    { cbn [value_of world_of trace_of fst snd].
      rewrite !write_outcomes_app, !written_metadata_app, Hi1, Hi2, Hf1, Hf2.
      split; [reflexivity|]. intros _. split; [exact Hall | reflexivity]. }
    cbn [value_of world_of trace_of fst snd].
    rewrite !write_outcomes_app, !written_metadata_app, Hi1, Hi2, Hf1, Hf2.
    cbn [app]. rewrite write_outcomes_cons, written_metadata_cons.
    rewrite !write_outcomes_app, !written_metadata_app.
    rewrite index_articles_trace. cbn zeta.
    pose proof (index_loop_written collection_name (a :: articles) 0
                  {| indexed_count := 0; failed_count := 0 |} w2) as Hloop.
    pose proof (index_loop_run collection_name (a :: articles) 0
                  {| indexed_count := 0; failed_count := 0 |} w2) as Hrun.
    cbn zeta in Hloop, Hrun.
    destruct (value_of (index_loop collection_name 0 (a :: articles) _ w2)) as [c|e3];
      cbn [value_of world_of trace_of fst snd].
    - rewrite !write_outcomes_app, !written_metadata_app.
      cbn [write_outcomes written_metadata omap list_omap app]. rewrite !app_nil_r.
      split; [exact Hloop|]. intros _. split; [exact Hall|].
      destruct Hrun as (_ & Hlen & _). exact Hlen.
    - cbn [write_outcomes written_metadata omap list_omap app]. rewrite !app_nil_r.
      split; [exact Hloop | discriminate]. }
  destruct Hwritten as [Hwritten Hreturns].
  split; [exact Hwritten|]. split; [|exact Hreturns].
  rewrite Hwritten. apply Forall_fmap.
  apply Forall_take.
  eapply Forall_impl; [apply source_url_of_feed_articles|].
  intros a Hin. exists (source_url a). split; [exact Hin|].
  cbn beta.
  assert (Hshort : Forall (fun url => slice_to 300 url = url)
                     (rss_public_urls ++ rss_vsd_urls))
    by (repeat constructor).
  rewrite Forall_forall in Hshort.
  unfold metadata_of. rewrite <- (Hshort _ Hin) at 2. reflexivity.
Qed.

(** A scrape that finds no item.  When each of the ten feeds is fetched and
    holds no item, the collection is set up and the backup file is written,
    [scrape_and_index] returns without a write to the index: the backup file
    receives the empty list, every feed is logged as
    [Failed to extract content from ...] although its request succeeded, and
    the run ends with [Extracted 0 articles total] and
    [No articles to index.]. *)
Theorem scrape_without_items_indexes_nothing {W : Type} `{!ZeroEntropy W} `{!Builtins}
    `{!Parsers} `{!Files W} (collection_name : string) (w : W) :
  let urls := rss_public_urls ++ rss_vsd_urls in
  let init := initialize_collection collection_name w in
  let saved := dump_json "articles.json" [] (world_of init) in
  (forall url, url ∈ urls -> exists soup, fetch_feed url = Ok soup /\ find_all "item" soup = []) ->
  value_of init = Ok tt ->
  saved.2 = Ok tt ->
  scrape_and_index collection_name w =
  (saved.1,
   trace_of init
     ++ ((fun url => EvLog WARNING ("Failed to extract content from " +:+ url)) <$> urls)
     ++ [ EvLog INFO "Extracted 0 articles total";
          EvLog WARNING "No articles to index." ],
   Ok tt).
Proof.
  cbn zeta. intros Hfeeds Hinit Hsaved.
  assert (Hempty : forall urls,
            (forall url, url ∈ urls ->
               exists soup, fetch_feed url = Ok soup /\ find_all "item" soup = []) ->
            for_each get_rss_feed_content urls = Ok ((fun _ => []) <$> urls)
            /\ feed_lines urls
               = (fun url => EvLog WARNING ("Failed to extract content from " +:+ url))
                   <$> urls).
  { induction urls as [|url rest IH]; intros Hall; [split; reflexivity|].
    destruct (Hall url (list_elem_of_here _ _)) as (soup & Hsoup & Hitems).
    destruct IH as [IH1 IH2].
    { intros u Hu. apply Hall, list_elem_of_further, Hu. }
    assert (Hg : get_rss_feed_content url = Ok []).
    { unfold get_rss_feed_content. rewrite Hsoup. cbn [rbind]. rewrite Hitems. reflexivity. }
    simpl. rewrite Hg, IH1, IH2. split; reflexivity. }
  destruct (Hempty _ Hfeeds) as [Heach Hlines].
  rewrite scrape_and_index_run. cbn zeta. rewrite Hinit, Heach, Hlines.
  replace (concat ((fun _ : string => @nil article) <$> rss_public_urls ++ rss_vsd_urls))
    with (@nil article) by reflexivity.
  rewrite Hsaved. reflexivity.
Qed.

Lemma scrape_without_items_indexes_nothing_witness :
  logged WARNING
    (trace_of (@scrape_and_index Stub.world Stub.client (CPython.process 0)
                 Sample.parsers_without_items Sample.files "my_articles" Stub.empty))
  = ((fun url => "Failed to extract content from " +:+ url)
       <$> rss_public_urls ++ rss_vsd_urls)
    ++ ["No articles to index."].
Proof.
  rewrite (@scrape_without_items_indexes_nothing Stub.world Stub.client (CPython.process 0)
             Sample.parsers_without_items Sample.files "my_articles" Stub.empty).
  - reflexivity.
  - intros url _. eexists. split; reflexivity.
  - reflexivity.
  - reflexivity.
Defined.

(** ** The text of an article *)

Lemma lstrip_head (s : string) (c : ascii) :
  head_char (lstrip s) = Some c -> isspace c = false.
Proof.
  induction s as [|d s IH]; simpl; [discriminate|].
  destruct (isspace d) eqn:Hd; [exact IH|].
  simpl. intros [= <-]. exact Hd.
Qed.

Lemma rstrip_last (s : string) (c : ascii) :
  last_char (rstrip s) = Some c -> isspace c = false.
Proof.
  induction s as [|d s IH]; simpl; [discriminate|].
  destruct (rstrip s) as [|e r] eqn:Hr.
  - destruct (isspace d) eqn:Hd; simpl; [discriminate|].
    intros [= <-]. exact Hd.
  - exact IH.
Qed.

Lemma rstrip_head (s : string) (c : ascii) :
  head_char (rstrip s) = Some c -> head_char s = Some c.
Proof.
  destruct s as [|d s]; simpl; [discriminate|].
  destruct (rstrip s) as [|e r]; [destruct (isspace d)|]; simpl; congruence.
Qed.

Lemma trimmed_strip (s : string) : trimmed (strip s).
Proof.
  unfold strip. split; intros c Hc.
  - apply rstrip_head in Hc. apply (lstrip_head s), Hc.
  - apply (rstrip_last (lstrip s)), Hc.
Qed.

Lemma head_char_app (s t : string) :
  s <> "" -> head_char (s +:+ t) = head_char s.
Proof. destruct s; [contradiction | reflexivity]. Qed.

Lemma last_char_app (s t : string) :
  t <> "" -> last_char (s +:+ t) = last_char t.
Proof.
  intros Ht. induction s as [|c s IH]; [reflexivity|].
  simpl. rewrite IH. destruct (s +:+ t) eqn:Hst; [|reflexivity].
  destruct s; simpl in Hst; [contradiction | discriminate].
Qed.

Lemma join_nonempty (sep p : string) (rest : list string) :
  p <> "" -> join sep (p :: rest) <> "".
Proof.
  intros Hp. simpl. destruct rest; [exact Hp|].
  destruct p; [contradiction | discriminate].
Qed.

Lemma trimmed_join (sep : string) (parts : list string) :
  Forall (fun p => p <> "" /\ trimmed p) parts -> trimmed (join sep parts).
Proof.
  induction 1 as [|p rest [Hp [Hhead Hlast]] Hrest IH].
  - split; discriminate.
  - destruct rest as [|q rest]; [split; assumption|].
    change (join sep (p :: q :: rest)) with (p +:+ sep +:+ join sep (q :: rest)).
    inversion Hrest as [|? ? [Hq _] _]; subst.
    split; intros c.
    + rewrite head_char_app by exact Hp. apply Hhead.
    + pose proof (join_nonempty sep q rest Hq) as Hj.
      rewrite last_char_app.
      2:{ destruct sep; [exact Hj | discriminate]. }
      rewrite last_char_app by exact Hj. apply IH.
Qed.

Lemma trimmed_get_text (sep : string) (n : node) : trimmed (get_text sep n).
Proof.
  unfold get_text. apply trimmed_join, List.Forall_forall. intros p Hin.
  apply filter_In in Hin as [Hin Hp]. split.
  - unfold nonempty in Hp. apply negb_true_iff, String.eqb_neq in Hp. exact Hp.
  - apply list_elem_of_In, list_elem_of_fmap in Hin as (s & -> & _). apply trimmed_strip.
Qed.

Lemma head_char_replace (a b : ascii) (s : string) :
  head_char (replace_char a b s)
  = (fun c => if Ascii.eqb c a then b else c) <$> head_char s.
Proof. destruct s; reflexivity. Qed.

Lemma last_char_replace (a b : ascii) (s : string) :
  last_char (replace_char a b s)
  = (fun c => if Ascii.eqb c a then b else c) <$> last_char s.
Proof.
  induction s as [|c s IH]; [reflexivity|].
  simpl. rewrite IH. destruct s; reflexivity.
Qed.

Lemma trimmed_replace (a b : ascii) (s : string) :
  isspace a = true -> trimmed s -> trimmed (replace_char a b s).
Proof.
  intros Ha [Hhead Hlast]. split; intros c.
  - rewrite head_char_replace. destruct (head_char s) as [d|]; [|discriminate].
    simpl. specialize (Hhead d eq_refl).
    destruct (Ascii.eqb_spec d a) as [->|_]; [congruence|]. intros [= <-]. exact Hhead.
  - rewrite last_char_replace. destruct (last_char s) as [d|]; [|discriminate].
    simpl. specialize (Hlast d eq_refl).
    destruct (Ascii.eqb_spec d a) as [->|_]; [congruence|]. intros [= <-]. exact Hlast.
Qed.

Lemma has_char_replace (a b : ascii) (s : string) :
  a <> b -> has_char a (replace_char a b s) = false.
Proof.
  intros Hab. induction s as [|c s IH]; [reflexivity|].
  simpl. rewrite IH, orb_false_r.
  destruct (Ascii.eqb_spec c a) as [->|Hc]; apply Ascii.eqb_neq; congruence.
Qed.

Lemma rstrip_trimmed (s : string) :
  (forall c, last_char s = Some c -> isspace c = false) -> rstrip s = s.
Proof.
  induction s as [|c s IH]; [reflexivity|]. intros Hlast. simpl.
  destruct s as [|d s].
  - simpl. rewrite (Hlast c eq_refl). reflexivity.
  - rewrite IH by exact Hlast. reflexivity.
Qed.

Lemma strip_trimmed (s : string) : trimmed s -> strip s = s.
Proof.
  intros [Hhead Hlast]. unfold strip.
  assert (Hl : lstrip s = s).
  { destruct s as [|c s]; [reflexivity|]. simpl. rewrite (Hhead c eq_refl). reflexivity. }
  rewrite Hl. apply rstrip_trimmed, Hlast.
Qed.

Lemma trimmed_text_or_na `{!Parsers} (item : node) (name : string) :
  trimmed (text_or_na item name).
Proof.
  unfold text_or_na. destruct (find name item); [apply trimmed_get_text|].
  split; intros c [= <-]; reflexivity.
Qed.

Lemma trimmed_clean_html `{!Parsers} (text : string) : trimmed (clean_html text).
Proof.
  unfold clean_html. apply trimmed_replace; [reflexivity | apply trimmed_get_text].
Qed.

(** Every text an article carries is stripped.  Whatever the feed item and
    whatever the HTML parser makes of its body, the title, the creator, the
    description, the publication date, each category and the content of the
    article built from the item have no white space at either end: stripping
    them again changes nothing.  The content has no newline either. *)
Theorem article_texts_are_stripped `{!Parsers} (url : string) (item : node) :
  let a := article_of_item url item in
  strip (title a) = title a
  /\ strip (creator a) = creator a
  /\ strip (description a) = description a
  /\ strip (pub_date a) = pub_date a
  /\ Forall (fun category => strip category = category) (categories a)
  /\ strip (content a) = content a
  /\ has_char "010" (content a) = false.
Proof.
  cbn zeta. unfold article_of_item.
  cbn [title creator description pub_date categories content].
  repeat split; try (apply strip_trimmed, trimmed_text_or_na).
  - apply Forall_fmap, Forall_forall. intros tag _.
    apply strip_trimmed, trimmed_get_text.
  - apply strip_trimmed. destruct (negb _); apply trimmed_clean_html.
  - destruct (negb _); unfold clean_html; apply has_char_replace; discriminate.
Qed.

(** The encoded body decides the content.  For a feed item that has a
    [content:encoded] element, the content of the article is the clean-up of
    the text of that element and the description plays no part, unless that
    text reads [N/A]: then the body counts as absent and the content is the
    clean-up of the description. *)
Theorem encoded_body_decides_the_content `{!Parsers} (url : string) (item tag : node) :
  find "content:encoded" item = Some tag ->
  let a := article_of_item url item in
  (get_text "" tag <> "N/A" -> content a = clean_html (get_text "" tag))
  /\ (get_text "" tag = "N/A" -> content a = clean_html (description a)).
Proof.
  intros Hfind. cbn zeta. unfold article_of_item. cbn [content description].
  assert (Htext : text_or_na item "content:encoded" = get_text "" tag)
    by (unfold text_or_na; rewrite Hfind; reflexivity).
  rewrite Htext. split.
  - intros Hne. apply String.eqb_neq in Hne. rewrite Hne. reflexivity.
  - intros ->. reflexivity.
Qed.

Lemma encoded_body_decides_the_content_witness :
  content (@article_of_item Sample.parsers_with_feed "https://vsd.fr/tele/feed/"
             (Elem "item"
                [ Elem "description" [Text "<p>The star is back.</p>"];
                  Elem "content:encoded"
                    [Text "<p>After ten years, the star is <b>back</b>.</p>"] ]))
  = "After ten years, the star is back ."
  /\ content (@article_of_item Sample.parsers_with_feed "https://vsd.fr/tele/feed/"
                (Elem "item"
                   [ Elem "description" [Text "<p>The star is back.</p>"];
                     Elem "content:encoded" [Text " N/A "] ]))
     = "The star is back.".
Proof.
  split.
  - destruct (@encoded_body_decides_the_content Sample.parsers_with_feed "https://vsd.fr/tele/feed/"
                (Elem "item"
                   [ Elem "description" [Text "<p>The star is back.</p>"];
                     Elem "content:encoded"
                       [Text "<p>After ten years, the star is <b>back</b>.</p>"] ])
                (Elem "content:encoded"
                   [Text "<p>After ten years, the star is <b>back</b>.</p>"])
                eq_refl) as [Hbody _].
    rewrite Hbody; [vm_compute; reflexivity | discriminate].
  - destruct (@encoded_body_decides_the_content Sample.parsers_with_feed "https://vsd.fr/tele/feed/"
                (Elem "item"
                   [ Elem "description" [Text "<p>The star is back.</p>"];
                     Elem "content:encoded" [Text " N/A "] ])
                (Elem "content:encoded" [Text " N/A "])
                eq_refl) as [_ Hna].
    rewrite Hna; [vm_compute; reflexivity | reflexivity].
Defined.

(** ** Dropping scripts and styles *)

(** Induction on a parsed document, with the property known of every child
    of an element. *)
Lemma node_children_ind (P : node -> Prop) :
  (forall s, P (Text s)) ->
  (forall s, P (Comment s)) ->
  (forall name children, Forall P children -> P (Elem name children)) ->
  forall n, P n.
Proof.
  intros HText HComment HElem. fix IH 1. intros [s|s|name children].
  - apply HText.
  - apply HComment.
  - apply HElem. induction children as [|c cs IHcs]; constructor; [apply IH | exact IHcs].
Qed.

Lemma decompose_elem (names : list string) (name : string) (children : list node) :
  decompose names (Elem name children)
  = Elem name (decompose names <$> List.filter (fun c => negb (named names c)) children).
Proof.
  simpl. f_equal. induction children as [|c cs IH]; [reflexivity|].
  simpl. destruct (named names c); simpl; rewrite IH; reflexivity.
Qed.

Lemma named_decompose (names names' : list string) (n : node) :
  named names' (decompose names n) = named names' n.
Proof. destruct n; reflexivity. Qed.

Lemma decompose_leaves_none (names : list string) (n : node) :
  Forall (fun d => named names d = false) (descendants (decompose names n)).
Proof.
  induction n as [s|s|name children IH] using node_children_ind; [constructor..|].
  rewrite decompose_elem. cbn [descendants].
  induction IH as [|c cs Hc _ IHcs]; [constructor|].
  simpl. destruct (named names c) eqn:Hnamed; simpl; [exact IHcs|].
  constructor; [rewrite named_decompose; exact Hnamed|].
  apply Forall_app. split; [exact Hc | exact IHcs].
Qed.

Lemma decompose_strings (names : list string) (n : node) :
  sublist (strings (decompose names n)) (strings n).
Proof.
  induction n as [s|s|name children IH] using node_children_ind; [reflexivity..|].
  rewrite decompose_elem. cbn [strings].
  induction IH as [|c cs Hc _ IHcs]; [constructor|].
  simpl. destruct (named names c); simpl.
  - apply sublist_inserts_l, IHcs.
  - apply sublist_app; [exact Hc | exact IHcs].
Qed.

Lemma decompose_clean (names : list string) (n : node) :
  Forall (fun d => named names d = false) (descendants n) -> decompose names n = n.
Proof.
  induction n as [s|s|name children IH] using node_children_ind; [reflexivity..|].
  intros Hclean. rewrite decompose_elem. f_equal. cbn [descendants] in Hclean.
  induction IH as [|c cs Hc _ IHcs]; [reflexivity|].
  simpl in Hclean. inversion Hclean as [|? ? Hnamed Hrest]; subst.
  apply Forall_app in Hrest as [Hbelow Hrest].
  cbn [List.filter]. rewrite Hnamed. cbn [negb fmap list_fmap].
  rewrite (Hc Hbelow). f_equal. apply IHcs, Hrest.
Qed.

Lemma sublist_filter_fmap {A B} (f : A -> B) (p : B -> bool) (l k : list A) :
  sublist l k -> sublist (List.filter p (f <$> l)) (List.filter p (f <$> k)).
Proof.
  induction 1 as [|x l k _ IH|x l k _ IH]; simpl.
  - constructor.
  - destruct (p (f x)); [constructor|]; exact IH.
  - destruct (p (f x)); [constructor|]; exact IH.
Qed.

(** What the clean-up drops.  After the loop that decomposes the elements
    named in [names] ([script] and [style] in the program), no element of the
    tree bears one of the names, at any depth; the strings left are strings
    of the document, in their order, so that the pieces [get_text] joins
    after the loop are among the pieces it would join before it; and a
    document without such an element is left as it is, so that running the
    loop a second time changes nothing. *)
Theorem decompose_drops_named_elements (names : list string) (soup : node) :
  let cleaned := decompose names soup in
  Forall (fun d => named names d = false) (descendants cleaned)
  /\ sublist (strings cleaned) (strings soup)
  /\ sublist (List.filter nonempty (strip <$> strings cleaned))
             (List.filter nonempty (strip <$> strings soup))
  /\ (Forall (fun d => named names d = false) (descendants soup) -> cleaned = soup)
  /\ decompose names cleaned = cleaned.
Proof.
  cbn zeta. split; [apply decompose_leaves_none|].
  split; [apply decompose_strings|].
  split; [apply sublist_filter_fmap, decompose_strings|].
  split; [apply decompose_clean|].
  apply decompose_clean, decompose_leaves_none.
Qed.

(** ** The keys and the progress lines of a run *)

Lemma written_paths_app (t1 t2 : list event) :
  written_paths (t1 ++ t2) = written_paths t1 ++ written_paths t2.
Proof. apply omap_app. Qed.

Lemma written_paths_cons (e : event) (t : list event) :
  written_paths (e :: t) =
  match e with
  | EvDocumentsAdd _ path _ _ _ => path :: written_paths t
  | _ => written_paths t
  end.
Proof. destruct e; reflexivity. Qed.

Lemma written_paths_progress_line (n : nat) : written_paths (progress_line n) = [].
Proof. unfold progress_line; destruct (_ =? _)%nat; reflexivity. Qed.

Lemma written_contents_app (t1 t2 : list event) :
  written_contents (t1 ++ t2) = written_contents t1 ++ written_contents t2.
Proof. apply omap_app. Qed.

Lemma written_contents_cons (e : event) (t : list event) :
  written_contents (e :: t) =
  match e with
  | EvDocumentsAdd c _ content _ _ => (c, content) :: written_contents t
  | _ => written_contents t
  end.
Proof. destruct e; reflexivity. Qed.

Lemma written_contents_progress_line (n : nat) : written_contents (progress_line n) = [].
Proof. unfold progress_line; destruct (_ =? _)%nat; reflexivity. Qed.

Lemma logged_info_progress_line (n : nat) :
  logged INFO (progress_line n) = if reported n then [progress_message n] else [].
Proof. unfold progress_line, reported; destruct (_ =? _)%nat; reflexivity. Qed.

(** The ordinal can be read off a key. *)
Lemma doc_path_ordinal `{!Builtins} (i j : nat) (a b : article) :
  doc_path i a = doc_path j b -> i = j.
Proof.
  unfold doc_path. intros Heq. simpl in Heq. injection Heq as Heq.
  apply digits_then_underscore in Heq as [Hi _]; try apply pretty_nat_digits.
  exact (pretty_nat_inj _ _ Hi).
Qed.

Section KeysAndProgress.
Context {W : Type} `{!ZeroEntropy W} `{!Builtins}.
Variable collection_name : string.

Lemma index_loop_keys (articles : list article) (idx : nat) (c : counters) (w : W) :
  let t := trace_of (index_loop collection_name idx articles c w) in
  let reached := take (length (write_outcomes t)) articles in
  written_paths t = imap (fun i a => doc_path (idx + i) a) reached
  /\ written_contents t = (fun a => (collection_name, content_of a)) <$> reached.
Proof.
  revert idx c w; induction articles as [|a rest IH]; intros idx c w.
  - split; reflexivity.
  - cbn zeta. simpl index_loop. rewrite bind_run, index_one_run.
    destruct (documents_add _ _ _ _ w) as [w1 [[]|e]].
    + cbn [value_of world_of trace_of fst snd].
      set (c1 := {| indexed_count := S (indexed_count c); failed_count := failed_count c |}).
      specialize (IH (S idx) c1 w1). cbn zeta in IH. destruct IH as [IHp IHc].
      destruct (value_of (index_loop collection_name (S idx) rest c1 w1)) as [c'|e];
        cbn [value_of world_of trace_of fst snd];
        rewrite <- app_comm_cons, write_outcomes_cons, written_paths_cons,
          written_contents_cons, write_outcomes_app, written_paths_app,
          written_contents_app, write_outcomes_progress_line, written_paths_progress_line,
          written_contents_progress_line;
        cbn [app length take fmap list_fmap]; rewrite IHp, IHc, imap_cons, Nat.add_0_r;
        (split; [|reflexivity]); f_equal; apply imap_ext; intros i x _; simpl;
        f_equal; lia.
    + destruct e; cbn [value_of world_of trace_of fst snd];
        try (split; cbn; rewrite ?Nat.add_0_r; reflexivity).
      specialize (IH (S idx) c w1). cbn zeta in IH. destruct IH as [IHp IHc].
      destruct (value_of (index_loop collection_name (S idx) rest c w1)) as [c'|e];
        cbn [value_of world_of trace_of fst snd];
        rewrite <- app_comm_cons, write_outcomes_cons, written_paths_cons,
          written_contents_cons, <- app_comm_cons, write_outcomes_cons, written_paths_cons,
          written_contents_cons;
        cbn [app length take fmap list_fmap]; rewrite IHp, IHc, imap_cons, Nat.add_0_r;
        (split; [|reflexivity]); f_equal; apply imap_ext; intros i x _; simpl;
        f_equal; lia.
Qed.

Lemma index_loop_progress (articles : list article) (idx : nat) (c : counters) (w : W) :
  let t := trace_of (index_loop collection_name idx articles c w) in
  logged INFO t
  = progress_message
      <$> List.filter reported (seq (S (indexed_count c)) (successes (write_outcomes t))).
Proof.
  revert idx c w; induction articles as [|a rest IH]; intros idx c w.
  - reflexivity.
  - cbn zeta. simpl index_loop. rewrite bind_run, index_one_run.
    destruct (documents_add _ _ _ _ w) as [w1 [[]|e]].
    + cbn [value_of world_of trace_of fst snd].
      set (c1 := {| indexed_count := S (indexed_count c); failed_count := failed_count c |}).
      specialize (IH (S idx) c1 w1). cbn zeta in IH.
      destruct (value_of (index_loop collection_name (S idx) rest c1 w1)) as [c'|e];
        cbn [value_of world_of trace_of fst snd];
        rewrite <- app_comm_cons, write_outcomes_cons, logged_cons,
          write_outcomes_app, logged_app, write_outcomes_progress_line,
          logged_info_progress_line;
        cbn [app]; rewrite IH; unfold successes; cbn [List.filter is_ok length seq];
        destruct (reported (S (indexed_count c))); reflexivity.
    + destruct e; cbn [value_of world_of trace_of fst snd]; try reflexivity.
      specialize (IH (S idx) c w1). cbn zeta in IH.
      destruct (value_of (index_loop collection_name (S idx) rest c w1)) as [c'|e];
        cbn [value_of world_of trace_of fst snd];
        rewrite <- app_comm_cons, write_outcomes_cons, logged_cons,
          <- app_comm_cons, write_outcomes_cons, logged_cons;
        cbn [app]; rewrite IH; reflexivity.
Qed.
End KeysAndProgress.

(** Every write of a run has a key of its own.  In a run of
    [index_articles], the write for the article at ordinal [i] goes to the
    indexer's collection under the key [doc_path i], with the content built
    from that article; so the keys of one run are pairwise different,
    whatever the titles and whatever the string hash: a conflict that a run
    meets is never with a document the same run wrote. *)
Theorem every_write_has_a_key_of_its_own {W : Type} `{!ZeroEntropy W} `{!Builtins}
    (collection_name : string) (articles : list article) (w : W) :
  let t := trace_of (index_articles collection_name articles w) in
  let reached := take (length (write_outcomes t)) articles in
  written_paths t = imap doc_path reached
  /\ written_contents t = (fun a => (collection_name, content_of a)) <$> reached
  /\ NoDup (written_paths t).
Proof.
  cbn zeta.
  pose proof (index_loop_keys collection_name articles 0
                {| indexed_count := 0; failed_count := 0 |} w) as Hkeys.
  cbn zeta in Hkeys. rewrite index_articles_trace. cbn zeta.
  assert (Hsame : forall loop : W * list event * outcome counters,
    let t := trace_of
               match value_of loop with
               | Ok c => (world_of loop, trace_of loop ++ [EvLog INFO (report c)], Ok tt)
               | Raise e => (world_of loop, trace_of loop, Raise e)
               end in
    write_outcomes t = write_outcomes (trace_of loop)
    /\ written_paths t = written_paths (trace_of loop)
    /\ written_contents t = written_contents (trace_of loop)).
  { intros loop. cbn zeta. destruct (value_of loop); cbn [trace_of fst snd].
    - rewrite write_outcomes_app, written_paths_app, written_contents_app.
      cbn. rewrite !app_nil_r. repeat split.
    - repeat split. }
  destruct (Hsame (index_loop collection_name 0 articles
                     {| indexed_count := 0; failed_count := 0 |} w)) as (-> & -> & ->).
  destruct Hkeys as [Hpaths Hcontents].
  split; [exact Hpaths|]. split; [exact Hcontents|].
  rewrite Hpaths. apply NoDup_alt. intros i j key Hi Hj.
  rewrite list_lookup_imap in Hi, Hj.
  destruct (take _ articles !! i) as [a|]; [|discriminate].
  destruct (take _ articles !! j) as [b|]; [|discriminate].
  injection Hi as Hi. injection Hj as Hj.
  apply (doc_path_ordinal i j a b). congruence.
Qed.

(** One progress line per ten articles indexed.  The lines a run of
    [index_articles] logs at level INFO are [Indexed n articles...] for the
    multiples of ten among 1, ..., the number of writes that went through, in
    increasing order, followed by the final report when the run returns; an
    article that is skipped moves no count and gets no line. *)
Theorem progress_is_logged_every_tenth_article {W : Type} `{!ZeroEntropy W} `{!Builtins}
    (collection_name : string) (articles : list article) (w : W) :
  let run := index_articles collection_name articles w in
  let indexed := successes (write_outcomes (trace_of run)) in
  logged INFO (trace_of run)
  = (progress_message <$> List.filter reported (seq 1 indexed))
    ++ match value_of run with
       | Ok _ =>
           ["Indexing complete. Success: " +:+ pretty indexed +:+ ", Failed: 0"]
       | Raise _ => []
       end.
Proof.
  cbn zeta.
  pose proof (index_loop_progress collection_name articles 0
                {| indexed_count := 0; failed_count := 0 |} w) as Hlines.
  pose proof (index_loop_run collection_name articles 0
                {| indexed_count := 0; failed_count := 0 |} w) as Hrun.
  cbn zeta in Hlines, Hrun. rewrite index_articles_trace. cbn zeta.
  destruct (value_of (index_loop collection_name 0 articles _ w)) as [c|e];
    cbn [value_of world_of trace_of fst snd].
  - rewrite write_outcomes_app, logged_app, Hlines. cbn [indexed_count].
    replace (write_outcomes [EvLog INFO (report c)]) with (@nil (outcome unit))
      by reflexivity.
    rewrite app_nil_r. f_equal.
    destruct Hrun as (_ & _ & Hindexed & Hfailed & _).
    cbn [indexed_count failed_count] in Hindexed, Hfailed.
    unfold report. rewrite Hindexed, Hfailed. reflexivity.
  - rewrite Hlines, app_nil_r. reflexivity.
Qed.

(** ** Updating a document *)

(** An update reports success or raises.  [update_document_metadata] asks
    the service once, for the collection given or, when none is given, for
    the utility's own; when the service accepts the update it logs one line
    of success and returns [True]; when the service refuses, the error is
    the caller's and nothing is logged.  It never returns [False]. *)
Theorem update_reports_success_or_raises {W : Type} `{!Documents W}
    (self_collection_name path : string) (metadata : gmap string string)
    (collection_name : option string) (w : W) :
  let asked := documents_update (default self_collection_name collection_name)
                 path metadata w in
  let run := update_document_metadata self_collection_name path metadata
               collection_name w in
  world_of run = asked.1
  /\ value_of run <> Ok false
  /\ match asked.2 with
     | Ok _ =>
         value_of run = Ok true
         /\ trace_of run = [EvLog INFO ("Successfully updated metadata for document: " +:+ path)]
     | Raise e => value_of run = Raise e /\ trace_of run = []
     end.
Proof.
  cbn zeta. unfold update_document_metadata. rewrite effect_bind_run. cbn zeta.
  destruct (documents_update _ path metadata w) as [w1 [[]|e]];
    cbn [fst snd value_of world_of trace_of]; repeat split; discriminate.
Qed.

(** ** The model at work *)

(** Two paths of a shelf of three are deleted; a path the shelf does not
    hold stops the batch after the first deletion. *)
Example batch_delete_on_a_shelf :
  let run := @batch_delete_documents Sample.shelf Sample.documents "articles"
               ["a"; "c"] None ["a"; "b"; "c"] in
  let stopped := @batch_delete_documents Sample.shelf Sample.documents "articles"
                   ["a"; "z"; "c"] None ["a"; "b"; "c"] in
  world_of run = ["b"]
  /\ match value_of run with
     | Ok results => [results !! "a"; results !! "b"; results !! "c"]
     | Raise _ => []
     end = [Some true; None; Some true]
  /\ stopped = (["b"; "c"], [EvLog INFO "Successfully deleted document: a"],
                Raise (APIError "NotFoundError")).
Proof. vm_compute. repeat split; reflexivity. Qed.

Example list_documents_on_a_shelf :
  @list_documents_in_collection Sample.shelf Sample.documents "articles" None 2
    ["a"; "b"; "c"]
  = (["a"; "b"; "c"], [], Ok [ {["path" := VStr "a"]}; {["path" := VStr "b"]} ]).
Proof. vm_compute. reflexivity. Qed.

(** A scrape of ten feeds of which one holds two items. *)
Example scrape_of_one_feed :
  let run := @scrape_and_index Stub.world Stub.client (CPython.process 0)
               Sample.parsers_with_feed Sample.files "my_articles" Stub.empty in
  value_of run = Ok tt
  /\ (fun md => md !! "title") <$> written_metadata (trace_of run)
     = [Some "Star returns to TV"; Some "Royal family"]
  /\ (fun md => md !! "categories") <$> written_metadata (trace_of run)
     = [Some "tele, people"; Some ""]
  /\ snd <$> written_contents (trace_of run)
     = [ content_of
           {| title := "Star returns to TV";
              creator := "Jane Doe";
              categories := ["tele"; "people"];
              description := "<p>The star is back.</p>";
              pub_date := "N/A";
              content := "After ten years, the star is back .";
              source_url := "https://vsd.fr/tele/feed/" |};
         content_of
           {| title := "Royal family";
              creator := "N/A";
              categories := [];
              description := "A visit";
              pub_date := "N/A";
              content := "A visit";
              source_url := "https://vsd.fr/tele/feed/" |} ]
  /\ logged WARNING (trace_of run)
     = (fun url => "Failed to extract content from " +:+ url)
         <$> List.filter (fun url => negb (String.eqb url "https://vsd.fr/tele/feed/"))
               (rss_public_urls ++ rss_vsd_urls)
  /\ last (logged INFO (trace_of run))
     = Some "Successfully scraped and indexed articles in ZeroEntropy.".
Proof. vm_compute. repeat split; reflexivity. Qed.
